(** * Capability-aware enhancement of a Business Central OpenAPI document

    A shallow embedding of [src/edmx_to_enhanced_openapi.py]
    (class [EdmxToEnhancedOpenApiConverter]) and the properties of its
    enhancement pipeline.

    Conventions of the embedding.
    - A Python [str] is a [string]; the patterns the code searches for are
      ASCII, and [lower()] is the ASCII one.
    - A value read by [json.load] is a [json]; a Python [dict] is an
      association list in insertion order.  Its keys are distinct; the
      statements that need this say so with [NoDup].
    - A call returns [Ok] with its value, or [Raised] when a Python
      exception leaves it.  A stage that changes the document in place
      returns the document afterwards.
    - [print] is kept for [_parse_edmx_capabilities], as the list of
      messages; the other stages print counters that do not reach the
      document, and their output is left out.
    - The metadata document is the tree [ET.parse] returns, or its
      failure; the base document is what the external converter wrote.

    The file has two parts: the embedding with the observations and the
    example documents the statements use, then the properties. *)

From Stdlib Require Import String Ascii List Bool Arith ZArith Lia Floats Permutation.
Import ListNotations.
Open Scope string_scope.
Open Scope list_scope.

(* ================================================================== *)
(** ** Python strings *)

Module PyStr.

(** [s.startswith(p)] *)
Fixpoint startswith (s p : string) {struct p} : bool :=
  match p with
  | EmptyString => true
  | String a p' =>
      match s with
      | EmptyString => false
      | String b s' => Ascii.eqb a b && startswith s' p'
      end
  end.

(** [s[n:]] for [0 <= n] *)
Fixpoint drop (n : nat) (s : string) : string :=
  match n with
  | O => s
  | S k => match s with
           | EmptyString => EmptyString
           | String _ s' => drop k s'
           end
  end.

(** [s[:n]] for [0 <= n] *)
Fixpoint take (n : nat) (s : string) : string :=
  match n with
  | O => EmptyString
  | S k => match s with
           | EmptyString => EmptyString
           | String c s' => String c (take k s')
           end
  end.

(** [s[a:-b]] for [0 <= a] and [0 < b] *)
Definition slice (a b : nat) (s : string) : string :=
  take (String.length s - b - a) (drop a s).

(** [s.endswith(p)] *)
Definition endswith (s p : string) : bool :=
  (String.length p <=? String.length s)%nat
  && String.eqb (drop (String.length s - String.length p) s) p.

(** [sub in s] *)
Fixpoint contains (sub s : string) : bool :=
  startswith s sub
  || match s with
     | EmptyString => false
     | String _ s' => contains sub s'
     end.

(** [s.split(sep)] for a one-character separator *)
Fixpoint split (sep : ascii) (s : string) : list string :=
  match s with
  | EmptyString => [EmptyString]
  | String c s' =>
      if Ascii.eqb c sep then EmptyString :: split sep s'
      else match split sep s' with
           | x :: xs => String c x :: xs
           | [] => [String c EmptyString]
           end
  end.

(** [s.lstrip(c)] for a one-character argument *)
Fixpoint lstrip (c : ascii) (s : string) : string :=
  match s with
  | EmptyString => EmptyString
  | String a s' => if Ascii.eqb a c then lstrip c s' else s
  end.

(** [s.rstrip(c)] for a one-character argument *)
Fixpoint rstrip (c : ascii) (s : string) : string :=
  match s with
  | EmptyString => EmptyString
  | String a s' =>
      match rstrip c s' with
      | EmptyString => if Ascii.eqb a c then EmptyString
                       else String a EmptyString
      | r => String a r
      end
  end.

(** [s.strip(c)] *)
Definition strip (c : ascii) (s : string) : string := rstrip c (lstrip c s).

(** [s.replace(old, new)] for a non-empty [old]: the occurrences are
    replaced from the left and do not overlap.  [skip] counts the
    characters of a matched occurrence that are still to be dropped. *)
Fixpoint replace_from (old new : string) (skip : nat) (s : string) : string :=
  match s with
  | EmptyString => EmptyString
  | String c s' =>
      match skip with
      | S k => replace_from old new k s'
      | O => if startswith s old
             then new ++ replace_from old new (String.length old - 1) s'
             else String c (replace_from old new 0 s')
      end
  end.

Definition replace (old new s : string) : string := replace_from old new 0 s.

(** [s.rsplit(sep, 1)[0]]: what precedes the last separator, or all of
    [s] when it has none. *)
Definition rsplit1_head (sep : ascii) (s : string) : string :=
  match split sep s with
  | [] | [_] => s
  | parts => String.concat (String sep EmptyString) (removelast parts)
  end.

Definition lower_ascii (c : ascii) : ascii :=
  let n := nat_of_ascii c in
  if (65 <=? n)%nat && (n <=? 90)%nat then ascii_of_nat (n + 32) else c.

(** [s.lower()] *)
Fixpoint lower (s : string) : string :=
  match s with
  | EmptyString => EmptyString
  | String c s' => String (lower_ascii c) (lower s')
  end.

(** [s in xs] for a list or a set of strings *)
Definition mem (s : string) (xs : list string) : bool :=
  existsb (String.eqb s) xs.

End PyStr.

(* ================================================================== *)
(** ** Exceptions *)

(** The result of a call: a value, or an exception that reached the
    caller ([TypeError], [AttributeError] and [KeyError] are not told
    apart: none is caught below [main]). *)
Inductive result (A : Type) : Type :=
| Ok (a : A)
| Raised.
Arguments Ok {A} a.
Arguments Raised {A}.

Definition bind {A B : Type} (m : result A) (k : A -> result B) : result B :=
  match m with
  | Ok a => k a
  | Raised => Raised
  end.

Notation "x <- m ;; k" := (bind m (fun x => k))
  (at level 61, m at next level, right associativity).


(* ================================================================== *)
(** ** Python dictionaries, in insertion order *)

Section Dict.
Context {V : Type}.

(** [d.get(k)] *)
Fixpoint dict_get (k : string) (d : list (string * V)) : option V :=
  match d with
  | [] => None
  | (k', v) :: r => if String.eqb k k' then Some v else dict_get k r
  end.

(** [k in d] *)
Definition dict_has (k : string) (d : list (string * V)) : bool :=
  match dict_get k d with Some _ => true | None => false end.

(** [d[k] = v]: an existing key keeps its place, a new one goes last. *)
Fixpoint dict_set (k : string) (v : V) (d : list (string * V))
  : list (string * V) :=
  match d with
  | [] => [(k, v)]
  | (k', v') :: r =>
      if String.eqb k k' then (k, v) :: r else (k', v') :: dict_set k v r
  end.

(** [del d[k]] (every caller checks [k in d] first) *)
Definition dict_del (k : string) (d : list (string * V)) : list (string * V) :=
  filter (fun kv => negb (String.eqb k (fst kv))) d.

(** [list(d.keys())] *)
Definition dict_keys (d : list (string * V)) : list string := map fst d.

End Dict.

(* ================================================================== *)
(** ** JSON values, as [json.load] builds them *)

#[warnings="-register-all"]
Inductive json : Type :=
| JNull
| JBool (b : bool)
| JInt (n : Z)
| JFloat (x : float)
| JStr (s : string)
| JArr (items : list json)
| JObj (members : list (string * json)).

Definition dict : Type := list (string * json).

(** Truth value of a JSON value in an [if]. *)
Definition truthy (v : json) : bool :=
  match v with
  | JNull => false
  | JBool b => b
  | JInt n => negb (Z.eqb n 0)
  | JFloat x => negb (PrimFloat.eqb x 0%float)
  | JStr s => negb (String.eqb s "")
  | JArr l => match l with [] => false | _ => true end
  | JObj d => match d with [] => false | _ => true end
  end.

Definition is_str (s : string) (v : json) : bool :=
  match v with
  | JStr s' => String.eqb s s'
  | _ => false
  end.

(** [k in x] for a string [k]: key of a dict, element of a list,
    substring of a string; a [TypeError] on anything else. *)
Definition py_in (k : string) (x : json) : result bool :=
  match x with
  | JObj d => Ok (dict_has k d)
  | JArr l => Ok (existsb (is_str k) l)
  | JStr s => Ok (PyStr.contains k s)
  | _ => Raised
  end.

(** [x[k]] for a string [k]: only a dict that has the key answers. *)
Definition py_getitem (k : string) (x : json) : result json :=
  match x with
  | JObj d => match dict_get k d with
              | Some v => Ok v
              | None => Raised
              end
  | _ => Raised
  end.

(** [x.items()], [x.keys()]: only a dict has them. *)
Definition py_items (x : json) : result dict :=
  match x with
  | JObj d => Ok d
  | _ => Raised
  end.

(** A loop [for k, v in d.items()] whose body changes [v] in place (or
    raises): the dictionary afterwards. *)
Fixpoint map_items (body : string -> json -> result json) (items : dict)
  : result dict :=
  match items with
  | [] => Ok []
  | (k, v) :: rest =>
      v' <- body k v ;;
      rest' <- map_items body rest ;;
      Ok ((k, v') :: rest')
  end.

(** [x[k] = v] for a string [k]: only a dict takes it. *)
Definition py_setitem (k : string) (v : json) (x : json) : result json :=
  match x with
  | JObj d => Ok (JObj (dict_set k v d))
  | _ => Raised
  end.

(** [del x[k]] for a string [k]: only a dict that has the key. *)
Definition py_delitem (k : string) (x : json) : result json :=
  match x with
  | JObj d => if dict_has k d then Ok (JObj (dict_del k d)) else Raised
  | _ => Raised
  end.

(** [x.append(v)]: only a list has it. *)
Definition py_append (v : json) (x : json) : result json :=
  match x with
  | JArr l => Ok (JArr (l ++ [v]))
  | _ => Raised
  end.

(** [a and b] over conditions that may raise; [b] is not evaluated when
    [a] is false. *)
Definition py_and (a b : result bool) : result bool :=
  x <- a ;; if x then b else Ok false.

(* ================================================================== *)
(** ** The metadata tree ([xml.etree.ElementTree]) *)

(** An element: its tag in the [{namespace}local] form, its attributes and
    its child elements (text is never read by the converter). *)
#[warnings="-register-all"]
Inductive element : Type :=
| Element (tag : string) (attrib : list (string * string))
          (children : list element).

Definition tag (e : element) : string :=
  match e with Element t _ _ => t end.
Definition attrib (e : element) : list (string * string) :=
  match e with Element _ a _ => a end.
Definition children (e : element) : list element :=
  match e with Element _ _ c => c end.

(** What [ET.parse(edmx_file).getroot()] gives: the root, or the
    exception of a file that is missing or not well-formed. *)
Inductive parse_outcome : Type :=
| ParseError (e : string)
| Parsed (root : element).

(** The namespace map of [_parse_edmx_capabilities]: [edm:local]. *)
Definition edm (local : string) : string :=
  "{http://docs.oasis-open.org/odata/ns/edm}" ++ local.

(** [e.get(key)] and [e.get(key, default)] *)
Definition get (e : element) (key : string) : option string :=
  dict_get key (attrib e).
Definition get_default (e : element) (key default : string) : string :=
  match get e key with Some v => v | None => default end.

(** [e.iter()]: the element and its descendants, in document order. *)
Fixpoint iter (e : element) : list element :=
  match e with
  | Element _ _ cs =>
      e :: (fix iter_all (l : list element) : list element :=
              match l with
              | [] => []
              | c :: r => iter c ++ iter_all r
              end) cs
  end.

(** [e.findall('.//t')]: the descendants of [e] ([e] excluded) with tag
    [t], in document order. *)
Definition findall (e : element) (t : string) : list element :=
  filter (fun x => String.eqb (tag x) t) (flat_map iter (children e)).

(** [e.find('.//edm:PropertyValue[@Property="p"]')] *)
Definition find_property_value (e : element) (p : string) : option element :=
  find (fun x => match get x "Property" with
                 | Some v => String.eqb v p
                 | None => false
                 end)
       (findall e (edm "PropertyValue")).

(* ================================================================== *)
(** ** The converter and its capability extractor *)

(** The capability dictionary of one entity set. *)
Record capabilities : Type := mkCapabilities {
  insertable : bool;
  updatable : bool;
  deletable : bool
}.

(** [all(capabilities.values())] *)
Definition all_allowed (c : capabilities) : bool :=
  insertable c && updatable c && deletable c.

(** The two attributes of a converter instance. *)
Record converter : Type := mkConverter {
  edmx_capabilities : list (string * capabilities);
  entity_type_capabilities : list (string * capabilities)
}.

(** [__init__] *)
Definition init : converter := mkConverter [] [].

(** What [_parse_edmx_capabilities] prints. *)
Inductive message : Type :=
| HasRestrictions (entity_set_name entity_type_name : string)
                  (restricted_ops : list string)
| ParsedCount (n : nat)
| Warning (e : string).

(** [pv.get('Bool', 'true').lower() == 'true'] *)
Definition bool_value (pv : element) : bool :=
  String.eqb (PyStr.lower (get_default pv "Bool" "true")) "true".

(** The body of [for annotation in annotations]. *)
Definition apply_annotation (c : capabilities) (annotation : element)
  : capabilities :=
  let term := get_default annotation "Term" "" in
  if PyStr.contains "InsertRestrictions" term then
    match find_property_value annotation "Insertable" with
    | Some pv => mkCapabilities (bool_value pv) (updatable c) (deletable c)
    | None => c
    end
  else if PyStr.contains "UpdateRestrictions" term then
    match find_property_value annotation "Updatable" with
    | Some pv => mkCapabilities (insertable c) (bool_value pv) (deletable c)
    | None => c
    end
  else if PyStr.contains "DeleteRestrictions" term then
    match find_property_value annotation "Deletable" with
    | Some pv => mkCapabilities (insertable c) (updatable c) (bool_value pv)
    | None => c
    end
  else c.

(** The record an entity set ends with: all three allowed, then every
    [Annotation] below it applied in document order. *)
Definition entity_set_capabilities (entity_set : element) : capabilities :=
  fold_left apply_annotation (findall entity_set (edm "Annotation"))
            (mkCapabilities true true true).

(** [entity_type.split('.')[-1] if '.' in entity_type else entity_type] *)
Definition type_name (entity_type : string) : string :=
  if PyStr.contains "." entity_type
  then last (PyStr.split "." entity_type) ""
  else entity_type.

(** [[op for op, allowed in capabilities.items() if not allowed]] *)
Definition restricted_ops (c : capabilities) : list string :=
  (if insertable c then [] else ["insertable"])
  ++ (if updatable c then [] else ["updatable"])
  ++ (if deletable c then [] else ["deletable"]).

(** The body of [for entity_set in entity_sets], on the converter and
    what was printed so far. *)
Definition parse_entity_set (st : converter * list message)
  (entity_set : element) : converter * list message :=
  let '(self, out) := st in
  match get entity_set "Name", get entity_set "EntityType" with
  | Some entity_set_name, Some entity_type =>
      if String.eqb entity_set_name "" || String.eqb entity_type "" then st
      else
        let entity_type_name := type_name entity_type in
        let c := entity_set_capabilities entity_set in
        (mkConverter
           (dict_set entity_set_name c (edmx_capabilities self))
           (dict_set entity_type_name c (entity_type_capabilities self)),
         if all_allowed c then out
         else out ++ [HasRestrictions entity_set_name entity_type_name
                                      (restricted_ops c)])
  | _, _ => st
  end.

(** [_parse_edmx_capabilities]: the converter after the call, and what
    the call printed.  The [except Exception] clause turns a parse
    failure into a warning. *)
Definition _parse_edmx_capabilities (self : converter) (doc : parse_outcome)
  : converter * list message :=
  match doc with
  | Parsed root =>
      let '(self', out) :=
        fold_left parse_entity_set (findall root (edm "EntitySet")) (self, [])
      in (self', out ++ [ParsedCount (List.length (edmx_capabilities self'))])
  | ParseError e => (self, [Warning e])
  end.

(* ================================================================== *)
(** ** Parameter injection *)

(** The shared parameter stored under [components/parameters/company]. *)
Definition company_parameter : json :=
  JObj [("in", JStr "query");
        ("name", JStr "company");
        ("description",
         JStr "The company name to which the request is directed.");
        ("required", JBool true);
        ("schema", JObj [("type", JStr "string"); ("maxLength", JInt 100)])].

(** The reference appended to a path's [parameters]. *)
Definition company_ref : json :=
  JObj [("$ref", JStr "#/components/parameters/company")].

(** The prefixes of the paths that get no [company] parameter. *)
Definition no_company_prefixes : list string :=
  ["/$batch"; "/apicategoryroutes"; "/companies"; "/entitydefinitions";
   "/externalbusinesseventdefinitions"; "/externaleventsubscriptions";
   "/subscriptions"; "/entityDefinitions"].

(** [any(path_name.startswith(prefix) for prefix in [...])] *)
Definition no_company (path_name : string) : bool :=
  existsb (PyStr.startswith path_name) no_company_prefixes.

(** The body of the loop over [spec['paths'].items()]: the path item
    after the reference is appended (or left alone). *)
Definition add_company_ref (path_name : string) (values : json) : result json :=
  if no_company path_name then Ok values
  else
    has <- py_in "parameters" values ;;
    values1 <- (if has then Ok values
                else py_setitem "parameters" (JArr []) values) ;;
    parameters <- py_getitem "parameters" values1 ;;
    parameters' <- py_append company_ref parameters ;;
    py_setitem "parameters" parameters' values1.

(** The loop itself: [new_paths.update({path_name: values})] for every
    item, in order. *)
Fixpoint add_company_refs (items new_paths : dict) : result dict :=
  match items with
  | [] => Ok new_paths
  | (path_name, values) :: rest =>
      values' <- add_company_ref path_name values ;;
      add_company_refs rest (dict_set path_name values' new_paths)
  end.

Definition _add_company_parameter (spec : dict) : result dict :=
  components <- py_getitem "components" (JObj spec) ;;
  has <- py_in "parameters" components ;;
  components1 <- (if has then Ok components
                  else py_setitem "parameters" (JObj []) components) ;;
  parameters <- py_getitem "parameters" components1 ;;
  parameters' <- py_setitem "company" company_parameter parameters ;;
  components2 <- py_setitem "parameters" parameters' components1 ;;
  let spec1 := dict_set "components" components2 spec in
  match dict_get "paths" spec1 with
  | None => Ok spec1
  | Some paths =>
      items <- py_items paths ;;
      new_paths <- add_company_refs items [] ;;
      Ok (dict_set "paths" (JObj new_paths) spec1)
  end.

(* ================================================================== *)
(** ** Path pruning *)

Definition system_prefixes : list string :=
  ["/$batch"; "/apicategoryroutes"; "/entitydefinitions";
   "/externalbusinesseventdefinitions"; "/externaleventsubscriptions";
   "/subscriptions"; "/entityDefinitions"].

(** The flag [is_system_endpoint] once both tests are done. *)
Definition is_system_endpoint (path_name : string) : bool :=
  existsb (fun prefix => String.eqb path_name prefix
                         || PyStr.startswith path_name (prefix ++ "("))
          system_prefixes
  || String.eqb path_name "/companies"
  || String.eqb path_name "/companies({id})".

(** [s.startswith('(') and s.endswith(')')] *)
Definition parenthesized (s : string) : bool :=
  PyStr.startswith s "(" && PyStr.endswith s ")".

(** More than two levels, or two levels whose second is no key. *)
Definition too_deep (levels : list string) : bool :=
  if (2 <? List.length levels)%nat then true
  else if (List.length levels =? 2)%nat
       then negb (parenthesized (nth 1 levels ""))
       else false.

(** Whether the first loop appends [path_name] to [paths_to_remove]. *)
Definition is_navigation_path (path_name : string) : bool :=
  if is_system_endpoint path_name then false
  else if PyStr.startswith path_name "/companies({id})/" then
    let remainder := PyStr.drop 17 path_name in
    let path_levels :=
      filter (fun level => negb (String.eqb level ""))
             (PyStr.split "/" remainder) in
    too_deep path_levels
  else if negb (PyStr.startswith path_name "/companies") then
    too_deep (PyStr.split "/" (PyStr.strip "/" path_name))
  else false.

(** [for k in to_remove: if k in d: del d[k]] *)
Definition remove_keys (to_remove : list string) (d : dict) : dict :=
  fold_left (fun d k => if dict_has k d then dict_del k d else d) to_remove d.

(** [_remove_navigation_paths].  When [spec['paths']] is no dict the
    loops still run over its elements: the characters of a string are
    never navigation paths; a list raises on an element that is no
    string ([startswith]) or that is to be removed ([del] by a string
    index); anything else has no [len]. *)
Definition _remove_navigation_paths (spec : dict) : result dict :=
  match dict_get "paths" spec with
  | None => Ok spec
  | Some (JObj paths) =>
      let paths_to_remove := filter is_navigation_path (dict_keys paths) in
      Ok (dict_set "paths" (JObj (remove_keys paths_to_remove paths)) spec)
  | Some (JStr _) => Ok spec
  | Some (JArr l) =>
      if forallb (fun e => match e with
                           | JStr s => negb (is_navigation_path s)
                           | _ => false
                           end) l
      then Ok spec else Raised
  | Some _ => Raised
  end.

(* ================================================================== *)
(** ** Field scrubbing *)

Definition system_fields : list string :=
  ["systemCreatedAt"; "systemCreatedBy"; "systemModifiedAt"; "systemModifiedBy"].

(** [name.endswith('-create') or name.endswith('-update')] *)
Definition is_mutation_schema (schema_name : string) : bool :=
  PyStr.endswith schema_name "-create" || PyStr.endswith schema_name "-update".

(** The two loops over [properties]: collect the system fields, then
    delete them.  Iterating a list hashes its elements (a list or a dict
    is not hashable) and a collected string cannot index it; the
    characters of a string are never system fields; other values are
    not iterable. *)
Definition scrub_properties (properties : json) : result json :=
  match properties with
  | JObj props =>
      let fields_to_remove :=
        filter (fun f => PyStr.mem f system_fields) (dict_keys props) in
      Ok (JObj (fold_left (fun d f => dict_del f d) fields_to_remove props))
  | JArr l =>
      if forallb (fun e => match e with
                           | JArr _ | JObj _ => false
                           | JStr s => negb (PyStr.mem s system_fields)
                           | _ => true
                           end) l
      then Ok properties else Raised
  | JStr _ => Ok properties
  | _ => Raised
  end.

(** The body of the loop over [schemas.items()]. *)
Definition scrub_schema (schema_name : string) (schema_def : json) : result json :=
  if negb (is_mutation_schema schema_name) then Ok schema_def
  else match schema_def with
       | JObj d =>
           match dict_get "properties" d with
           | None => Ok schema_def
           | Some properties =>
               properties' <- scrub_properties properties ;;
               Ok (JObj (dict_set "properties" properties' d))
           end
       | _ => Ok schema_def
       end.

Definition _remove_system_fields_from_mutation_schemas (spec : dict)
  : result dict :=
  match dict_get "components" spec with
  | None => Ok spec
  | Some components =>
      has <- py_in "schemas" components ;;
      if negb has then Ok spec
      else
        schemas <- py_getitem "schemas" components ;;
        items <- py_items schemas ;;
        items' <- map_items scrub_schema items ;;
        components' <- py_setitem "schemas" (JObj items') components ;;
        Ok (dict_set "components" components' spec)
  end.

(* ================================================================== *)
(** ** Capability enforcement *)

(** [entity_part.split('(')[0] if '(' in entity_part else entity_part] *)
Definition before_paren (entity_part : string) : string :=
  if PyStr.contains "(" entity_part
  then hd "" (PyStr.split "(" entity_part)
  else entity_part.

Definition _extract_entity_set_from_path (path : string) : option string :=
  let path_clean := PyStr.lstrip "/" path in
  if PyStr.startswith path_clean "companies(" then
    let parts := PyStr.split "/" path_clean in
    if (2 <=? List.length parts)%nat
    then Some (before_paren (nth 1 parts ""))
    else None
  else
    match PyStr.split "/" path_clean with
    | entity_part :: _ => Some (before_paren entity_part)
    | [] => None
    end.

Definition _extract_schema_ref_from_responses (responses : json)
  : result (option json) :=
  c1 <- py_and (py_in "200" responses)
               (r <- py_getitem "200" responses ;; py_in "content" r) ;;
  if c1 then
    r <- py_getitem "200" responses ;;
    content <- py_getitem "content" r ;;
    c2 <- py_and (py_in "application/json" content)
                 (a <- py_getitem "application/json" content ;;
                  py_in "schema" a) ;;
    if c2 then
      a <- py_getitem "application/json" content ;;
      schema <- py_getitem "schema" a ;;
      has <- py_in "$ref" schema ;;
      if has then v <- py_getitem "$ref" schema ;; Ok (Some v)
      else Ok None
    else Ok None
  else Ok None.

Definition _extract_schema_ref_from_request_body (request_body : json)
  : result (option json) :=
  c1 <- py_and (py_in "content" request_body)
               (c <- py_getitem "content" request_body ;;
                py_in "application/json" c) ;;
  if c1 then
    c <- py_getitem "content" request_body ;;
    content <- py_getitem "application/json" c ;;
    c2 <- py_and (py_in "schema" content)
                 (s <- py_getitem "schema" content ;; py_in "$ref" s) ;;
    if c2 then
      s <- py_getitem "schema" content ;;
      v <- py_getitem "$ref" s ;;
      Ok (Some v)
    else Ok None
  else Ok None.

(** [_schema_ref_to_entity_type]: anything but a string has no
    [startswith]. *)
Definition _schema_ref_to_entity_type (schema_ref : json)
  : result (option string) :=
  match schema_ref with
  | JStr ref =>
      if negb (PyStr.startswith ref "#/components/schemas/") then Ok None
      else
        let schema_name := PyStr.replace "#/components/schemas/" "" ref in
        if PyStr.startswith schema_name "Microsoft.NAV." then
          let entity_type := PyStr.replace "Microsoft.NAV." "" schema_name in
          Ok (Some (if is_mutation_schema entity_type
                    then PyStr.rsplit1_head "-" entity_type
                    else entity_type))
        else Ok None
  | _ => Raised
  end.

(** [if schema_ref: entity_type = ...; if entity_type: return entity_type]:
    the type the loop returns at this point, if it returns. *)
Definition entity_type_of_ref (schema_ref : option json)
  : result (option string) :=
  match schema_ref with
  | None => Ok None
  | Some v =>
      if truthy v then
        t <- _schema_ref_to_entity_type v ;;
        Ok (match t with
            | Some entity_type =>
                if String.eqb entity_type "" then None else Some entity_type
            | None => None
            end)
      else Ok None
  end.

(** One round of [for method_name in ['get', 'patch']]: [section] is
    ['responses'] for [get] and ['requestBody'] for [patch]. *)
Definition entity_type_of_method (method_name section : string)
  (extract : json -> result (option json)) (path_obj : json)
  : result (option string) :=
  has <- py_in method_name path_obj ;;
  if negb has then Ok None
  else
    method_obj <- py_getitem method_name path_obj ;;
    has_section <- py_in section method_obj ;;
    if has_section then
      s <- py_getitem section method_obj ;;
      schema_ref <- extract s ;;
      entity_type_of_ref schema_ref
    else Ok None.

Definition _extract_entity_type_from_path_methods (path_obj : json) (spec : dict)
  : result (option string) :=
  from_get <- entity_type_of_method "get" "responses"
                _extract_schema_ref_from_responses path_obj ;;
  match from_get with
  | Some entity_type => Ok (Some entity_type)
  | None => entity_type_of_method "patch" "requestBody"
              _extract_schema_ref_from_request_body path_obj
  end.

(** The last segment of the path, cut at its first parenthesis, looked
    up among the entity types. *)
Definition capabilities_of_last_segment (self : converter) (path : string)
  : option capabilities :=
  match PyStr.split "/" (PyStr.rstrip "/" path) with
  | [] => None
  | path_segments =>
      dict_get (before_paren (last path_segments ""))
               (entity_type_capabilities self)
  end.

(** The record found before the override loop: by entity set, else by
    the entity type of the schemas, else by the last segment. *)
Definition find_capabilities (self : converter) (spec : dict)
  (path : string) (path_obj : json) : result (option capabilities) :=
  let by_entity_set :=
    match _extract_entity_set_from_path path with
    | Some entity_set_name =>
        if String.eqb entity_set_name "" then None
        else dict_get entity_set_name (edmx_capabilities self)
    | None => None
    end in
  match by_entity_set with
  | Some c => Ok (Some c)
  | None =>
      entity_type_name <- _extract_entity_type_from_path_methods path_obj spec ;;
      let by_entity_type :=
        match entity_type_name with
        | Some t => dict_get t (entity_type_capabilities self)
        | None => None
        end in
      match by_entity_type with
      | Some c => Ok (Some c)
      | None => Ok (capabilities_of_last_segment self path)
      end
  end.

(** The override loop: the first entity type, in the order of the
    dictionary, whose name after a slash occurs in the path and which
    has a restriction. *)
Definition override_capabilities (self : converter) (path : string)
  (found : option capabilities) : option capabilities :=
  match find (fun kv => PyStr.contains ("/" ++ fst kv) path
                        && negb (all_allowed (snd kv)))
             (entity_type_capabilities self) with
  | Some (_, entity_capabilities) => Some entity_capabilities
  | None => found
  end.

(** [if not allowed and method in path_obj: del path_obj[method]] *)
Definition remove_method (allowed : bool) (method : string) (path_obj : json)
  : result json :=
  if allowed then Ok path_obj
  else
    has <- py_in method path_obj ;;
    if has then py_delitem method path_obj else Ok path_obj.

(** The three removals under [if capabilities:]. *)
Definition apply_capabilities (c : option capabilities) (path_obj : json)
  : result json :=
  match c with
  | None => Ok path_obj
  | Some c =>
      o1 <- remove_method (insertable c) "post" path_obj ;;
      o2 <- remove_method (updatable c) "patch" o1 ;;
      remove_method (deletable c) "delete" o2
  end.

(** The body of the loop over [spec['paths'].items()]. *)
Definition enforce_path (self : converter) (spec : dict)
  (path : string) (path_obj : json) : result json :=
  found <- find_capabilities self spec path path_obj ;;
  apply_capabilities (override_capabilities self path found) path_obj.

Definition _enforce_edmx_capabilities (self : converter) (spec : dict)
  : result dict :=
  match dict_get "paths" spec, edmx_capabilities self with
  | None, _ | _, [] => Ok spec
  | Some paths, _ :: _ =>
      items <- py_items paths ;;
      items' <- map_items (enforce_path self spec) items ;;
      Ok (dict_set "paths" (JObj items') spec)
  end.

(* ================================================================== *)
(** ** Schema pruning *)

(** The test of [extract_schema_refs] on one member of a dict. *)
Definition schema_ref_member (key : string) (value : json) : option string :=
  match value with
  | JStr s =>
      if String.eqb key "$ref" && PyStr.startswith s "#/components/schemas/"
      then Some (PyStr.replace "#/components/schemas/" "" s)
      else None
  | _ => None
  end.

(** [extract_schema_refs]: the set of schema names referenced anywhere
    in [obj], as a list. *)
Fixpoint extract_schema_refs (obj : json) : list string :=
  match obj with
  | JObj d =>
      (fix members (d : list (string * json)) : list string :=
         match d with
         | [] => []
         | (key, value) :: r =>
             match schema_ref_member key value with
             | Some name => [name]
             | None => extract_schema_refs value
             end ++ members r
         end) d
  | JArr l =>
      (fix items (l : list json) : list string :=
         match l with
         | [] => []
         | item :: r => extract_schema_refs item ++ items r
         end) l
  | _ => []
  end.

(** [if method in path_obj: refs = extract_schema_refs(path_obj[method])] *)
Definition refs_of_method (method : string) (path_obj : json)
  : result (list string) :=
  has <- py_in method path_obj ;;
  if has then o <- py_getitem method path_obj ;; Ok (extract_schema_refs o)
  else Ok [].

(** The loop over [spec['paths'].items()]: the sets
    [schemas_used_by_post] and [schemas_used_by_patch]. *)
Fixpoint schemas_used (items : dict) : result (list string * list string) :=
  match items with
  | [] => Ok ([], [])
  | (_, path_obj) :: rest =>
      post_refs <- refs_of_method "post" path_obj ;;
      patch_refs <- refs_of_method "patch" path_obj ;;
      more <- schemas_used rest ;;
      Ok (post_refs ++ fst more, patch_refs ++ snd more)
  end.

(** [schema.replace(suffix, '')], then without a leading
    [Microsoft.NAV.]. *)
Definition base_name (suffix schema : string) : string :=
  let b := PyStr.replace suffix "" schema in
  if PyStr.startswith b "Microsoft.NAV." then PyStr.drop 14 b else b.

(** [not capabilities.get(flag, True)] for the entity type [name], when
    it is known. *)
Definition disallowed (self : converter) (flag : capabilities -> bool)
  (name : string) : bool :=
  match dict_get name (entity_type_capabilities self) with
  | Some c => negb (flag c)
  | None => false
  end.

(** The list [capability_based_removals]. *)
Definition capability_based_removals (self : converter)
  (create_schemas update_schemas : list string) : list string :=
  filter (fun s => disallowed self insertable (base_name "-create" s))
         create_schemas
  ++ filter (fun s => disallowed self updatable (base_name "-update" s))
            update_schemas.

(** Whether the last loop appends [schema_name] to
    [force_remove_schemas]. *)
Definition force_remove (self : converter) (schema_name : string) : bool :=
  if PyStr.startswith schema_name "Microsoft.NAV."
     && is_mutation_schema schema_name
  then
    let entity_type := PyStr.slice 14 7 schema_name in
    match dict_get entity_type (entity_type_capabilities self) with
    | Some c =>
        if PyStr.endswith schema_name "-create" && negb (insertable c)
        then true
        else PyStr.endswith schema_name "-update" && negb (updatable c)
    | None => false
    end
  else false.

(** All the names collected for removal (a Python set; the order in
    which its members are deleted does not change what is left). *)
Definition schemas_to_remove (self : converter)
  (used_by_post used_by_patch all_schemas : list string) : list string :=
  let create_schemas :=
    filter (fun s => PyStr.endswith s "-create") all_schemas in
  let update_schemas :=
    filter (fun s => PyStr.endswith s "-update") all_schemas in
  let unused_create_schemas :=
    filter (fun s => negb (PyStr.mem s used_by_post)) create_schemas in
  let unused_update_schemas :=
    filter (fun s => negb (PyStr.mem s used_by_patch)) update_schemas in
  (unused_create_schemas ++ unused_update_schemas
   ++ capability_based_removals self create_schemas update_schemas)
  ++ filter (force_remove self) all_schemas.

Definition _remove_unused_schema_variants (self : converter) (spec : dict)
  : result dict :=
  match dict_get "paths" spec, dict_get "components" spec with
  | Some paths, Some components =>
      has <- py_in "schemas" components ;;
      if negb has then Ok spec
      else
        items <- py_items paths ;;
        used <- schemas_used items ;;
        schemas <- py_getitem "schemas" components ;;
        schema_items <- py_items schemas ;;
        let all_schemas_to_remove :=
          schemas_to_remove self (fst used) (snd used)
                            (dict_keys schema_items) in
        components' <- py_setitem "schemas"
                         (JObj (remove_keys all_schemas_to_remove schema_items))
                         components ;;
        Ok (dict_set "components" components' spec)
  | _, _ => Ok spec
  end.

(* ================================================================== *)
(** ** The replaced sections *)

(** [f"{x}"] for an optional string. *)
Definition fmt (x : option string) : string :=
  match x with Some s => s | None => "None" end.

(** [x or default] for an optional string. *)
Definition py_or (x : option string) (default : string) : string :=
  match x with
  | Some s => if String.eqb s "" then default else s
  | None => default
  end.

Definition dquote : string := String (ascii_of_nat 34) EmptyString.

(** The text [default_description] of [_build_enhanced_info_section]. *)
Definition default_description (api_name : string) : string :=
  "# Getting Started

## Introduction

Welcome to the Documentation and API Reference for the "
  ++ api_name
  ++ " API.

The "
  ++ api_name
  ++ " API exposes "
  ++ api_name
  ++ " entities within a Business Central tenant, where "
  ++ api_name
  ++ " and the "
  ++ api_name
  ++ " API app have been installed.

It is therefore important to understand the workings of the [Business Central API](https://learn.microsoft.com/en-us/dynamics365/business-central/dev-itpro/developer/devenv-develop-connect-apps), since the "
  ++ api_name
  ++ " API is a subset of the [Business Central API](https://learn.microsoft.com/en-us/dynamics365/business-central/dev-itpro/developer/devenv-develop-connect-apps).

## Built-in System Endpoints

In addition to the "
  ++ api_name
  ++ "-specific business entities, this API includes several built-in Business Central system endpoints that provide essential metadata and administrative functionality:

### Core System Endpoints

- **`/companies`** - Lists all companies within the Business Central tenant. Every business entity operation requires a company context, making this endpoint essential for discovering available companies before accessing business data.  
  📖 [Learn more about companies in Business Central API](https://learn.microsoft.com/en-us/dynamics365/business-central/dev-itpro/developer/devenv-connect-apps-tips#get)

- **`/entityDefinitions`** - Provides metadata about all available API entities, including their properties, relationships, and capabilities. Essential for API discovery and dynamic client applications.  
  📖 [Learn more about API metadata and discovery](https://learn.microsoft.com/en-us/dynamics365/business-central/dev-itpro/webservices/api-endpoint-structure)

- **`/$batch`** - Enables transactional batch operations where multiple API calls can be grouped together and executed atomically. If any operation in the batch fails, all changes are rolled back.  
  📖 [Learn more about OData transactional $batch requests](https://learn.microsoft.com/en-us/dynamics365/business-central/dev-itpro/developer/devenv-connect-apps-tips#batch)

### Event and Subscription Management

- **`/externalbusinesseventdefinitions`** - Lists available business event definitions that external systems can subscribe to for real-time notifications when specific business processes occur in Business Central.  
  📖 [Learn more about Business Central integration overview](https://learn.microsoft.com/en-us/dynamics365/business-central/dev-itpro/developer/integration-overview)

- **`/externaleventsubscriptions`** - Manages subscriptions to business events, allowing external systems to register webhooks or other notification mechanisms.  
  📖 [Learn more about web services and integrations](https://learn.microsoft.com/en-us/dynamics365/business-central/dev-itpro/webservices/web-services)

- **`/subscriptions`** - General subscription management endpoint for various Business Central notification services.  
  📖 [Learn more about Business Central web services](https://learn.microsoft.com/en-us/dynamics365/business-central/dev-itpro/webservices/web-services)

### API Discovery and Routing

- **`/apicategoryroutes`** - Provides information about available API routes and categories, helping client applications discover what APIs are available in the current Business Central environment.  
  📖 [Learn more about API endpoint structure](https://learn.microsoft.com/en-us/dynamics365/business-central/dev-itpro/webservices/api-endpoint-structure)

These system endpoints follow the same authentication and security model as the business entity endpoints but typically don't require a company parameter since they operate at the tenant level.

## Authentication

A point-to-point connection between Dynamics 365 Business Central and a third-party solution or service is typically created using standard REST API to interchange data. Any coding language capable of calling REST APIs can be used to develop your solution.

Business Central is multi-tenanted, and connecting to the Business Central API instance where the "
  ++ api_name
  ++ " API is installed, uses the OAuth 2.0 client credentials flow.

Authentication therefore involves first obtaining a token from the Microsoft Identity Platform. An administrator of the tenant you are trying to connect to, will have to create an Entra App registration for your use, and grant this Entra App the required permissions in Business Central and "
  ++ api_name
  ++ ".

For more information, see [Microsoft Identity Platform and the OAuth 2.0 Client Credentials Flow](https://learn.microsoft.com/en-us/entra/identity-platform/v2-oauth2-client-creds-grant-flow).

1. [How to get the tokens needed to call the API using a shared secret](https://learn.microsoft.com/en-us/entra/identity-platform/v2-oauth2-client-creds-grant-flow#first-case-access-token-request-with-a-shared-secret)

1. [Using the token in subsequent API requests](https://learn.microsoft.com/en-us/entra/identity-platform/v2-oauth2-client-creds-grant-flow#use-a-token)

## Live Testing

This API documentation is rendered using Scalar.com, which provides interactive testing capabilities directly within the documentation interface. To test the API endpoints live:

1. **Environment Name**: Specify the appropriate environment name in the EnvironmentName input field. The default is set to "
  ++ dquote
  ++ "Production"
  ++ dquote
  ++ ", but you can change this to match your Business Central environment (e.g., "
  ++ dquote
  ++ "Sandbox"
  ++ dquote
  ++ ", "
  ++ dquote
  ++ "UAT"
  ++ dquote
  ++ ", etc.).

1. **Authentication Setup**: In the authentication section of the Scalar documentation:
   - Replace `{tenant_id}` in the token URL with the actual tenant ID provided by your client
   - Enter your **Client ID** in the appropriate field
   - Enter your **Client Secret** in the appropriate field
   - Select all Scopes from the **Scopes** dropdown
   - Click **Authorize**

1. **Testing**: Once configured, you can test any API endpoint directly from the documentation:
   - Click on any endpoint
   - Fill in the required parameters
   - Click **Test Request**
   - View the live response from your Business Central environment

This interactive testing feature allows you to explore the API functionality and validate your integration before implementing it in your application.

## Useful Links

[Tips for working with APIs](https://learn.microsoft.com/en-us/dynamics365/business-central/dev-itpro/developer/devenv-connect-apps-tips)

[Using filters with API calls](https://learn.microsoft.com/en-us/dynamics365/business-central/dev-itpro/developer/devenv-connect-apps-filtering)

[Troubleshooting API calls](https://learn.microsoft.com/en-us/dynamics365/business-central/dev-itpro/webservices/dynamics-error-codes)

[API Performance](https://learn.microsoft.com/en-us/dynamics365/business-central/dev-itpro/webservices/web-service-performance)

[Working with API Limits](https://learn.microsoft.com/en-us/dynamics365/business-central/dev-itpro/api-reference/v2.0/dynamics-rate-limits)".

Definition _build_enhanced_info_section (title description api_name : option string)
  : json :=
  let default_api_name := fmt api_name in
  let default_title := (default_api_name ++ " API")%string in
  JObj [("title", JStr (py_or title default_title));
        ("description",
         JStr (py_or description (default_description default_api_name)))].

Definition _build_enhanced_servers_section (api_name api_version : option string)
  : json :=
  let default_api_name := PyStr.lower (py_or api_name "api") in
  let default_api_version := py_or api_version "v2.0" in
  JArr [JObj [("url",
               JStr ("https://api.businesscentral.dynamics.com/v2.0/{EnvironmentName}/api/linc/"
                     ++ default_api_name ++ "/" ++ default_api_version));
              ("variables",
               JObj [("EnvironmentName",
                      JObj [("default", JStr "Production");
                            ("description",
                             JStr "The Business Central environment name")])])]].

Definition _build_security_section : json :=
  JArr [JObj [("oauth2_client_credentials", JArr [])]].

Definition _build_security_schemes (tenant_placeholder : option string) : json :=
  let default_tenant_placeholder := py_or tenant_placeholder "{tenant_Id}" in
  JObj [("oauth2_client_credentials",
         JObj [("type", JStr "oauth2");
               ("description",
                JStr "OAuth2 Client Credentials Flow for Business Central API");
               ("flows",
                JObj [("clientCredentials",
                       JObj [("tokenUrl",
                              JStr ("https://login.microsoftonline.com/"
                                    ++ default_tenant_placeholder
                                    ++ "/oauth2/v2.0/token"));
                             ("scopes",
                              JObj [("https://api.businesscentral.dynamics.com/.default",
                                     JStr "Default Scope for Business Central API")])])])])].

(* ================================================================== *)
(** ** The pipeline *)

(** The first part of [_enhance_openapi_spec]: the version and the four
    replaced sections. *)
Definition replace_sections (spec : dict)
  (title description api_name api_version tenant_placeholder : option string)
  : result dict :=
  let spec := dict_set "openapi" (JStr "3.1.1") spec in
  let spec :=
    dict_set "info" (_build_enhanced_info_section title description api_name)
             spec in
  let spec :=
    dict_set "servers" (_build_enhanced_servers_section api_name api_version)
             spec in
  let spec := dict_set "security" _build_security_section spec in
  let spec := if dict_has "components" spec then spec
              else dict_set "components" (JObj []) spec in
  components <- py_getitem "components" (JObj spec) ;;
  components' <- py_setitem "securitySchemes"
                   (_build_security_schemes tenant_placeholder) components ;;
  Ok (dict_set "components" components' spec).

Definition _enhance_openapi_spec (self : converter) (spec : dict)
  (title description api_name api_version tenant_placeholder : option string)
  : result dict :=
  spec <- replace_sections spec title description api_name api_version
                           tenant_placeholder ;;
  spec <- _add_company_parameter spec ;;
  spec <- _remove_navigation_paths spec ;;
  spec <- _remove_system_fields_from_mutation_schemas spec ;;
  spec <- _enforce_edmx_capabilities self spec ;;
  _remove_unused_schema_variants self spec.

(** [convert], between its file accesses: [edmx] is what parsing the
    metadata file gives and [openapi_spec] the document the external
    converter wrote for it.  The result is the converter afterwards,
    what the extractor printed, and the enhanced document. *)
Definition convert (self : converter) (edmx : parse_outcome) (openapi_spec : dict)
  (title description api_name api_version tenant_placeholder : option string)
  : converter * list message * result dict :=
  let '(self', out) := _parse_edmx_capabilities self edmx in
  (self', out,
   _enhance_openapi_spec self' openapi_spec title description api_name
                         api_version tenant_placeholder).

(* ================================================================== *)
(** ** Observations used in the statements *)

(** [spec['paths'][path]], when both are there. *)
Definition path_item (spec : dict) (path : string) : option json :=
  match dict_get "paths" spec with
  | Some (JObj paths) => dict_get path paths
  | _ => None
  end.

(** [spec['components']['schemas'][name]], when all are there. *)
Definition schema_of (spec : dict) (name : string) : option json :=
  match dict_get "components" spec with
  | Some (JObj components) =>
      match dict_get "schemas" components with
      | Some (JObj schemas) => dict_get name schemas
      | _ => None
      end
  | _ => None
  end.

(** The segments of the part of a company path after
    [/companies({id})/], empty ones dropped. *)
Definition levels_of (remainder : string) : list string :=
  filter (fun level => negb (String.eqb level "")) (PyStr.split "/" remainder).

(** A reference to the shared [company] parameter. *)
Definition is_company_ref (v : json) : bool :=
  match v with
  | JObj d =>
      match dict_get "$ref" d with
      | Some (JStr s) => String.eqb s "#/components/parameters/company"
      | _ => false
      end
  | _ => false
  end.

(** How many elements of a path item's [parameters] array refer to the
    shared [company] parameter. *)
Definition company_refs (item : json) : nat :=
  match item with
  | JObj d =>
      match dict_get "parameters" d with
      | Some (JArr l) => List.length (filter is_company_ref l)
      | _ => 0
      end
  | _ => 0
  end.

(** [spec['components']['parameters'][name]], when all are there. *)
Definition parameter_of (spec : dict) (name : string) : option json :=
  match dict_get "components" spec with
  | Some (JObj components) =>
      match dict_get "parameters" components with
      | Some (JObj parameters) => dict_get name parameters
      | _ => None
      end
  | _ => None
  end.

(** The tenant-level system endpoints, as the specification lists
    them. *)
Definition tenant_level_endpoints : list string :=
  ["/$batch"; "/apicategoryroutes"; "/companies"; "/companies({id})";
   "/entitydefinitions"; "/entityDefinitions";
   "/externalbusinesseventdefinitions"; "/externaleventsubscriptions";
   "/subscriptions"].

(** A path item after one more injection: one more reference at the
    end of its [parameters], unless the path is under an excluded
    prefix. *)
Definition reinject (path_name : string) (item : json) : json :=
  if no_company path_name then item
  else match item with
       | JObj d =>
           match dict_get "parameters" d with
           | Some (JArr l) =>
               JObj (dict_set "parameters" (JArr (l ++ [company_ref])) d)
           | _ => item
           end
       | _ => item
       end.

(** A document after one more injection into each of its paths. *)
Definition reinjected (spec : dict) : dict :=
  match dict_get "paths" spec with
  | Some (JObj paths) =>
      dict_set "paths"
               (JObj (map (fun kv => (fst kv, reinject (fst kv) (snd kv))) paths))
               spec
  | _ => spec
  end.

(** The operations a record leaves in a path item that is a dict. *)
Definition drop_op (allowed : bool) (method : string) (d : dict) : dict :=
  if allowed then d else dict_del method d.

Definition allowed_ops (c : capabilities) (d : dict) : dict :=
  drop_op (deletable c) "delete"
          (drop_op (updatable c) "patch" (drop_op (insertable c) "post" d)).

(** [spec['components'][key]], when both are there. *)
Definition component_of (spec : dict) (key : string) : option json :=
  match dict_get "components" spec with
  | Some (JObj components) => dict_get key components
  | _ => None
  end.

(** A path item the injection can run on again: the path is excluded,
    or the item is a dict whose [parameters] is a list. *)
Definition injected (path_name : string) (item : json) : Prop :=
  no_company path_name = true
  \/ exists d l, item = JObj d /\ dict_get "parameters" d = Some (JArr l).

(** [spec'] differs from [spec] in [paths] and [components] at most. *)
Definition same_sections (spec spec' : dict) : Prop :=
  forall k, String.eqb k "paths" = false -> String.eqb k "components" = false ->
            dict_get k spec' = dict_get k spec.

(** Whether the schema-pruning stage collects the name of a schema it
    finds, given the sets of schemas used by [post] and by [patch]. *)
Definition removal_criterion (self : converter)
  (used_by_post used_by_patch : list string) (name : string) : bool :=
  PyStr.endswith name "-create"
  && (negb (PyStr.mem name used_by_post)
      || disallowed self insertable (base_name "-create" name))
  || PyStr.endswith name "-update"
     && (negb (PyStr.mem name used_by_patch)
         || disallowed self updatable (base_name "-update" name))
  || force_remove self name.

(** The member reached from [o] by following [keys] through nested
    dictionaries. *)
Fixpoint member_at (keys : list string) (o : json) : option json :=
  match keys with
  | [] => Some o
  | k :: rest =>
      match o with
      | JObj d => match dict_get k d with
                  | Some v => member_at rest v
                  | None => None
                  end
      | _ => None
      end
  end.

(** *** Documents on which no stage meets a value of the wrong kind *)

(** The [parameters] of a path item, when it has any, is a list. *)
Definition parameters_ok (item : dict) : bool :=
  match dict_get "parameters" item with
  | None | Some (JArr _) => true
  | Some _ => false
  end.

(** Reading the entity type off the item's [get] and [patch] raises
    nothing. *)
Definition type_lookup_ok (item : json) : bool :=
  match _extract_entity_type_from_path_methods item [] with
  | Ok _ => true
  | Raised => false
  end.

Definition item_ok (item : json) : bool :=
  match item with
  | JObj d => parameters_ok d && type_lookup_ok item
  | _ => false
  end.

(** The [properties] of a schema that is a dictionary, when it has any,
    is a dictionary. *)
Definition schema_ok (schema : json) : bool :=
  match schema with
  | JObj d => match dict_get "properties" d with
              | None | Some (JObj _) => true
              | Some _ => false
              end
  | _ => true
  end.

Definition components_ok (components : dict) : bool :=
  match dict_get "parameters" components with
  | None | Some (JObj _) => true
  | Some _ => false
  end
  && match dict_get "schemas" components with
     | None => true
     | Some (JObj schemas) => forallb (fun kv => schema_ok (snd kv)) schemas
     | Some _ => false
     end.

(** [components] and [paths], when present, are dictionaries of the
    kinds above. *)
Definition well_formed (spec : dict) : bool :=
  match dict_get "components" spec with
  | None => true
  | Some (JObj components) => components_ok components
  | Some _ => false
  end
  && match dict_get "paths" spec with
     | None => true
     | Some (JObj paths) => forallb (fun kv => item_ok (snd kv)) paths
     | Some _ => false
     end.

(** A schema name is referenced somewhere in the [method] operation of
    one of the paths. *)
Definition referenced_by (method : string) (paths : dict) (name : string)
  : Prop :=
  exists path item op,
    In (path, JObj item) paths
    /\ dict_get method item = Some op
    /\ In name (extract_schema_refs op).

(** The paths of a document. *)
Definition path_names (spec : dict) : list string :=
  match dict_get "paths" spec with
  | Some (JObj paths) => dict_keys paths
  | _ => []
  end.

(** *** The capability record, as the specification words it *)

(** The value an annotation gives to one flag: its term names
    [restriction] (and none of the restrictions tested [earlier] in the
    chain), and it has a property value [property], whose [Bool]
    attribute is read as text. *)
Definition annotation_value (earlier : list string)
  (restriction property : string) (annotation : element) : option bool :=
  let term := get_default annotation "Term" "" in
  if existsb (fun r => PyStr.contains r term) earlier then None
  else if PyStr.contains restriction term
       then option_map bool_value (find_property_value annotation property)
       else None.

(** The last value the annotations give, [true] when they give none. *)
Definition last_given (value : element -> option bool)
  (annotations : list element) : bool :=
  last (flat_map (fun a => match value a with
                           | Some b => [b]
                           | None => []
                           end) annotations)
       true.

Definition spec_capabilities (entity_set : element) : capabilities :=
  let annotations := findall entity_set (edm "Annotation") in
  mkCapabilities
    (last_given (annotation_value [] "InsertRestrictions" "Insertable")
                annotations)
    (last_given (annotation_value ["InsertRestrictions"]
                                  "UpdateRestrictions" "Updatable")
                annotations)
    (last_given (annotation_value ["InsertRestrictions"; "UpdateRestrictions"]
                                  "DeleteRestrictions" "Deletable")
                annotations).

(** An annotation whose term names none of the three restrictions. *)
Definition no_restriction (annotation : element) : bool :=
  let term := get_default annotation "Term" "" in
  negb (PyStr.contains "InsertRestrictions" term)
  && negb (PyStr.contains "UpdateRestrictions" term)
  && negb (PyStr.contains "DeleteRestrictions" term).

(** An entity set the extractor records: both attributes are there and
    not empty. *)
Definition declared (entity_set : element) : bool :=
  match get entity_set "Name", get entity_set "EntityType" with
  | Some n, Some t => negb (String.eqb n "" || String.eqb t "")
  | _, _ => false
  end.

(** The key an entity set is stored under among the entity types. *)
Definition declared_type (entity_set : element) : string :=
  type_name (get_default entity_set "EntityType" "").

(** The name an entity set is stored under among the entity sets. *)
Definition declared_name (entity_set : element) : string :=
  get_default entity_set "Name" "".

(** The line printed for an entity set with a restriction. *)
Definition restriction_message (entity_set : element) : message :=
  HasRestrictions (declared_name entity_set) (declared_type entity_set)
                  (restricted_ops (entity_set_capabilities entity_set)).

(* ================================================================== *)
(** ** Example documents *)

(** A keyed member path, a navigation path below it and a bare
    navigation property. *)
Definition pruning_example_paths : dict :=
  [("/companies({id})/items({id})", JObj [("get", JObj [])]);
   ("/companies({id})/items({id})/lines", JObj [("get", JObj [])]);
   ("/companies({id})/items/picture", JObj [("get", JObj [])])].

Definition pruning_example : dict :=
  [("openapi", JStr "3.1.0"); ("paths", JObj pruning_example_paths)].

(** An entity type [Item] that may not be deleted, known through the
    entity set [Items]. *)
Definition no_delete : capabilities := mkCapabilities true true false.

Definition items_converter : converter :=
  mkConverter [("Items", no_delete)] [("Item", no_delete)].

(** A path item with a [get] and a [delete] operation. *)
Definition get_delete_item : json :=
  JObj [("get", JObj []); ("delete", JObj [])].

(** The metadata of the scenario: entity set [Items] of type [Item],
    with [DeleteRestrictions] saying [Deletable] is false. *)
Definition items_edmx : element :=
  Element "{http://docs.oasis-open.org/odata/ns/edmx}Edmx" [("Version", "4.0")]
    [Element "{http://docs.oasis-open.org/odata/ns/edmx}DataServices" []
       [Element (edm "Schema") [("Namespace", "Microsoft.NAV")]
          [Element (edm "EntityType") [("Name", "Item")] [];
           Element (edm "EntityContainer") [("Name", "NAV")]
             [Element (edm "EntitySet")
                [("Name", "Items"); ("EntityType", "Microsoft.NAV.Item")]
                [Element (edm "Annotation")
                   [("Term", "Org.OData.Capabilities.V1.DeleteRestrictions")]
                   [Element (edm "Record") []
                      [Element (edm "PropertyValue")
                         [("Property", "Deletable"); ("Bool", "false")] []]]]]]]].

(** A request or response body that refers to a schema. *)
Definition body_of (schema_name : string) : json :=
  JObj [("content",
         JObj [("application/json",
                JObj [("schema",
                       JObj [("$ref",
                              JStr ("#/components/schemas/" ++ schema_name))])])])].

(** The three operations of the scenario's path. *)
Definition items_member_item : json :=
  JObj [("get", JObj [("responses", JObj [("200", body_of "Microsoft.NAV.Item")])]);
        ("patch", JObj [("requestBody", body_of "Microsoft.NAV.Item-update")]);
        ("delete", JObj [("responses", JObj [("204", JObj [])])])].

(** A base document with the scenario's path, the collection path of
    the same entity set, a navigation path and a path outside the
    companies. *)
Definition items_base : dict :=
  [("openapi", JStr "3.1.0");
   ("info", JObj [("title", JStr "OData Service")]);
   ("paths",
    JObj [("/companies({id})/Items({id})", items_member_item);
          ("/companies({id})/Items",
           JObj [("get", JObj []);
                 ("post", JObj [("requestBody", body_of "Microsoft.NAV.Item-create")])]);
          ("/companies({id})/Items({id})/lines", JObj [("get", JObj [])]);
          ("/items",
           JObj [("get", JObj [])])]);
   ("components",
    JObj [("schemas",
           JObj [("Microsoft.NAV.Item",
                  JObj [("properties", JObj [("systemCreatedAt", JObj [])])]);
                 ("Microsoft.NAV.Item-create",
                  JObj [("properties",
                         JObj [("systemCreatedAt", JObj []); ("no", JObj [])])]);
                 ("Microsoft.NAV.Item-update",
                  JObj [("properties",
                         JObj [("systemCreatedAt", JObj []); ("no", JObj [])])])])])].

(** One run of the pipeline for the API name [items], the other
    arguments left out. *)
Definition enhance (self : converter) (spec : dict) : result dict :=
  _enhance_openapi_spec self spec None None (Some "items") None None.

(** Two entity types, [item] that may not be inserted and
    [item-create] that may, and a document whose only [post] sends the
    create variant of the second. *)
Definition no_insert : capabilities := mkCapabilities false true true.

Definition allow_all : capabilities := mkCapabilities true true true.

Definition twice_suffixed_converter : converter :=
  mkConverter [("items", no_insert); ("things", allow_all)]
              [("item", no_insert); ("item-create", allow_all)].

Definition twice_suffixed_spec : dict :=
  [("paths",
    JObj [("/things",
           JObj [("post",
                  JObj [("requestBody",
                         body_of "Microsoft.NAV.item-create-create")])])]);
   ("components",
    JObj [("schemas",
           JObj [("Microsoft.NAV.item-create-create",
                  JObj [("properties", JObj [("no", JObj [])])])])])].

(** A base document whose path already carries the reference. *)
Definition injected_base : dict :=
  [("paths",
    JObj [("/items",
           JObj [("get", JObj []); ("parameters", JArr [company_ref])])])].

(** The scenario's base document after one run for the scenario's
    metadata. *)
Definition items_enhanced : dict :=
  Eval vm_compute in
    match enhance items_converter items_base with
    | Ok out => out
    | Raised => []
    end.

(** A path without a leading slash whose [patch] sends the update
    variant of [T1], a type that may not be updated, and whose name is
    the type [Bar], which may not be deleted. *)
Definition no_update : capabilities := mkCapabilities true false true.

Definition bar_converter : converter :=
  mkConverter [("S1", allow_all)] [("T1", no_update); ("Bar", no_delete)].

Definition bar_base : dict :=
  [("paths",
    JObj [("Bar",
           JObj [("patch",
                  JObj [("requestBody", body_of "Microsoft.NAV.T1-update")]);
                 ("delete", JObj [])])])].

(** Metadata with two entity sets of the same type, the first of which
    may not be deleted. *)
Definition shared_type_edmx : element :=
  Element (edm "EntityContainer") [("Name", "NAV")]
    [Element (edm "EntitySet")
       [("Name", "Items"); ("EntityType", "Microsoft.NAV.Item")]
       [Element (edm "Annotation")
          [("Term", "Org.OData.Capabilities.V1.DeleteRestrictions")]
          [Element (edm "Record") []
             [Element (edm "PropertyValue")
                [("Property", "Deletable"); ("Bool", "False")] []]]];
     Element (edm "EntitySet")
       [("Name", "ArchivedItems"); ("EntityType", "Microsoft.NAV.Item")]
       [Element (edm "Annotation")
          [("Term", "Org.OData.Capabilities.V1.InsertRestrictions")]
          [Element (edm "Record") []
             [Element (edm "PropertyValue")
                [("Property", "Insertable"); ("Bool", "FALSE")] []]]]].

(* ================================================================== *)
(** * Properties *)

(** ** Strings *)

Section StringFacts.

Lemma startswith_app (p r : string) : PyStr.startswith (p ++ r) p = true.
Proof.
  induction p as [|a p IH]; simpl; [reflexivity|].
  now rewrite Ascii.eqb_refl, IH.
Qed.

Lemma drop_app (p r : string) : PyStr.drop (String.length p) (p ++ r) = r.
Proof. induction p as [|a p IH]; simpl; auto. Qed.

Lemma split_not_nil (sep : ascii) (s : string) : PyStr.split sep s <> [].
Proof.
  destruct s as [|c s]; simpl; [discriminate|].
  destruct (Ascii.eqb c sep); [discriminate|].
  destruct (PyStr.split sep s); discriminate.
Qed.

(** A string without the separator is its own single segment. *)
Lemma split_without_sep (sep : ascii) (s : string) :
  PyStr.contains (String sep "") s = false -> PyStr.split sep s = [s].
Proof.
  induction s as [|c s IH]; simpl; [reflexivity|].
  rewrite andb_true_r, Ascii.eqb_sym.
  destruct (Ascii.eqb c sep); simpl; [discriminate|].
  intros H. now rewrite (IH H).
Qed.

Lemma contains_app_r (sub a b : string) :
  PyStr.contains sub b = true -> PyStr.contains sub (a ++ b) = true.
Proof.
  intros H. induction a as [|c a IH]; simpl; [exact H|].
  rewrite IH. apply orb_true_r.
Qed.

Lemma mem_In (s : string) (xs : list string) :
  PyStr.mem s xs = true <-> In s xs.
Proof.
  unfold PyStr.mem. rewrite existsb_exists. split.
  - intros (x & Hx & E). apply String.eqb_eq in E. now subst.
  - intros H. exists s. split; [exact H | apply String.eqb_refl].
Qed.

End StringFacts.

(** ** Dictionaries *)

Section DictFacts.
Context {V : Type}.
Implicit Types (d : list (string * V)) (k : string).

Lemma dict_get_del k k' d :
  dict_get k (dict_del k' d) = if String.eqb k' k then None else dict_get k d.
Proof.
  unfold dict_del. induction d as [|[a v] d IH]; simpl.
  - now destruct (String.eqb k' k).
  - destruct (String.eqb k' a) eqn:Ea; simpl.
    + apply String.eqb_eq in Ea. subst a. rewrite IH.
      rewrite (String.eqb_sym k k'). now destruct (String.eqb k' k).
    + destruct (String.eqb k a) eqn:Eb.
      * apply String.eqb_eq in Eb. subst a. now rewrite Ea.
      * exact IH.
Qed.

Lemma dict_get_set k k' (v : V) d :
  dict_get k (dict_set k' v d) = if String.eqb k k' then Some v else dict_get k d.
Proof.
  induction d as [|[a w] d IH]; simpl.
  - reflexivity.
  - destruct (String.eqb k' a) eqn:Ea; simpl.
    + apply String.eqb_eq in Ea. subst a. now destruct (String.eqb k k').
    + destruct (String.eqb k a) eqn:Eb.
      * apply String.eqb_eq in Eb. subst a.
        now rewrite String.eqb_sym, Ea.
      * exact IH.
Qed.

Lemma dict_get_set_same k (v : V) d : dict_get k (dict_set k v d) = Some v.
Proof. now rewrite dict_get_set, String.eqb_refl. Qed.

Lemma dict_get_set_other k k' (v : V) d :
  String.eqb k k' = false -> dict_get k (dict_set k' v d) = dict_get k d.
Proof. intros E. now rewrite dict_get_set, E. Qed.

(** Storing what is already stored changes nothing. *)
Lemma dict_set_same k (v : V) d : dict_get k d = Some v -> dict_set k v d = d.
Proof.
  induction d as [|[a w] d IH]; simpl; [discriminate|].
  rewrite (String.eqb_sym k a).
  destruct (String.eqb a k) eqn:E.
  - apply String.eqb_eq in E. subst a. now intros [= ->].
  - intros H. now rewrite (IH H).
Qed.

Lemma dict_get_In k d (v : V) : dict_get k d = Some v -> In (k, v) d.
Proof.
  induction d as [|[a w] d IH]; simpl; [discriminate|].
  destruct (String.eqb k a) eqn:E.
  - apply String.eqb_eq in E. subst a. intros [= ->]. now left.
  - intros H. right. auto.
Qed.

Lemma dict_get_None k d : dict_get k d = None <-> ~ In k (dict_keys d).
Proof.
  induction d as [|[a w] d IH]; simpl; [tauto|].
  destruct (String.eqb k a) eqn:E.
  - apply String.eqb_eq in E. subst a. split; [discriminate | tauto].
  - apply String.eqb_neq in E. rewrite IH. split; [intros H [F|F] | ]; auto.
Qed.

Lemma dict_has_In k d : dict_has k d = true <-> In k (dict_keys d).
Proof.
  unfold dict_has. destruct (dict_get k d) eqn:E.
  - split; [intros _ | reflexivity].
    apply dict_get_In in E. unfold dict_keys.
    change k with (fst (k, v)). now apply in_map.
  - apply dict_get_None in E. split; [discriminate | tauto].
Qed.

End DictFacts.

(** Removing a list of keys: a listed key is gone, any other keeps its
    value. *)
Lemma dict_get_remove_keys (to_remove : list string) (d : dict) (k : string) :
  dict_get k (remove_keys to_remove d)
  = if PyStr.mem k to_remove then None else dict_get k d.
Proof.
  unfold remove_keys. revert d.
  induction to_remove as [|a l IH]; intros d; simpl; [reflexivity|].
  rewrite IH. destruct (String.eqb k a) eqn:E; simpl.
  - apply String.eqb_eq in E. subst a.
    destruct (PyStr.mem k l); [reflexivity|].
    unfold dict_has. destruct (dict_get k d) eqn:G; [|exact G].
    now rewrite dict_get_del, String.eqb_refl.
  - destruct (PyStr.mem k l); [reflexivity|].
    destruct (dict_has a d); [|reflexivity].
    now rewrite dict_get_del, String.eqb_sym, E.
Qed.

Lemma mem_filter_keys (f : string -> bool) (d : dict) (k : string) :
  PyStr.mem k (filter f (dict_keys d)) = f k && dict_has k d.
Proof.
  destruct (PyStr.mem k (filter f (dict_keys d))) eqn:E.
  - apply mem_In, filter_In in E. destruct E as [E1 E2].
    apply dict_has_In in E1. now rewrite E1, E2.
  - destruct (f k) eqn:Ef; [|reflexivity].
    destruct (dict_has k d) eqn:Eh; [|reflexivity].
    apply dict_has_In in Eh.
    assert (H : In k (filter f (dict_keys d))) by now apply filter_In.
    apply mem_In in H. congruence.
Qed.

(** What the second loop of path pruning leaves under a key. *)
Lemma dict_get_pruned (f : string -> bool) (d : dict) (k : string) :
  dict_get k (remove_keys (filter f (dict_keys d)) d)
  = if f k then None else dict_get k d.
Proof.
  rewrite dict_get_remove_keys, mem_filter_keys.
  destruct (f k); simpl; [|reflexivity].
  unfold dict_has. now destruct (dict_get k d).
Qed.

(** ** Path pruning *)

Lemma company_path_not_system (r : string) :
  is_system_endpoint ("/companies({id})/" ++ r) = false.
Proof. reflexivity. Qed.

(** On a company path the first loop looks at the levels after the
    prefix only. *)
Lemma is_navigation_company_path (r : string) :
  is_navigation_path ("/companies({id})/" ++ r) = too_deep (levels_of r).
Proof.
  unfold is_navigation_path. rewrite company_path_not_system.
  rewrite startswith_app.
  change 17 with (String.length "/companies({id})/").
  now rewrite drop_app.
Qed.

Lemma remove_navigation_paths_dict (spec paths : dict) :
  dict_get "paths" spec = Some (JObj paths) ->
  _remove_navigation_paths spec
  = Ok (dict_set "paths"
          (JObj (remove_keys (filter is_navigation_path (dict_keys paths)) paths))
          spec).
Proof. intros H. unfold _remove_navigation_paths. now rewrite H. Qed.

(** C4. Path pruning on company-scoped paths.  For a document whose
    [paths] is a dictionary and a path [/companies({id})/r], with
    [levels_of r] the non-empty segments of [r]: the stage returns the
    document with a pruned [paths] in which the path is absent when it
    has three or more levels, absent when it has two levels and the
    second is not wrapped in parentheses, and otherwise (two levels with
    a parenthesized second, or at most one level) holds what it held
    before; in particular a keyed single-member path
    [/companies({id})/X(key)], one segment, keeps its item. *)
Theorem navigation_paths_pruned (spec paths : dict) (r : string) :
  dict_get "paths" spec = Some (JObj paths) ->
  exists paths',
    _remove_navigation_paths spec = Ok (dict_set "paths" (JObj paths') spec)
    /\ path_item (dict_set "paths" (JObj paths') spec)
                 ("/companies({id})/" ++ r)
       = dict_get ("/companies({id})/" ++ r) paths'
    /\ (3 <= List.length (levels_of r) ->
        dict_get ("/companies({id})/" ++ r) paths' = None)
    /\ (forall x y, levels_of r = [x; y] -> parenthesized y = false ->
        dict_get ("/companies({id})/" ++ r) paths' = None)
    /\ (forall x y, levels_of r = [x; y] -> parenthesized y = true ->
        dict_get ("/companies({id})/" ++ r) paths'
        = dict_get ("/companies({id})/" ++ r) paths)
    /\ (List.length (levels_of r) <= 1 ->
        dict_get ("/companies({id})/" ++ r) paths'
        = dict_get ("/companies({id})/" ++ r) paths)
    /\ (forall x key, r = (x ++ "(" ++ key ++ ")")%string ->
        PyStr.contains "/" r = false ->
        dict_get ("/companies({id})/" ++ r) paths'
        = dict_get ("/companies({id})/" ++ r) paths).
Proof.
  intros Hp.
  exists (remove_keys (filter is_navigation_path (dict_keys paths)) paths).
  split; [now apply remove_navigation_paths_dict|].
  split; [unfold path_item; now rewrite dict_get_set_same|].
  rewrite dict_get_pruned, is_navigation_company_path.
  unfold too_deep.
  repeat split.
  - intros H. destruct (Nat.ltb_spec 2 (List.length (levels_of r))); [reflexivity | lia].
  - intros x y E P. rewrite E. simpl. now rewrite P.
  - intros x y E P. rewrite E. simpl. now rewrite P.
  - intros H.
    destruct (Nat.ltb_spec 2 (List.length (levels_of r))); [lia|].
    destruct (Nat.eqb_spec (List.length (levels_of r)) 2); [lia | reflexivity].
  - intros x key E Hs.
    unfold levels_of. rewrite (split_without_sep _ _ Hs). simpl.
    now destruct (negb (r =? "")).
Qed.

Lemma navigation_paths_pruned_witness :
  exists paths',
    _remove_navigation_paths pruning_example
    = Ok (dict_set "paths" (JObj paths') pruning_example)
    /\ path_item (dict_set "paths" (JObj paths') pruning_example)
                 ("/companies({id})/" ++ "items({id})")
       = dict_get ("/companies({id})/" ++ "items({id})") paths'
    /\ (3 <= List.length (levels_of "items({id})") ->
        dict_get ("/companies({id})/" ++ "items({id})") paths' = None)
    /\ (forall x y, levels_of "items({id})" = [x; y] -> parenthesized y = false ->
        dict_get ("/companies({id})/" ++ "items({id})") paths' = None)
    /\ (forall x y, levels_of "items({id})" = [x; y] -> parenthesized y = true ->
        dict_get ("/companies({id})/" ++ "items({id})") paths'
        = dict_get ("/companies({id})/" ++ "items({id})") pruning_example_paths)
    /\ (List.length (levels_of "items({id})") <= 1 ->
        dict_get ("/companies({id})/" ++ "items({id})") paths'
        = dict_get ("/companies({id})/" ++ "items({id})") pruning_example_paths)
    /\ (forall x key, "items({id})" = (x ++ "(" ++ key ++ ")")%string ->
        PyStr.contains "/" "items({id})" = false ->
        dict_get ("/companies({id})/" ++ "items({id})") paths'
        = dict_get ("/companies({id})/" ++ "items({id})") pruning_example_paths).
Proof.
  exact (navigation_paths_pruned pruning_example pruning_example_paths
           "items({id})" eq_refl).
Defined.

(** ** The capability extractor *)

Section Extractor.

Lemma last_app_default {A : Type} (xs ys : list A) (d : A) :
  last (xs ++ ys) d = last ys (last xs d).
Proof.
  revert d. induction xs as [|x xs IH]; intros d; [reflexivity|].
  destruct xs as [|x' xs].
  - simpl. destruct ys; [reflexivity|]. simpl.
    clear IH. revert a. induction ys as [|y ys IHy]; intros a; [reflexivity|].
    simpl. apply IHy.
  - change (last ((x :: x' :: xs) ++ ys) d) with (last ((x' :: xs) ++ ys) d).
    rewrite IH. reflexivity.
Qed.

(** A flag projection of the folded record is the last value given. *)
Lemma fold_flag (flag : capabilities -> bool) (value : element -> option bool) :
  (forall c a, flag (apply_annotation c a)
               = match value a with Some b => b | None => flag c end) ->
  forall l c,
    flag (fold_left apply_annotation l c)
    = last (flat_map (fun a => match value a with
                               | Some b => [b]
                               | None => []
                               end) l)
           (flag c).
Proof.
  intros step l. induction l as [|a l IH]; intros c; [reflexivity|].
  simpl fold_left. rewrite IH, step. simpl flat_map.
  rewrite last_app_default. now destruct (value a).
Qed.

Lemma insertable_step c a :
  insertable (apply_annotation c a)
  = match annotation_value [] "InsertRestrictions" "Insertable" a with
    | Some b => b
    | None => insertable c
    end.
Proof.
  unfold apply_annotation, annotation_value. simpl existsb.
  destruct (PyStr.contains "InsertRestrictions" _).
  - now destruct (find_property_value a "Insertable").
  - destruct (PyStr.contains "UpdateRestrictions" _).
    + now destruct (find_property_value a "Updatable").
    + destruct (PyStr.contains "DeleteRestrictions" _); [|reflexivity].
      now destruct (find_property_value a "Deletable").
Qed.

Lemma updatable_step c a :
  updatable (apply_annotation c a)
  = match annotation_value ["InsertRestrictions"]
                           "UpdateRestrictions" "Updatable" a with
    | Some b => b
    | None => updatable c
    end.
Proof.
  unfold apply_annotation, annotation_value. simpl existsb.
  destruct (PyStr.contains "InsertRestrictions" _); simpl.
  - now destruct (find_property_value a "Insertable").
  - destruct (PyStr.contains "UpdateRestrictions" _).
    + now destruct (find_property_value a "Updatable").
    + destruct (PyStr.contains "DeleteRestrictions" _); [|reflexivity].
      now destruct (find_property_value a "Deletable").
Qed.

Lemma deletable_step c a :
  deletable (apply_annotation c a)
  = match annotation_value ["InsertRestrictions"; "UpdateRestrictions"]
                           "DeleteRestrictions" "Deletable" a with
    | Some b => b
    | None => deletable c
    end.
Proof.
  unfold apply_annotation, annotation_value. simpl existsb.
  destruct (PyStr.contains "InsertRestrictions" _); simpl.
  - now destruct (find_property_value a "Insertable").
  - destruct (PyStr.contains "UpdateRestrictions" _); simpl.
    + now destruct (find_property_value a "Updatable").
    + destruct (PyStr.contains "DeleteRestrictions" _); [|reflexivity].
      now destruct (find_property_value a "Deletable").
Qed.

Lemma last_given_none (value : element -> option bool) (l : list element) :
  (forall a, In a l -> value a = None) -> last_given value l = true.
Proof.
  intros H. unfold last_given.
  assert (E : flat_map (fun a => match value a with
                                 | Some b => [b]
                                 | None => []
                                 end) l = []).
  { induction l as [|a l IH]; simpl; [reflexivity|].
    rewrite (H a (or_introl eq_refl)). apply IH.
    intros x Hx. apply H. now right. }
  now rewrite E.
Qed.

Lemma capabilities_eq (c c' : capabilities) :
  insertable c = insertable c' -> updatable c = updatable c' ->
  deletable c = deletable c' -> c = c'.
Proof. destruct c, c'; simpl; congruence. Qed.

Lemma entity_set_capabilities_spec (entity_set : element) :
  entity_set_capabilities entity_set = spec_capabilities entity_set.
Proof.
  unfold entity_set_capabilities, spec_capabilities, last_given.
  apply capabilities_eq; simpl.
  - apply (fold_flag insertable _ insertable_step).
  - apply (fold_flag updatable _ updatable_step).
  - apply (fold_flag deletable _ deletable_step).
Qed.

Lemma no_restriction_step c a :
  no_restriction a = true -> apply_annotation c a = c.
Proof.
  unfold no_restriction, apply_annotation.
  destruct (PyStr.contains "InsertRestrictions" _); [discriminate|].
  destruct (PyStr.contains "UpdateRestrictions" _); [discriminate|].
  destruct (PyStr.contains "DeleteRestrictions" _); [discriminate|].
  reflexivity.
Qed.

Lemma no_restriction_fold l c :
  forallb no_restriction l = true -> fold_left apply_annotation l c = c.
Proof.
  revert c. induction l as [|a l IH]; intros c; simpl; [reflexivity|].
  intros H. apply andb_true_iff in H. destruct H as [Ha Hl].
  now rewrite (no_restriction_step c a Ha), IH.
Qed.

End Extractor.

Section Storing.

(** What one entity set leaves under a key of the entity-type
    dictionary. *)
Lemma parse_entity_set_types st es t :
  dict_get t (entity_type_capabilities (fst (parse_entity_set st es)))
  = if declared es && String.eqb (declared_type es) t
    then Some (entity_set_capabilities es)
    else dict_get t (entity_type_capabilities (fst st)).
Proof.
  destruct st as [self out].
  unfold parse_entity_set, declared, declared_type, get_default.
  destruct (get es "Name") as [n|]; [|reflexivity].
  destruct (get es "EntityType") as [ty|]; [|reflexivity].
  destruct (String.eqb n "" || String.eqb ty ""); simpl; [reflexivity|].
  rewrite dict_get_set, (String.eqb_sym t).
  now destruct (String.eqb (type_name ty) t).
Qed.

(** The same for the entity-set dictionary. *)
Lemma parse_entity_set_names st es n :
  dict_get n (edmx_capabilities (fst (parse_entity_set st es)))
  = if declared es && String.eqb (get_default es "Name" "") n
    then Some (entity_set_capabilities es)
    else dict_get n (edmx_capabilities (fst st)).
Proof.
  destruct st as [self out].
  unfold parse_entity_set, declared, get_default.
  destruct (get es "Name") as [n'|]; [|reflexivity].
  destruct (get es "EntityType") as [ty|]; [|reflexivity].
  destruct (String.eqb n' "" || String.eqb ty ""); simpl; [reflexivity|].
  rewrite dict_get_set, (String.eqb_sym n).
  now destruct (String.eqb n' n).
Qed.

(** After the loop a key holds the record of the last entity set that
    was stored under it. *)
Lemma fold_parse_last
  (proj : converter -> list (string * capabilities))
  (key : element -> string) (k : string) :
  (forall st es,
      dict_get k (proj (fst (parse_entity_set st es)))
      = if declared es && String.eqb (key es) k
        then Some (entity_set_capabilities es)
        else dict_get k (proj (fst st))) ->
  forall l st,
    dict_get k (proj (fst (fold_left parse_entity_set l st)))
    = match rev (filter (fun es => declared es && String.eqb (key es) k) l) with
      | es :: _ => Some (entity_set_capabilities es)
      | [] => dict_get k (proj (fst st))
      end.
Proof.
  intros step l. induction l as [|a l IH]; intros st; [reflexivity|].
  simpl fold_left. rewrite IH. simpl filter.
  destruct (declared a && String.eqb (key a) k) eqn:E.
  - simpl rev.
    destruct (rev (filter (fun es => declared es && String.eqb (key es) k) l));
      simpl; [|reflexivity].
    now rewrite step, E.
  - destruct (rev (filter (fun es => declared es && String.eqb (key es) k) l));
      [|reflexivity].
    now rewrite step, E.
Qed.

Lemma parse_fst self root :
  fst (_parse_edmx_capabilities self (Parsed root))
  = fst (fold_left parse_entity_set (findall root (edm "EntitySet")) (self, [])).
Proof.
  unfold _parse_edmx_capabilities.
  now destruct (fold_left parse_entity_set _ _).
Qed.

End Storing.

(** C5. The capability record of an entity set.  The record the
    extractor builds for an entity set starts from all three flags true
    and is what the specification describes: each flag is the value of
    the last annotation that names its restriction and carries its
    property value, and true when there is none.  So an entity set whose
    annotations name no restriction gets exactly (true, true, true); an
    annotation whose term contains [InsertRestrictions],
    [UpdateRestrictions] or [DeleteRestrictions] (the tests form a chain
    in this order, a term counts for the first name it contains) sets
    only its own flag, to whether the [Bool] attribute of its
    [Insertable], [Updatable] or [Deletable] property value is ["true"]
    whatever the case of the letters, and leaves the record as it is when
    that property value is absent, so that a flag none of whose
    annotations carries the property value keeps its default, true; and
    a declared entity set has this record stored under its name and
    under its type name. *)
Theorem capability_record_of_entity_set (entity_set : element) :
  entity_set_capabilities entity_set
  = fold_left apply_annotation (findall entity_set (edm "Annotation"))
              (mkCapabilities true true true)
  /\ entity_set_capabilities entity_set = spec_capabilities entity_set
  /\ (forallb no_restriction (findall entity_set (edm "Annotation")) = true ->
      entity_set_capabilities entity_set = mkCapabilities true true true)
  /\ ((forall a, In a (findall entity_set (edm "Annotation")) ->
                  PyStr.contains "InsertRestrictions" (get_default a "Term" "") = true ->
                  find_property_value a "Insertable" = None) ->
      insertable (entity_set_capabilities entity_set) = true)
  /\ ((forall a, In a (findall entity_set (edm "Annotation")) ->
                  PyStr.contains "UpdateRestrictions" (get_default a "Term" "") = true ->
                  find_property_value a "Updatable" = None) ->
      updatable (entity_set_capabilities entity_set) = true)
  /\ ((forall a, In a (findall entity_set (edm "Annotation")) ->
                  PyStr.contains "DeleteRestrictions" (get_default a "Term" "") = true ->
                  find_property_value a "Deletable" = None) ->
      deletable (entity_set_capabilities entity_set) = true)
  /\ (forall c a,
         PyStr.contains "InsertRestrictions" (get_default a "Term" "") = true ->
         apply_annotation c a
         = match find_property_value a "Insertable" with
           | Some pv =>
               mkCapabilities
                 (String.eqb (PyStr.lower (get_default pv "Bool" "true")) "true")
                 (updatable c) (deletable c)
           | None => c
           end)
  /\ (forall c a,
         PyStr.contains "InsertRestrictions" (get_default a "Term" "") = false ->
         PyStr.contains "UpdateRestrictions" (get_default a "Term" "") = true ->
         apply_annotation c a
         = match find_property_value a "Updatable" with
           | Some pv =>
               mkCapabilities
                 (insertable c)
                 (String.eqb (PyStr.lower (get_default pv "Bool" "true")) "true")
                 (deletable c)
           | None => c
           end)
  /\ (forall c a,
         PyStr.contains "InsertRestrictions" (get_default a "Term" "") = false ->
         PyStr.contains "UpdateRestrictions" (get_default a "Term" "") = false ->
         PyStr.contains "DeleteRestrictions" (get_default a "Term" "") = true ->
         apply_annotation c a
         = match find_property_value a "Deletable" with
           | Some pv =>
               mkCapabilities
                 (insertable c) (updatable c)
                 (String.eqb (PyStr.lower (get_default pv "Bool" "true")) "true")
           | None => c
           end)
  /\ (forall self out,
         declared entity_set = true ->
         let self' := fst (parse_entity_set (self, out) entity_set) in
         dict_get (get_default entity_set "Name" "") (edmx_capabilities self')
         = Some (entity_set_capabilities entity_set)
         /\ dict_get (declared_type entity_set) (entity_type_capabilities self')
            = Some (entity_set_capabilities entity_set)).
Proof.
  split; [reflexivity|].
  split; [apply entity_set_capabilities_spec|].
  split; [apply no_restriction_fold|].
  split; [|split; [|split]];
    try (intros H; rewrite entity_set_capabilities_spec; simpl;
         apply last_given_none; intros a Hin;
         unfold annotation_value; simpl existsb;
         repeat match goal with
                | |- context [if ?b || false then _ else _] =>
                    rewrite (orb_false_r b)
                | |- (if ?b then _ else _) = None =>
                    let E := fresh "E" in destruct b eqn:E; try reflexivity
                end;
         now rewrite (H a Hin) by assumption).
  split; [|split]; [| |split].
  - intros c a H. unfold apply_annotation. now rewrite H.
  - intros c a H1 H2. unfold apply_annotation. now rewrite H1, H2.
  - intros c a H1 H2 H3. unfold apply_annotation. now rewrite H1, H2, H3.
  - intros self out D self'. subst self'. split.
    + now rewrite parse_entity_set_names, D, String.eqb_refl.
    + now rewrite parse_entity_set_types, D, String.eqb_refl.
Qed.

(** C10. Entity sets that share a type.  After the extractor has run,
    the entity-type dictionary holds under a type name the record of the
    last declared entity set, in document order, whose type has that
    name (and what it held before when there is none): a later set
    overwrites an earlier one of the same type, so the look-up by
    entity type sees the last set's restrictions only. *)
Theorem last_entity_set_of_type_wins (self : converter) (root : element)
  (t : string) :
  dict_get t (entity_type_capabilities
                (fst (_parse_edmx_capabilities self (Parsed root))))
  = match rev (filter (fun es => declared es && String.eqb (declared_type es) t)
                      (findall root (edm "EntitySet"))) with
    | last_set :: _ => Some (entity_set_capabilities last_set)
    | [] => dict_get t (entity_type_capabilities self)
    end.
Proof.
  rewrite parse_fst.
  apply (fold_parse_last entity_type_capabilities declared_type t
                         (fun st es => parse_entity_set_types st es t)).
Qed.

Example shared_type_parsed :
  fst (_parse_edmx_capabilities init (Parsed shared_type_edmx))
  = mkConverter [("Items", no_delete); ("ArchivedItems", no_insert)]
                [("Item", no_insert)].
Proof. reflexivity. Qed.

(** ** Capability enforcement *)

(** C6. A metadata document that cannot be parsed.  The extractor
    returns normally: the converter is left as it was, with both
    dictionaries empty on a new converter, and a warning is printed;
    [convert] goes on to the enhancement with that converter; and with
    an empty entity-set dictionary the enforcement stage returns the
    document it was given, whatever the document. *)
Theorem parse_failure_disables_enforcement (e : string) (spec : dict) :
  (forall self, _parse_edmx_capabilities self (ParseError e) = (self, [Warning e]))
  /\ _parse_edmx_capabilities init (ParseError e)
     = (mkConverter [] [], [Warning e])
  /\ (forall title description api_name api_version tenant_placeholder,
         convert init (ParseError e) spec title description api_name
                 api_version tenant_placeholder
         = (init, [Warning e],
            _enhance_openapi_spec init spec title description api_name
                                  api_version tenant_placeholder))
  /\ _enforce_edmx_capabilities init spec = Ok spec
  /\ (forall types, _enforce_edmx_capabilities (mkConverter [] types) spec = Ok spec).
Proof.
  repeat split.
  - unfold _enforce_edmx_capabilities. now destruct (dict_get "paths" spec).
  - intros types. unfold _enforce_edmx_capabilities. simpl.
    now destruct (dict_get "paths" spec).
Qed.

Section Override.

Lemma find_first {A : Type} (P : A -> bool) (before after : list A) (x : A) :
  (forall y, In y before -> P y = false) -> P x = true ->
  find P (before ++ x :: after) = Some x.
Proof.
  intros Hb Hx. induction before as [|b before IH]; simpl.
  - now rewrite Hx.
  - rewrite (Hb b (or_introl eq_refl)). apply IH.
    intros y Hy. apply Hb. now right.
Qed.

Lemma find_all_false {A : Type} (P : A -> bool) (l : list A) :
  (forall y, In y l -> P y = false) -> find P l = None.
Proof.
  intros H. induction l as [|a l IH]; simpl; [reflexivity|].
  rewrite (H a (or_introl eq_refl)). apply IH.
  intros y Hy. apply H. now right.
Qed.

End Override.

(** C7, as the code has it.  Once the three look-ups have returned a
    record (or none), the override loop takes the first entity type, in
    the order of the dictionary, that has a restriction and whose name
    preceded by a slash occurs in the path: the operations are removed
    by that type's record, whatever the look-ups found.  When no type
    qualifies, they are removed by what the look-ups found. *)
Theorem first_restricted_type_overrides (self : converter) (spec : dict)
  (path : string) (path_obj : json) (found : option capabilities) :
  find_capabilities self spec path path_obj = Ok found ->
  (forall before name c after,
      entity_type_capabilities self = before ++ (name, c) :: after ->
      PyStr.contains ("/" ++ name) path = true ->
      all_allowed c = false ->
      (forall name' c', In (name', c') before ->
                        PyStr.contains ("/" ++ name') path = false
                        \/ all_allowed c' = true) ->
      enforce_path self spec path path_obj
      = apply_capabilities (Some c) path_obj)
  /\ ((forall name' c', In (name', c') (entity_type_capabilities self) ->
                        PyStr.contains ("/" ++ name') path = false
                        \/ all_allowed c' = true) ->
      enforce_path self spec path path_obj
      = apply_capabilities found path_obj).
Proof.
  intros Hf. unfold enforce_path, override_capabilities. rewrite Hf. simpl.
  split.
  - intros before name c after Ht Hin Hr Hb. rewrite Ht.
    rewrite (find_first _ before after (name, c)); [reflexivity| |].
    + intros [n' c'] Hy. simpl. destruct (Hb n' c' Hy) as [H|H]; rewrite H.
      * reflexivity.
      * apply andb_false_r.
    + simpl. now rewrite Hin, Hr.
  - intros Hall. rewrite find_all_false; [reflexivity|].
    intros [n' c'] Hy. simpl. destruct (Hall n' c' Hy) as [H|H]; rewrite H.
    + reflexivity.
    + apply andb_false_r.
Qed.

Lemma first_restricted_type_overrides_witness :
  find_capabilities items_converter [] "/companies({id})/Items({id})"
                    get_delete_item = Ok (Some no_delete)
  /\ enforce_path items_converter [] "/companies({id})/Items({id})"
                  get_delete_item
     = apply_capabilities (Some no_delete) get_delete_item.
Proof.
  split; [reflexivity|].
  apply (proj1 (first_restricted_type_overrides
                  items_converter [] "/companies({id})/Items({id})"
                  get_delete_item (Some no_delete) eq_refl)
               [] "Item" no_delete []); try reflexivity.
  intros name' c' [].
Defined.

(** C7, as the specification states it, fails: the bare name [Item]
    occurs in the path [/companies({id})/salesItems] and [Item] may not be
    deleted, yet the [delete] operation of the path stays, where the
    record of [Item] would have removed it. *)
Lemma bare_type_name_does_not_override :
  PyStr.contains "Item" "/companies({id})/salesItems" = true
  /\ dict_get "Item" (entity_type_capabilities items_converter) = Some no_delete
  /\ all_allowed no_delete = false
  /\ enforce_path items_converter [] "/companies({id})/salesItems"
                  get_delete_item
     = Ok get_delete_item
  /\ apply_capabilities (Some no_delete) get_delete_item
     = Ok (JObj [("get", JObj [])]).
Proof. repeat split. Qed.

(** ** Exceptions *)

Lemma bind_Ok {A B : Type} (m : result A) (k : A -> result B) (b : B) :
  bind m k = Ok b -> exists a, m = Ok a /\ k a = Ok b.
Proof. destruct m as [a|]; simpl; [eauto | discriminate]. Qed.

(** Splits a hypothesis [x <- m ;; k = Ok b] into its two steps. *)
Tactic Notation "bind_inv" hyp(H) "as" ident(a) ident(Ha) :=
  apply bind_Ok in H; destruct H as (a & Ha & H).

Lemma py_items_Ok (x : json) (d : dict) : py_items x = Ok d -> x = JObj d.
Proof. destruct x; simpl; congruence. Qed.

Lemma py_getitem_Ok (k : string) (x v : json) :
  py_getitem k x = Ok v -> exists d, x = JObj d /\ dict_get k d = Some v.
Proof.
  destruct x; simpl; try discriminate.
  destruct (dict_get k members) eqn:E; [|discriminate].
  intros [= ->]. eauto.
Qed.

Lemma py_setitem_Ok (k : string) (v x y : json) :
  py_setitem k v x = Ok y -> exists d, x = JObj d /\ y = JObj (dict_set k v d).
Proof. destruct x; simpl; try discriminate. intros [= <-]. eauto. Qed.

(** ** Schema pruning *)

Section SchemaPruning.

Lemma endswith_mutation (s : string) :
  PyStr.endswith s "-create" = true \/ PyStr.endswith s "-update" = true ->
  is_mutation_schema s = true.
Proof. unfold is_mutation_schema. intros [-> | ->]; auto using orb_true_r. Qed.

(** Every name collected for removal is a create or an update variant. *)
Lemma schemas_to_remove_mutation self used_by_post used_by_patch all_schemas s :
  In s (schemas_to_remove self used_by_post used_by_patch all_schemas) ->
  is_mutation_schema s = true.
Proof.
  unfold schemas_to_remove, capability_based_removals.
  rewrite !in_app_iff, !filter_In.
  intros [[H | [H | [H | H]]] | H].
  - apply endswith_mutation. tauto.
  - apply endswith_mutation. tauto.
  - apply endswith_mutation. tauto.
  - apply endswith_mutation. tauto.
  - destruct H as [_ H]. unfold force_remove in H.
    destruct (PyStr.startswith s "Microsoft.NAV." && is_mutation_schema s) eqn:E;
      [|discriminate].
    apply andb_true_iff in E. tauto.
Qed.

(** The shape of a run of the stage: an early return, or the schemas
    without the names collected. *)
Lemma remove_unused_schema_variants_Ok self spec spec' :
  _remove_unused_schema_variants self spec = Ok spec' ->
  (spec' = spec
   /\ (dict_get "paths" spec = None
       \/ dict_get "components" spec = None
       \/ exists components, dict_get "components" spec = Some components
                             /\ py_in "schemas" components = Ok false))
  \/ exists paths components schemas used,
      dict_get "paths" spec = Some (JObj paths)
      /\ dict_get "components" spec = Some (JObj components)
      /\ dict_get "schemas" components = Some (JObj schemas)
      /\ schemas_used paths = Ok used
      /\ spec' = dict_set "components"
                   (JObj (dict_set "schemas"
                            (JObj (remove_keys
                                     (schemas_to_remove self (fst used) (snd used)
                                                        (dict_keys schemas))
                                     schemas))
                            components))
                   spec.
Proof.
  unfold _remove_unused_schema_variants.
  destruct (dict_get "paths" spec) as [paths|] eqn:Ep;
    [|intros [= <-]; left; auto].
  destruct (dict_get "components" spec) as [components|] eqn:Ec;
    [|intros [= <-]; left; auto].
  intros H. bind_inv H as has Hhas.
  destruct has; simpl in H; [|injection H as <-; left; eauto 6].
  bind_inv H as items Hitems. apply py_items_Ok in Hitems. subst paths.
  bind_inv H as used Hused. bind_inv H as schemas Hschemas.
  bind_inv H as schema_items Hsi. apply py_items_Ok in Hsi. subst schemas.
  bind_inv H as components' Hset. injection H as <-.
  apply py_getitem_Ok in Hschemas. destruct Hschemas as (c & -> & Hs).
  simpl in Hset. injection Hset as <-.
  right. exists items, c, schema_items, used. auto.
Qed.

End SchemaPruning.

(** C9. Schema pruning keeps the read schemas.  When the stage returns,
    a name that ends neither in [-create] nor in [-update] holds in
    [components/schemas] exactly what it held before. *)
Theorem read_schemas_survive_pruning (self : converter) (spec spec' : dict)
  (name : string) :
  _remove_unused_schema_variants self spec = Ok spec' ->
  is_mutation_schema name = false ->
  schema_of spec' name = schema_of spec name.
Proof.
  intros H Hn. apply remove_unused_schema_variants_Ok in H.
  destruct H as [[-> _] | (paths & components & schemas & used & Hp & Hc & Hs & Hu & ->)];
    [reflexivity|].
  unfold schema_of. rewrite dict_get_set_same, dict_get_set_same, Hc, Hs.
  rewrite dict_get_remove_keys.
  destruct (PyStr.mem name _) eqn:E; [|reflexivity].
  apply mem_In, schemas_to_remove_mutation in E. congruence.
Qed.

Lemma read_schemas_survive_pruning_witness :
  exists spec',
    _remove_unused_schema_variants items_converter items_base = Ok spec'
    /\ is_mutation_schema "Microsoft.NAV.Item" = false
    /\ schema_of spec' "Microsoft.NAV.Item"
       = schema_of items_base "Microsoft.NAV.Item".
Proof.
  eexists. split; [reflexivity|]. split; [reflexivity|].
  apply (read_schemas_survive_pruning items_converter items_base);
    reflexivity.
Defined.

(** C8 on a schema name that holds [-create] twice.  The create variant
    [Microsoft.NAV.item-create-create] of the entity type [item-create]
    is referenced by the [post] of [/things], and [item-create] may be
    inserted, so neither criterion asks for its removal; the stage
    removes it all the same, because it takes the base name with every
    [-create] deleted, which is [item], a type that may not be inserted.
    The whole pipeline then leaves the [post] with a reference to a
    schema that is gone. *)
Theorem referenced_create_schema_removed :
  schemas_used [("/things",
                 JObj [("post",
                        JObj [("requestBody",
                               body_of "Microsoft.NAV.item-create-create")])])]
  = Ok (["Microsoft.NAV.item-create-create"], [])
  /\ PyStr.slice 14 7 "Microsoft.NAV.item-create-create" = "item-create"
  /\ dict_get "item-create" (entity_type_capabilities twice_suffixed_converter)
     = Some allow_all
  /\ base_name "-create" "Microsoft.NAV.item-create-create" = "item"
  /\ schema_of twice_suffixed_spec "Microsoft.NAV.item-create-create"
     = Some (JObj [("properties", JObj [("no", JObj [])])])
  /\ (exists spec',
         _remove_unused_schema_variants twice_suffixed_converter
                                        twice_suffixed_spec = Ok spec'
         /\ schema_of spec' "Microsoft.NAV.item-create-create" = None
         /\ path_item spec' "/things" = path_item twice_suffixed_spec "/things")
  /\ (exists out,
         enhance twice_suffixed_converter twice_suffixed_spec = Ok out
         /\ schema_of out "Microsoft.NAV.item-create-create" = None
         /\ path_item out "/things"
            = Some (JObj [("post",
                           JObj [("requestBody",
                                  body_of "Microsoft.NAV.item-create-create")]);
                          ("parameters", JArr [company_ref])])).
Proof.
  repeat (split; [reflexivity|]).
  split; eexists; (split; [vm_compute; reflexivity|]); split; reflexivity.
Qed.

(** ** Loops over the items of a dictionary *)

Section MapItems.
Variable body : string -> json -> result json.

Lemma map_items_keys (d d' : dict) :
  map_items body d = Ok d' -> dict_keys d' = dict_keys d.
Proof.
  revert d'. induction d as [|[k v] d IH]; intros d' H; simpl in H.
  - now injection H as <-.
  - bind_inv H as v' Hv. bind_inv H as rest' Hr. injection H as <-.
    simpl. now rewrite (IH _ Hr).
Qed.

(** The item under a key afterwards is the body's result on the item
    that was there. *)
Lemma map_items_get (d d' : dict) (k : string) :
  map_items body d = Ok d' ->
  match dict_get k d with
  | Some v => exists v', body k v = Ok v' /\ dict_get k d' = Some v'
  | None => dict_get k d' = None
  end.
Proof.
  revert d'. induction d as [|[a v] d IH]; intros d' H; simpl in H.
  - now injection H as <-.
  - bind_inv H as v' Hv. bind_inv H as rest' Hr. injection H as <-.
    simpl. destruct (String.eqb k a) eqn:E.
    + apply String.eqb_eq in E. subst a. eauto.
    + apply (IH _ Hr).
Qed.

Lemma map_items_In (d d' : dict) (k : string) (v' : json) :
  map_items body d = Ok d' -> In (k, v') d' ->
  exists v, In (k, v) d /\ body k v = Ok v'.
Proof.
  revert d'. induction d as [|[a v] d IH]; intros d' H Hin; simpl in H.
  - injection H as <-. destruct Hin.
  - bind_inv H as w Hv. bind_inv H as rest' Hr. injection H as <-.
    destruct Hin as [[= -> ->] | Hin].
    + exists v. split; [now left | exact Hv].
    + destruct (IH _ Hr Hin) as (v0 & H1 & H2). exists v0. split; [now right | exact H2].
Qed.

(** A body that changes no item leaves the dictionary as it is. *)
Lemma map_items_id (d : dict) :
  (forall k v, In (k, v) d -> body k v = Ok v) -> map_items body d = Ok d.
Proof.
  induction d as [|[k v] d IH]; intros H; simpl; [reflexivity|].
  rewrite (H k v (or_introl eq_refl)). simpl.
  rewrite IH; [reflexivity|]. intros k' v' Hin. apply H. now right.
Qed.

End MapItems.

(** Two bodies that agree on the items give the same dictionary. *)
Lemma map_items_ext (f g : string -> json -> result json) (d : dict) :
  (forall k v, In (k, v) d -> f k v = g k v) -> map_items f d = map_items g d.
Proof.
  induction d as [|[k v] d IH]; intros H; simpl; [reflexivity|].
  rewrite (H k v (or_introl eq_refl)), IH; [reflexivity|].
  intros k' v' Hin. apply H. now right.
Qed.

(** ** The stages of the pipeline, one by one *)

Section Stages.

Lemma replace_sections_Ok spec title description api_name api_version
      tenant_placeholder spec' :
  replace_sections spec title description api_name api_version
                   tenant_placeholder = Ok spec' ->
  dict_get "paths" spec' = dict_get "paths" spec
  /\ exists components, dict_get "components" spec' = Some (JObj components).
Proof.
  unfold replace_sections. intros H.
  bind_inv H as components Hc. bind_inv H as components' Hs.
  injection H as <-.
  apply py_setitem_Ok in Hs. destruct Hs as (c & -> & ->).
  split; [|rewrite dict_get_set_same; eauto].
  rewrite dict_get_set_other by reflexivity.
  destruct (dict_has "components" _);
    now rewrite !dict_get_set_other by reflexivity.
Qed.

(** A key that is new goes to the end. *)
Lemma dict_set_fresh {V : Type} (k : string) (v : V) (d : list (string * V)) :
  ~ In k (dict_keys d) -> dict_set k v d = d ++ [(k, v)].
Proof.
  induction d as [|[a w] d IH]; simpl; intros H; [reflexivity|].
  destruct (String.eqb k a) eqn:E.
  - apply String.eqb_eq in E. subst a. tauto.
  - rewrite IH; [reflexivity | tauto].
Qed.

(** On distinct keys the injection loop is a loop that changes the
    items in place. *)
Lemma add_company_refs_map_items (items acc : dict) :
  NoDup (dict_keys acc ++ dict_keys items) ->
  add_company_refs items acc
  = (items' <- map_items add_company_ref items ;; Ok (acc ++ items')).
Proof.
  revert acc. induction items as [|[k v] items IH]; intros acc H; simpl.
  - now rewrite app_nil_r.
  - destruct (add_company_ref k v) as [v'|]; simpl; [|reflexivity].
    assert (Hk : ~ In k (dict_keys acc)).
    { apply NoDup_remove_2 in H. rewrite in_app_iff in H. tauto. }
    rewrite (dict_set_fresh k v' acc Hk), IH.
    + destruct (map_items add_company_ref items); simpl; [|reflexivity].
      now rewrite <- app_assoc.
    + unfold dict_keys. rewrite map_app. simpl.
      rewrite <- app_assoc. exact H.
Qed.

Lemma add_company_parameter_Ok spec spec' :
  _add_company_parameter spec = Ok spec' ->
  parameter_of spec' "company" = Some company_parameter
  /\ match dict_get "paths" spec with
     | None => dict_get "paths" spec' = None
     | Some paths =>
         exists items new_paths,
           paths = JObj items
           /\ add_company_refs items [] = Ok new_paths
           /\ dict_get "paths" spec' = Some (JObj new_paths)
     end.
Proof.
  unfold _add_company_parameter. intros H.
  bind_inv H as components Hc. bind_inv H as has Hh.
  bind_inv H as components1 H1. bind_inv H as parameters Hp.
  bind_inv H as parameters' Hp'. bind_inv H as components2 H2.
  apply py_setitem_Ok in Hp'. destruct Hp' as (ps & -> & ->).
  apply py_setitem_Ok in H2. destruct H2 as (c1 & -> & ->).
  rewrite dict_get_set_other in H by reflexivity.
  assert (P : forall s, dict_get "components" s
                        = Some (JObj (dict_set "parameters"
                                        (JObj (dict_set "company" company_parameter ps))
                                        c1)) ->
                        parameter_of s "company" = Some company_parameter).
  { intros s Hs. unfold parameter_of. now rewrite Hs, !dict_get_set_same. }
  destruct (dict_get "paths" spec) as [paths|] eqn:E.
  - bind_inv H as items Hi. bind_inv H as new_paths Hn. injection H as <-.
    apply py_items_Ok in Hi. subst paths. split.
    + apply P. rewrite dict_get_set_other by reflexivity.
      apply dict_get_set_same.
    + exists items, new_paths. rewrite dict_get_set_same. auto.
  - injection H as <-. split.
    + apply P, dict_get_set_same.
    + now rewrite dict_get_set_other by reflexivity.
Qed.

Lemma remove_system_fields_paths spec spec' :
  _remove_system_fields_from_mutation_schemas spec = Ok spec' ->
  dict_get "paths" spec' = dict_get "paths" spec.
Proof.
  unfold _remove_system_fields_from_mutation_schemas. intros H.
  destruct (dict_get "components" spec) as [components|];
    [|now injection H as <-].
  bind_inv H as has Hh. destruct has; simpl in H; [|now injection H as <-].
  bind_inv H as schemas Hs. bind_inv H as items Hi.
  bind_inv H as items' Hi'. bind_inv H as components' Hc.
  injection H as <-. now rewrite dict_get_set_other by reflexivity.
Qed.

(** The shape of a run of the enforcement stage. *)
Lemma enforce_edmx_capabilities_Ok self spec spec' :
  _enforce_edmx_capabilities self spec = Ok spec' ->
  (spec' = spec /\ (dict_get "paths" spec = None \/ edmx_capabilities self = []))
  \/ exists items items',
      edmx_capabilities self <> []
      /\ dict_get "paths" spec = Some (JObj items)
      /\ map_items (enforce_path self spec) items = Ok items'
      /\ spec' = dict_set "paths" (JObj items') spec.
Proof.
  unfold _enforce_edmx_capabilities. intros H.
  destruct (dict_get "paths" spec) as [paths|];
    [|injection H as <-; left; auto].
  destruct (edmx_capabilities self) as [|e es] eqn:E;
    [injection H as <-; left; auto|].
  bind_inv H as items Hi. bind_inv H as items' Hi'. injection H as <-.
  apply py_items_Ok in Hi. subst paths.
  right. exists items, items'. repeat split; auto. discriminate.
Qed.

Lemma remove_unused_schema_variants_paths self spec spec' :
  _remove_unused_schema_variants self spec = Ok spec' ->
  dict_get "paths" spec' = dict_get "paths" spec.
Proof.
  intros H. apply remove_unused_schema_variants_Ok in H.
  destruct H as [[-> _] | (paths & components & schemas & used & _ & _ & _ & _ & ->)];
    [reflexivity|].
  now rewrite dict_get_set_other by reflexivity.
Qed.

End Stages.

(** ** Removing keys is filtering *)

Section RemoveKeys.

Lemma filter_all {A : Type} (f : A -> bool) (l : list A) :
  (forall x, In x l -> f x = true) -> filter f l = l.
Proof.
  induction l as [|a l IH]; intros H; simpl; [reflexivity|].
  rewrite (H a (or_introl eq_refl)), IH; [reflexivity|].
  intros x Hx. apply H. now right.
Qed.

Lemma filter_twice {A : Type} (f g : A -> bool) (l : list A) :
  filter g (filter f l) = filter (fun x => f x && g x) l.
Proof.
  induction l as [|a l IH]; simpl; [reflexivity|].
  destruct (f a); simpl; [|exact IH].
  destruct (g a); now rewrite IH.
Qed.

Lemma remove_keys_filter (to_remove : list string) (d : dict) :
  remove_keys to_remove d
  = filter (fun kv => negb (PyStr.mem (fst kv) to_remove)) d.
Proof.
  unfold remove_keys. revert d.
  induction to_remove as [|a l IH]; intros d; simpl.
  - symmetry. now apply filter_all.
  - rewrite IH.
    assert (E : (if dict_has a d then dict_del a d else d) = dict_del a d).
    { destruct (dict_has a d) eqn:Eh; [reflexivity|].
      symmetry. apply filter_all. intros [k v] Hin. simpl.
      destruct (String.eqb a k) eqn:Ek; [|reflexivity].
      apply String.eqb_eq in Ek. subst k.
      assert (Hk : In a (dict_keys d)).
      { change a with (fst (a, v)). now apply in_map. }
      apply dict_has_In in Hk. congruence. }
    rewrite E. unfold dict_del. rewrite filter_twice.
    apply filter_ext. intros [k v]. simpl.
    rewrite (String.eqb_sym k a). now destruct (String.eqb a k).
Qed.

(** The pruned dictionary holds the items whose key passes the test. *)
Lemma remove_selected_keys (f : string -> bool) (d : dict) :
  remove_keys (filter f (dict_keys d)) d
  = filter (fun kv => negb (f (fst kv))) d.
Proof.
  rewrite remove_keys_filter. apply filter_ext_in. intros [k v] Hin. simpl.
  rewrite mem_filter_keys.
  assert (Hk : dict_has k d = true).
  { apply dict_has_In. change k with (fst (k, v)). now apply in_map. }
  now rewrite Hk, andb_true_r.
Qed.

Lemma dict_get_filter_keys (g : string -> bool) (d : dict) (k : string) :
  dict_get k (filter (fun kv => g (fst kv)) d)
  = if g k then dict_get k d else None.
Proof.
  induction d as [|[a v] d IH]; simpl; [now destruct (g k)|].
  destruct (g a) eqn:Ea; simpl.
  - destruct (String.eqb k a) eqn:E.
    + apply String.eqb_eq in E. subst a. now rewrite Ea.
    + exact IH.
  - destruct (String.eqb k a) eqn:E; [|exact IH].
    apply String.eqb_eq in E. subst a. rewrite Ea in *. exact IH.
Qed.

End RemoveKeys.

(** ** The pipeline, seen from [paths] *)

Section Pipeline.

Lemma enhance_Ok self spec title description api_name api_version
      tenant_placeholder out :
  _enhance_openapi_spec self spec title description api_name api_version
                        tenant_placeholder = Ok out ->
  exists s1 s2 s3 s4 s5,
    replace_sections spec title description api_name api_version
                     tenant_placeholder = Ok s1
    /\ _add_company_parameter s1 = Ok s2
    /\ _remove_navigation_paths s2 = Ok s3
    /\ _remove_system_fields_from_mutation_schemas s3 = Ok s4
    /\ _enforce_edmx_capabilities self s4 = Ok s5
    /\ _remove_unused_schema_variants self s5 = Ok out.
Proof.
  unfold _enhance_openapi_spec. intros H.
  bind_inv H as s1 H1. bind_inv H as s2 H2. bind_inv H as s3 H3.
  bind_inv H as s4 H4. bind_inv H as s5 H5.
  exists s1, s2, s3, s4, s5. auto 10.
Qed.

(** The paths of the enhanced document: the items of the base document
    with the reference injected, without the navigation paths, and with
    the operations removed by the enforcement (which does not run on an
    empty entity-set dictionary). *)
Lemma enhance_paths self spec title description api_name api_version
      tenant_placeholder out paths0 :
  _enhance_openapi_spec self spec title description api_name api_version
                        tenant_placeholder = Ok out ->
  dict_get "paths" spec = Some (JObj paths0) ->
  NoDup (dict_keys paths0) ->
  exists paths1 paths_out,
    map_items add_company_ref paths0 = Ok paths1
    /\ dict_get "paths" out = Some (JObj paths_out)
    /\ ((edmx_capabilities self = []
         /\ paths_out
            = filter (fun kv => negb (is_navigation_path (fst kv))) paths1)
        \/ exists s,
            map_items (enforce_path self s)
                      (filter (fun kv => negb (is_navigation_path (fst kv)))
                              paths1)
            = Ok paths_out).
Proof.
  intros H Hp Hnd.
  apply enhance_Ok in H.
  destruct H as (s1 & s2 & s3 & s4 & s5 & H1 & H2 & H3 & H4 & H5 & H6).
  apply replace_sections_Ok in H1. destruct H1 as [P1 _].
  apply add_company_parameter_Ok in H2. destruct H2 as [_ P2].
  rewrite P1, Hp in P2. destruct P2 as (items & new_paths & [= <-] & Ha & P2).
  rewrite add_company_refs_map_items in Ha by exact Hnd.
  bind_inv Ha as paths1 Hm. simpl in Ha. injection Ha as <-.
  rewrite (remove_navigation_paths_dict _ _ P2) in H3. injection H3 as <-.
  rewrite remove_selected_keys in *.
  apply remove_system_fields_paths in H4.
  rewrite dict_get_set_same in H4.
  apply remove_unused_schema_variants_paths in H6.
  exists paths1. 
  apply enforce_edmx_capabilities_Ok in H5.
  destruct H5 as [[-> [E|E]] | (items & items' & Hne & Hi & Hmap & ->)].
  - congruence.
  - eexists. split; [exact Hm|]. split; [now rewrite H6, H4|]. left. auto.
  - rewrite H4 in Hi. injection Hi as <-.
    exists items'. split; [exact Hm|].
    split; [now rewrite H6, dict_get_set_same|]. right. now exists s4.
Qed.

End Pipeline.

(** ** Parameter injection *)

Section Injection.

(** Injection adds one reference, except under an excluded prefix. *)
Lemma add_company_ref_refs (path_name : string) (values values' : json) :
  add_company_ref path_name values = Ok values' ->
  company_refs values'
  = company_refs values + (if no_company path_name then 0 else 1).
Proof.
  unfold add_company_ref. destruct (no_company path_name).
  - intros [= <-]. lia.
  - intros H. bind_inv H as has Hh. bind_inv H as values1 H1.
    bind_inv H as parameters Hp. bind_inv H as parameters' Ha.
    apply py_setitem_Ok in H. destruct H as (d1 & -> & ->).
    destruct parameters; try discriminate. injection Ha as <-.
    simpl in Hp. destruct (dict_get "parameters" d1) eqn:E1; [|discriminate].
    injection Hp as ->.
    assert (R : company_refs (JObj (dict_set "parameters"
                                      (JArr (items ++ [company_ref])) d1))
                = List.length (filter is_company_ref items) + 1).
    { simpl. rewrite dict_get_set_same, filter_app, length_app. reflexivity. }
    rewrite R. destruct has.
    + injection H1 as ->. simpl. now rewrite E1.
    + apply py_setitem_Ok in H1. destruct H1 as (d & -> & [= ->]).
      rewrite dict_get_set_same in E1. injection E1 as <-.
      simpl in Hh. injection Hh as Hh. unfold dict_has in Hh. simpl.
      now destruct (dict_get "parameters" d).
Qed.

Lemma remove_method_Ok (allowed : bool) (method : string) (o o' : json) :
  remove_method allowed method o = Ok o' ->
  o' = o \/ exists d, o = JObj d /\ o' = JObj (dict_del method d).
Proof.
  unfold remove_method. destruct allowed; [intros [= <-]; now left|].
  intros H. bind_inv H as has Hh. destruct has; [|injection H as <-; now left].
  destruct o; try discriminate. simpl in H.
  destruct (dict_has method members); [|discriminate].
  injection H as <-. right. eauto.
Qed.

Lemma remove_method_refs (allowed : bool) (method : string) (o o' : json) :
  String.eqb method "parameters" = false ->
  remove_method allowed method o = Ok o' -> company_refs o' = company_refs o.
Proof.
  intros Hm H. apply remove_method_Ok in H.
  destruct H as [-> | (d & -> & ->)]; [reflexivity|].
  simpl. now rewrite dict_get_del, Hm.
Qed.

(** Enforcement does not touch the [parameters] of a path item. *)
Lemma enforce_path_refs self spec path (o o' : json) :
  enforce_path self spec path o = Ok o' -> company_refs o' = company_refs o.
Proof.
  unfold enforce_path. intros H. bind_inv H as found Hf.
  unfold apply_capabilities in H.
  destruct (override_capabilities self path found) as [c|];
    [|now injection H as <-].
  bind_inv H as o1 H1. bind_inv H as o2 H2.
  apply remove_method_refs in H1, H2, H; try reflexivity. congruence.
Qed.

End Injection.

(** C3, as the code has it.  After a run on a base document whose
    paths are distinct, every path of the output was a path of the base
    document, and its [parameters] hold as many references to the shared
    [company] parameter as they did there, plus one unless the path
    starts with one of the eight excluded prefixes ([/$batch],
    [/apicategoryroutes], [/companies], [/entitydefinitions],
    [/externalbusinesseventdefinitions], [/externaleventsubscriptions],
    [/subscriptions], [/entityDefinitions]).  So a path outside these
    prefixes that had none gets exactly one, and a path under them,
    every company-scoped path included, gets none. *)
Theorem company_refs_after_enhancement (self : converter) (spec out : dict)
  (title description api_name api_version tenant_placeholder : option string)
  (paths0 : dict) :
  _enhance_openapi_spec self spec title description api_name api_version
                        tenant_placeholder = Ok out ->
  dict_get "paths" spec = Some (JObj paths0) ->
  NoDup (dict_keys paths0) ->
  forall path item,
    path_item out path = Some item ->
    exists item0,
      dict_get path paths0 = Some item0
      /\ company_refs item
         = company_refs item0 + (if no_company path then 0 else 1)
      /\ (company_refs item0 = 0 -> no_company path = false ->
          company_refs item = 1)
      /\ (company_refs item0 = 0 -> no_company path = true ->
          company_refs item = 0).
Proof.
  intros H Hp Hnd path item Hitem.
  destruct (enhance_paths _ _ _ _ _ _ _ _ _ H Hp Hnd)
    as (paths1 & paths_out & Hm & Hout & Henf).
  unfold path_item in Hitem. rewrite Hout in Hitem.
  assert (K : exists item1,
             dict_get path
               (filter (fun kv => negb (is_navigation_path (fst kv))) paths1)
             = Some item1 /\ company_refs item = company_refs item1).
  { destruct Henf as [[_ ->] | (s & Hs)]; [eauto|].
    pose proof (map_items_get _ _ _ path Hs) as G.
    destruct (dict_get path (filter _ paths1)) as [item1|].
    - destruct G as (v' & Hv & G). rewrite G in Hitem. injection Hitem as ->.
      exists item1. split; [reflexivity|]. now apply enforce_path_refs in Hv.
    - congruence. }
  destruct K as (item1 & K1 & K2).
  rewrite (dict_get_filter_keys (fun k => negb (is_navigation_path k))) in K1.
  destruct (negb (is_navigation_path path)); [|discriminate].
  pose proof (map_items_get _ _ _ path Hm) as G.
  destruct (dict_get path paths0) as [item0|]; [|congruence].
  destruct G as (v' & Hv & G). rewrite G in K1. injection K1 as ->.
  exists item0. split; [reflexivity|].
  apply add_company_ref_refs in Hv. rewrite K2, Hv.
  repeat split; intros E0 E1; rewrite E0, E1; reflexivity.
Qed.

Lemma company_refs_after_enhancement_witness :
  exists out,
    enhance items_converter items_base = Ok out
    /\ path_item out "/items"
       = Some (JObj [("get", JObj []); ("parameters", JArr [company_ref])])
    /\ exists item0,
        path_item items_base "/items" = Some item0
        /\ company_refs (JObj [("get", JObj []); ("parameters", JArr [company_ref])])
           = company_refs item0 + (if no_company "/items" then 0 else 1)
        /\ (company_refs item0 = 0 -> no_company "/items" = false ->
            company_refs (JObj [("get", JObj []); ("parameters", JArr [company_ref])])
            = 1)
        /\ (company_refs item0 = 0 -> no_company "/items" = true ->
            company_refs (JObj [("get", JObj []); ("parameters", JArr [company_ref])])
            = 0).
Proof.
  eexists. split; [vm_compute; reflexivity|]. split; [reflexivity|].
  refine (company_refs_after_enhancement
            items_converter items_base _ None None (Some "items") None None
            _ eq_refl eq_refl _ "/items" _ eq_refl).
  repeat (constructor; [simpl; intuition discriminate|]). constructor.
Defined.

(** C3, as the specification states it, fails.
    [/companies({id})/Items] is a path of the output and none of the listed endpoints, and it has no
    reference at all; and a path that came with a reference leaves with
    two. *)
Lemma company_ref_missing_or_doubled :
  PyStr.mem "/companies({id})/Items" tenant_level_endpoints = false
  /\ (exists out item,
         enhance items_converter items_base = Ok out
         /\ path_item out "/companies({id})/Items" = Some item
         /\ company_refs item = 0)
  /\ PyStr.mem "/items" tenant_level_endpoints = false
  /\ (exists out item,
         enhance items_converter injected_base = Ok out
         /\ path_item out "/items" = Some item
         /\ company_refs item = 2).
Proof.
  split; [reflexivity|]. split.
  - eexists. eexists. split; [vm_compute; reflexivity|]. split; reflexivity.
  - split; [reflexivity|].
    eexists. eexists. split; [vm_compute; reflexivity|]. split; reflexivity.
Qed.

(** ** The shared parameter survives the later stages *)

Section SharedParameter.

Lemma remove_system_fields_parameters spec spec' name :
  _remove_system_fields_from_mutation_schemas spec = Ok spec' ->
  parameter_of spec' name = parameter_of spec name.
Proof.
  unfold _remove_system_fields_from_mutation_schemas. intros H.
  destruct (dict_get "components" spec) as [components|] eqn:Ec;
    [|now injection H as <-].
  bind_inv H as has Hh. destruct has; simpl in H; [|now injection H as <-].
  bind_inv H as schemas Hs. bind_inv H as items Hi.
  bind_inv H as items' Hi'. bind_inv H as components' Hc.
  injection H as <-.
  apply py_setitem_Ok in Hc. destruct Hc as (c & -> & ->).
  unfold parameter_of. rewrite dict_get_set_same, Ec.
  now rewrite dict_get_set_other by reflexivity.
Qed.

Lemma remove_unused_schema_variants_parameters self spec spec' name :
  _remove_unused_schema_variants self spec = Ok spec' ->
  parameter_of spec' name = parameter_of spec name.
Proof.
  intros H. apply remove_unused_schema_variants_Ok in H.
  destruct H as [[-> _] | (paths & components & schemas & used & _ & Hc & _ & _ & ->)];
    [reflexivity|].
  unfold parameter_of. rewrite dict_get_set_same, Hc.
  now rewrite dict_get_set_other by reflexivity.
Qed.

Lemma enforce_edmx_capabilities_components self spec spec' :
  _enforce_edmx_capabilities self spec = Ok spec' ->
  dict_get "components" spec' = dict_get "components" spec.
Proof.
  intros H. apply enforce_edmx_capabilities_Ok in H.
  destruct H as [[-> _] | (items & items' & _ & _ & _ & ->)]; [reflexivity|].
  now rewrite dict_get_set_other by reflexivity.
Qed.

Lemma remove_navigation_paths_components spec spec' :
  _remove_navigation_paths spec = Ok spec' ->
  dict_get "components" spec' = dict_get "components" spec.
Proof.
  unfold _remove_navigation_paths.
  destruct (dict_get "paths" spec) as [[| | | | |l|d]|];
    try discriminate; try (now intros [= <-]).
  - destruct (forallb _ l); [now intros [= <-] | discriminate].
  - intros [= <-]. now rewrite dict_get_set_other by reflexivity.
Qed.

(** The enhanced document holds the shared parameter. *)
Lemma enhance_company_parameter self spec title description api_name
      api_version tenant_placeholder out :
  _enhance_openapi_spec self spec title description api_name api_version
                        tenant_placeholder = Ok out ->
  parameter_of out "company" = Some company_parameter.
Proof.
  intros H. apply enhance_Ok in H.
  destruct H as (s1 & s2 & s3 & s4 & s5 & H1 & H2 & H3 & H4 & H5 & H6).
  apply add_company_parameter_Ok in H2. destruct H2 as [P _].
  rewrite (remove_unused_schema_variants_parameters _ _ _ _ H6).
  apply enforce_edmx_capabilities_components in H5.
  apply remove_navigation_paths_components in H3.
  apply (remove_system_fields_parameters _ _ "company") in H4.
  unfold parameter_of in *. now rewrite H5, H4, H3.
Qed.

End SharedParameter.

(** ** The scenario of the [Items] entity set *)

Section Scenario.

Lemma items_edmx_parsed :
  _parse_edmx_capabilities init (Parsed items_edmx)
  = (items_converter, [HasRestrictions "Items" "Item" ["deletable"]; ParsedCount 1]).
Proof. reflexivity. Qed.

Lemma dict_del_absent {V : Type} (k : string) (d : list (string * V)) :
  dict_has k d = false -> dict_del k d = d.
Proof.
  intros H. apply filter_all. intros [a v] Hin. simpl.
  destruct (String.eqb k a) eqn:E; [|reflexivity].
  apply String.eqb_eq in E. subst a.
  assert (Hk : In k (dict_keys d)).
  { change k with (fst (k, v)). now apply in_map. }
  apply dict_has_In in Hk. congruence.
Qed.

(** On the member path of [Items] the enforcement removes [delete] and
    nothing else, whatever the operations hold. *)
Lemma enforce_items_member (spec item : dict) :
  enforce_path items_converter spec "/companies({id})/Items({id})" (JObj item)
  = Ok (JObj (dict_del "delete" item)).
Proof.
  unfold enforce_path. simpl.
  destruct (dict_has "delete" item) eqn:E; simpl.
  - reflexivity.
  - now rewrite dict_del_absent.
Qed.

End Scenario.

(** C1, as the code has it.  With the scenario's metadata (entity set
    [Items] of type [Item], [Deletable] false) and any base document
    with distinct paths that holds [/companies({id})/Items({id})], a run
    that returns leaves that path in the output with its item as it was
    except for [delete]: [delete] is gone, [get], [patch] and everything
    else are what they were, and no reference to the [company] parameter
    is added, because the path starts with [/companies]; the shared
    parameter itself is stored under [components/parameters]. *)
Theorem items_member_loses_delete_only (spec out : dict)
  (title description api_name api_version tenant_placeholder : option string)
  (paths0 item : dict) :
  convert init (Parsed items_edmx) spec title description api_name api_version
          tenant_placeholder
  = (items_converter,
     [HasRestrictions "Items" "Item" ["deletable"]; ParsedCount 1],
     Ok out) ->
  dict_get "paths" spec = Some (JObj paths0) ->
  NoDup (dict_keys paths0) ->
  dict_get "/companies({id})/Items({id})" paths0 = Some (JObj item) ->
  path_item out "/companies({id})/Items({id})"
  = Some (JObj (dict_del "delete" item))
  /\ dict_get "delete" (dict_del "delete" item) = None
  /\ dict_get "get" (dict_del "delete" item) = dict_get "get" item
  /\ dict_get "patch" (dict_del "delete" item) = dict_get "patch" item
  /\ dict_get "parameters" (dict_del "delete" item) = dict_get "parameters" item
  /\ company_refs (JObj (dict_del "delete" item)) = company_refs (JObj item)
  /\ parameter_of out "company" = Some company_parameter.
Proof.
  unfold convert. rewrite items_edmx_parsed. intros [= H] Hp Hnd Hitem.
  split; [|rewrite !dict_get_del; simpl; rewrite dict_get_del; simpl;
           repeat split; eauto using enhance_company_parameter].
  destruct (enhance_paths _ _ _ _ _ _ _ _ _ H Hp Hnd)
    as (paths1 & paths_out & Hm & Hout & Henf).
  unfold path_item. rewrite Hout.
  destruct Henf as [[E _] | (s & Hs)]; [discriminate|].
  pose proof (map_items_get _ _ _ "/companies({id})/Items({id})" Hs) as G.
  rewrite (dict_get_filter_keys (fun k => negb (is_navigation_path k))) in G.
  change (negb (is_navigation_path "/companies({id})/Items({id})")) with true in G.
  pose proof (map_items_get _ _ _ "/companies({id})/Items({id})" Hm) as G1.
  rewrite Hitem in G1. destruct G1 as (v' & Hv & G1).
  change (add_company_ref "/companies({id})/Items({id})" (JObj item))
    with (Ok (JObj item)) in Hv.
  injection Hv as <-. rewrite G1 in G. destruct G as (v' & Hv & G).
  rewrite enforce_items_member in Hv. injection Hv as <-. exact G.
Qed.

Lemma items_member_loses_delete_only_witness :
  exists out,
    convert init (Parsed items_edmx) items_base None None (Some "items") None None
    = (items_converter,
       [HasRestrictions "Items" "Item" ["deletable"]; ParsedCount 1],
       Ok out)
    /\ path_item out "/companies({id})/Items({id})"
       = Some (JObj [("get", JObj [("responses",
                                    JObj [("200", body_of "Microsoft.NAV.Item")])]);
                     ("patch", JObj [("requestBody",
                                      body_of "Microsoft.NAV.Item-update")])])
    /\ parameter_of out "company" = Some company_parameter.
Proof.
  eexists. split; [vm_compute; reflexivity|].
  assert (Hnd : NoDup (dict_keys
                         [("/companies({id})/Items({id})", items_member_item);
                          ("/companies({id})/Items",
                           JObj [("get", JObj []);
                                 ("post", JObj [("requestBody",
                                                 body_of "Microsoft.NAV.Item-create")])]);
                          ("/companies({id})/Items({id})/lines", JObj [("get", JObj [])]);
                          ("/items", JObj [("get", JObj [])])])).
  { repeat (constructor; [simpl; intuition discriminate|]). constructor. }
  destruct (items_member_loses_delete_only
              items_base _ None None (Some "items") None None _ _
              eq_refl eq_refl Hnd eq_refl)
    as (H1 & _ & _ & _ & _ & _ & H7).
  split; [exact H1 | exact H7].
Defined.

(** C1, as the specification states it, fails on its last point: in
    the output of the scenario the path has lost [delete] and kept [get] and
    [patch], but its item has no [parameters] at all, so no reference
    to the [company] parameter. *)
Lemma items_member_gets_no_company_ref :
  exists out item,
    convert init (Parsed items_edmx) items_base None None (Some "items") None None
    = (items_converter,
       [HasRestrictions "Items" "Item" ["deletable"]; ParsedCount 1],
       Ok out)
    /\ path_item items_base "/companies({id})/Items({id})"
       = Some items_member_item
    /\ path_item out "/companies({id})/Items({id})" = Some (JObj item)
    /\ dict_has "get" item = true
    /\ dict_has "patch" item = true
    /\ dict_has "delete" item = false
    /\ dict_get "parameters" item = None
    /\ company_refs (JObj item) = 0.
Proof.
  eexists. eexists. split; [vm_compute; reflexivity|].
  repeat split.
Qed.

(** ** The last segment of a path occurs in it after a slash *)

Section LastSegment.

Lemma startswith_app_l (a b sub : string) :
  PyStr.startswith a sub = true -> PyStr.startswith (a ++ b) sub = true.
Proof.
  revert a. induction sub as [|c sub IH]; intros a; simpl; [reflexivity|].
  destruct a as [|x a]; simpl; [discriminate|].
  intros H. apply andb_true_iff in H. destruct H as [-> H]. simpl. now apply IH.
Qed.

Lemma contains_app_l (sub a b : string) :
  PyStr.contains sub a = true -> PyStr.contains sub (a ++ b) = true.
Proof.
  induction a as [|c a IH]; simpl.
  - rewrite orb_false_r. destruct sub; [|discriminate].
    intros _. destruct b; reflexivity.
  - intros H. apply orb_true_iff in H. destruct H as [H | H].
    + change (String c (a ++ b)) with (String c a ++ b)%string.
      now rewrite (startswith_app_l _ b _ H).
    + rewrite (IH H). apply orb_true_r.
Qed.

Lemma contains_self_prefix (sub rest : string) :
  PyStr.contains sub (sub ++ rest) = true.
Proof.
  destruct sub as [|c sub]; simpl.
  - destruct rest; reflexivity.
  - now rewrite Ascii.eqb_refl, startswith_app.
Qed.

Lemma rstrip_prefix (c : ascii) (p : string) :
  exists t, p = (PyStr.rstrip c p ++ t)%string.
Proof.
  induction p as [|a p [t IH]]; simpl; [now exists ""|].
  destruct (PyStr.rstrip c p) as [|r0 r] eqn:E.
  - destruct (Ascii.eqb a c).
    + now exists (String a p).
    + exists p. reflexivity.
  - exists t. simpl. now rewrite IH at 1.
Qed.

Lemma rstrip_first (c : ascii) (p : string) :
  PyStr.startswith p (String c "") = true ->
  PyStr.rstrip c p = "" \/ PyStr.startswith (PyStr.rstrip c p) (String c "") = true.
Proof.
  destruct p as [|a p]; simpl; [discriminate|].
  rewrite andb_true_r. intros H.
  destruct (PyStr.rstrip c p).
  - rewrite Ascii.eqb_sym, H. now left.
  - right. simpl. now rewrite H.
Qed.

Lemma leading_sep_splits (c : ascii) (s : string) :
  PyStr.startswith s (String c "") = true -> PyStr.split c s <> [s].
Proof.
  destruct s as [|a s]; simpl; [discriminate|].
  rewrite andb_true_r, Ascii.eqb_sym. intros ->. discriminate.
Qed.

(** A string is its only segment, or ends with a separator followed by
    its last segment. *)
Lemma split_last (sep : ascii) (s : string) :
  PyStr.split sep s = [s]
  \/ (exists pre, s = (pre ++ String sep (last (PyStr.split sep s) ""))%string)
     /\ 2 <= List.length (PyStr.split sep s).
Proof.
  induction s as [|c s IH]; simpl; [now left|].
  destruct (Ascii.eqb c sep) eqn:E.
  - apply Ascii.eqb_eq in E. subst c. right.
    pose proof (split_not_nil sep s) as Hn.
    destruct (PyStr.split sep s) as [|x xs] eqn:Es; [congruence|].
    split; [|simpl; lia].
    destruct IH as [IH | [[pre IH] _]].
    + injection IH as -> ->. now exists "".
    + exists (String sep pre). simpl. now rewrite IH at 1.
  - destruct (PyStr.split sep s) as [|x xs] eqn:Es.
    + now destruct (split_not_nil sep s).
    + destruct IH as [IH | [[pre IH] Hlen]].
      * injection IH as -> ->. now left.
      * right. destruct xs as [|y ys]; [simpl in Hlen; lia|].
        split; [|simpl; lia].
        exists (String c pre). simpl. simpl in IH. now rewrite IH at 1.
Qed.

Lemma split_hd_prefix (sep : ascii) (s : string) :
  exists t, s = (hd "" (PyStr.split sep s) ++ t)%string.
Proof.
  induction s as [|c s [t IH]]; simpl; [now exists ""|].
  destruct (Ascii.eqb c sep).
  - now exists (String c s).
  - destruct (PyStr.split sep s) as [|x xs]; simpl in *.
    + exists s. reflexivity.
    + exists t. now rewrite IH at 1.
Qed.

Lemma before_paren_prefix (x : string) :
  exists t, x = (before_paren x ++ t)%string.
Proof.
  unfold before_paren. destruct (PyStr.contains "(" x).
  - apply split_hd_prefix.
  - exists "". clear. induction x as [|c x IH]; simpl; congruence.
Qed.

Lemma append_assoc (a b c : string) : ((a ++ b) ++ c = a ++ (b ++ c))%string.
Proof. induction a as [|x a IH]; simpl; congruence. Qed.

(** The name the third look-up tries occurs in the path after a slash,
    when the path starts with a slash. *)
Lemma last_segment_occurs (path : string) :
  PyStr.startswith path "/" = true ->
  PyStr.contains
    ("/" ++ before_paren (last (PyStr.split "/" (PyStr.rstrip "/" path)) ""))
    path = true.
Proof.
  intros Hs.
  destruct (rstrip_prefix "/" path) as [t Ht].
  destruct (split_last "/" (PyStr.rstrip "/" path)) as [H1 | [[pre Hpre] _]].
  - destruct (rstrip_first "/" path Hs) as [E | E].
    + rewrite E. simpl.
      destruct path as [|a path]; [discriminate|]. simpl in *.
      now rewrite Hs.
    + now destruct (leading_sep_splits "/" _ E).
  - destruct (before_paren_prefix
                (last (PyStr.split "/" (PyStr.rstrip "/" path)) ""))
      as [t' Ht'].
    rewrite Ht at 2. apply contains_app_l.
    rewrite Hpre at 2. apply contains_app_r.
    rewrite Ht' at 2.
    change (String "/" (before_paren (last (PyStr.split "/" (PyStr.rstrip "/" path)) "") ++ t'))
      with (("/" ++ before_paren (last (PyStr.split "/" (PyStr.rstrip "/" path)) "")) ++ t')%string.
    apply contains_self_prefix.
Qed.

End LastSegment.

(** ** Enforcing twice *)

Section EnforceTwice.

Lemma remove_method_dict (allowed : bool) (method : string) (d : dict) :
  remove_method allowed method (JObj d) = Ok (JObj (drop_op allowed method d)).
Proof.
  unfold remove_method, drop_op. destruct allowed; [reflexivity|]. simpl.
  destruct (dict_has method d) eqn:E; simpl.
  - reflexivity.
  - now rewrite dict_del_absent.
Qed.

Lemma apply_capabilities_dict (c : capabilities) (d : dict) :
  apply_capabilities (Some c) (JObj d) = Ok (JObj (allowed_ops c d)).
Proof.
  unfold apply_capabilities, allowed_ops.
  rewrite remove_method_dict. simpl. rewrite remove_method_dict. simpl.
  apply remove_method_dict.
Qed.

Lemma dict_get_drop_op (allowed : bool) (method k : string) (d : dict) :
  dict_get k (drop_op allowed method d)
  = if allowed then dict_get k d
    else if String.eqb method k then None else dict_get k d.
Proof. unfold drop_op. destruct allowed; [reflexivity | apply dict_get_del]. Qed.

Lemma dict_get_allowed_ops (c : capabilities) (k : string) (d : dict) :
  dict_get k (allowed_ops c d) = dict_get k d
  \/ dict_get k (allowed_ops c d) = None.
Proof.
  unfold allowed_ops. rewrite !dict_get_drop_op.
  destruct (deletable c), (updatable c), (insertable c);
    destruct (String.eqb "delete" k), (String.eqb "patch" k),
             (String.eqb "post" k); auto.
Qed.

Lemma dict_get_allowed_ops_other (c : capabilities) (k : string) (d : dict) :
  String.eqb "post" k = false -> String.eqb "patch" k = false ->
  String.eqb "delete" k = false ->
  dict_get k (allowed_ops c d) = dict_get k d.
Proof.
  intros H1 H2 H3. unfold allowed_ops. rewrite !dict_get_drop_op, H1, H2, H3.
  now destruct (deletable c), (updatable c), (insertable c).
Qed.

Lemma drop_op_absent (allowed : bool) (method : string) (d : dict) :
  (allowed = false -> dict_get method d = None) -> drop_op allowed method d = d.
Proof.
  unfold drop_op. destruct allowed; [reflexivity|]. intros H.
  apply dict_del_absent. unfold dict_has. now rewrite H.
Qed.

(** A dict that has none of the operations the record forbids is left
    as it is. *)
Lemma allowed_ops_fix (c : capabilities) (d : dict) :
  (insertable c = false -> dict_get "post" d = None) ->
  (updatable c = false -> dict_get "patch" d = None) ->
  (deletable c = false -> dict_get "delete" d = None) ->
  allowed_ops c d = d.
Proof.
  intros H1 H2 H3. unfold allowed_ops.
  now rewrite (drop_op_absent _ "post" d H1), (drop_op_absent _ "patch" d H2),
    (drop_op_absent _ "delete" d H3).
Qed.

Lemma allowed_ops_absent (c : capabilities) (d : dict) :
  (insertable c = false -> dict_get "post" (allowed_ops c d) = None)
  /\ (updatable c = false -> dict_get "patch" (allowed_ops c d) = None)
  /\ (deletable c = false -> dict_get "delete" (allowed_ops c d) = None).
Proof.
  unfold allowed_ops. repeat split; intros H; rewrite !dict_get_drop_op, H; simpl.
  - now destruct (deletable c), (updatable c).
  - now destruct (deletable c).
  - reflexivity.
Qed.

(** What was left by a record, with or without new [parameters], is
    left as it is by the same record. *)
Lemma allowed_ops_again (c : capabilities) (d d2 : dict) :
  (forall k, String.eqb k "parameters" = false ->
             dict_get k d2 = dict_get k (allowed_ops c d)) ->
  allowed_ops c d2 = d2.
Proof.
  intros H. destruct (allowed_ops_absent c d) as (H1 & H2 & H3).
  apply allowed_ops_fix; intros E; rewrite H by reflexivity; auto.
Qed.

Lemma allowed_ops_all_allowed (c : capabilities) (d : dict) :
  all_allowed c = true -> allowed_ops c d = d.
Proof.
  unfold all_allowed. intros H.
  apply andb_true_iff in H. destruct H as [H H3].
  apply andb_true_iff in H. destruct H as [H1 H2].
  unfold allowed_ops. now rewrite H1, H2, H3.
Qed.

Lemma entity_type_of_method_dict method section extract (d : dict) :
  entity_type_of_method method section extract (JObj d)
  = match dict_get method d with
    | None => Ok None
    | Some method_obj =>
        has_section <- py_in section method_obj ;;
        if has_section then
          s <- py_getitem section method_obj ;;
          schema_ref <- extract s ;;
          entity_type_of_ref schema_ref
        else Ok None
    end.
Proof.
  unfold entity_type_of_method. simpl. unfold dict_has.
  now destruct (dict_get method d).
Qed.

(** The second look-up on an item that kept its [get] and kept or lost
    its [patch]: what it gave before, or nothing. *)
Lemma extract_entity_type_after (d d2 spec spec' : dict) (t : option string) :
  dict_get "get" d2 = dict_get "get" d ->
  dict_get "patch" d2 = dict_get "patch" d \/ dict_get "patch" d2 = None ->
  _extract_entity_type_from_path_methods (JObj d) spec = Ok t ->
  _extract_entity_type_from_path_methods (JObj d2) spec' = Ok t
  \/ _extract_entity_type_from_path_methods (JObj d2) spec' = Ok None.
Proof.
  intros Hg Hp. unfold _extract_entity_type_from_path_methods.
  rewrite !entity_type_of_method_dict, Hg.
  destruct (match dict_get "get" d with
            | Some method_obj => _ | None => _ end) as [[e|]|];
    simpl; [auto | | discriminate].
  destruct Hp as [-> | ->]; auto.
Qed.

Lemma capabilities_of_last_segment_eq (self : converter) (path : string) :
  capabilities_of_last_segment self path
  = dict_get (before_paren (last (PyStr.split "/" (PyStr.rstrip "/" path)) ""))
             (entity_type_capabilities self).
Proof.
  unfold capabilities_of_last_segment.
  pose proof (split_not_nil "/" (PyStr.rstrip "/" path)) as H.
  now destruct (PyStr.split "/" (PyStr.rstrip "/" path)).
Qed.

Lemma find_capabilities_after self (spec spec' : dict) path (d d2 : dict) found :
  dict_get "get" d2 = dict_get "get" d ->
  dict_get "patch" d2 = dict_get "patch" d \/ dict_get "patch" d2 = None ->
  find_capabilities self spec path (JObj d) = Ok found ->
  exists found2,
    find_capabilities self spec' path (JObj d2) = Ok found2
    /\ (found2 = found \/ found2 = capabilities_of_last_segment self path).
Proof.
  intros Hg Hp. unfold find_capabilities.
  destruct (match _extract_entity_set_from_path path with
            | Some entity_set_name => _ | None => _ end) as [c|].
  - intros [= <-]. eauto.
  - intros H. bind_inv H as t Ht.
    destruct (extract_entity_type_after d d2 spec spec' t Hg Hp Ht) as [-> | ->];
      simpl.
    + exists found. split; [exact H | now left].
    + eexists. split; [reflexivity | now right].
Qed.

(** A record that does not pass the override test for want of a
    restriction, or none at all, removes nothing. *)
Lemma apply_capabilities_no_restriction (c : option capabilities) (d : dict) :
  match c with Some c => all_allowed c = true | None => True end ->
  apply_capabilities c (JObj d) = Ok (JObj d).
Proof.
  destruct c as [c|]; [|reflexivity].
  intros H. now rewrite apply_capabilities_dict, allowed_ops_all_allowed.
Qed.

(** Enforcement on an item it has already been through, with or
    without new [parameters], changes nothing. *)
Lemma enforce_path_again self (spec spec' : dict) path (d d' d2 : dict) :
  PyStr.startswith path "/" = true ->
  enforce_path self spec path (JObj d) = Ok (JObj d') ->
  (forall k, String.eqb k "parameters" = false -> dict_get k d2 = dict_get k d') ->
  enforce_path self spec' path (JObj d2) = Ok (JObj d2).
Proof.
  intros Hs H Hd2. unfold enforce_path in *.
  bind_inv H as found Hf.
  assert (Hview : dict_get "get" d2 = dict_get "get" d
                  /\ (dict_get "patch" d2 = dict_get "patch" d
                      \/ dict_get "patch" d2 = None)
                  /\ (forall c, override_capabilities self path found = Some c ->
                                allowed_ops c d2 = d2)).
  { destruct (override_capabilities self path found) as [c|].
    - rewrite apply_capabilities_dict in H. injection H as <-.
      rewrite !Hd2 by reflexivity.
      split; [now apply dict_get_allowed_ops_other|].
      split; [apply dict_get_allowed_ops|].
      intros c' [= <-]. now apply (allowed_ops_again c d).
    - injection H as <-. rewrite !Hd2 by reflexivity.
      split; [reflexivity|]. split; [now left | discriminate]. }
  destruct Hview as (Hg & Hp & Hfix).
  destruct (find_capabilities_after self spec spec' path d d2 found Hg Hp Hf)
    as (found2 & -> & Hfound2).
  simpl. unfold override_capabilities in *.
  destruct (find _ (entity_type_capabilities self)) as [[n c]|] eqn:Efind.
  - now rewrite apply_capabilities_dict, (Hfix c eq_refl).
  - destruct Hfound2 as [-> | ->].
    + destruct found as [c|]; [|reflexivity].
      now rewrite apply_capabilities_dict, (Hfix c eq_refl).
    + apply apply_capabilities_no_restriction.
      rewrite capabilities_of_last_segment_eq.
      destruct (dict_get _ (entity_type_capabilities self)) as [c|] eqn:El;
        [|exact I].
      apply dict_get_In in El.
      assert (Hn : PyStr.contains
                     ("/" ++ before_paren
                               (last (PyStr.split "/" (PyStr.rstrip "/" path)) ""))
                     path
                   && negb (all_allowed c) = false)
        by exact (List.find_none _ _ Efind _ El).
      rewrite (last_segment_occurs path Hs) in Hn.
      now destruct (all_allowed c).
Qed.

Lemma apply_capabilities_not_dict (c : option capabilities) (o o' : json) :
  (forall d, o <> JObj d) -> apply_capabilities c o = Ok o' -> o' = o.
Proof.
  intros Hn. unfold apply_capabilities. destruct c as [c|]; [|now intros [= <-]].
  intros H. bind_inv H as o1 H1. bind_inv H as o2 H2.
  apply remove_method_Ok in H1. destruct H1 as [-> | (d & -> & _)];
    [|now destruct (Hn d)].
  apply remove_method_Ok in H2. destruct H2 as [-> | (d & -> & _)];
    [|now destruct (Hn d)].
  apply remove_method_Ok in H. destruct H as [-> | (d & -> & _)];
    [reflexivity | now destruct (Hn d)].
Qed.

Lemma apply_capabilities_shape (c : option capabilities) (o o' : json) :
  apply_capabilities c o = Ok o' ->
  (o' = o /\ forall d, o <> JObj d) \/ exists d d', o = JObj d /\ o' = JObj d'.
Proof.
  intros H. destruct o; try (left; split;
    [now apply (apply_capabilities_not_dict c _ _) in H | discriminate]).
  right. destruct c as [c|].
  - rewrite apply_capabilities_dict in H. injection H as <-. eauto.
  - injection H as <-. eauto.
Qed.

(** Enforcement on what enforcement gave, after one more injection. *)
Lemma enforce_path_reinjected self (spec spec' : dict) path (o o' : json) :
  PyStr.startswith path "/" = true ->
  enforce_path self spec path o = Ok o' ->
  enforce_path self spec' path (reinject path o') = Ok (reinject path o').
Proof.
  intros Hs H.
  assert (Hshape : (o' = o /\ forall d, o <> JObj d)
                   \/ exists d d', o = JObj d /\ o' = JObj d').
  { unfold enforce_path in H. bind_inv H as found Hf.
    now apply apply_capabilities_shape in H. }
  destruct Hshape as [[-> Hn] | (d & d' & -> & ->)].
  - assert (R : reinject path o = o).
    { unfold reinject. destruct (no_company path); [reflexivity|].
      destruct o; try reflexivity. now destruct (Hn members). }
    rewrite R. exact H.
  - assert (R : exists d2, reinject path (JObj d') = JObj d2
                           /\ forall k, String.eqb k "parameters" = false ->
                                        dict_get k d2 = dict_get k d').
    { unfold reinject. destruct (no_company path); [eauto|].
      destruct (dict_get "parameters" d') as [[| | | | |l|]|]; eauto.
      eexists. split; [reflexivity|]. intros k Hk.
      now rewrite dict_get_set, Hk. }
    destruct R as (d2 & -> & Hd2).
    now apply (enforce_path_again self spec spec' path d d' d2).
Qed.

End EnforceTwice.

(** ** What the stages leave alone *)

Section Frames.

Lemma same_sections_refl spec : same_sections spec spec.
Proof. intros k _ _. reflexivity. Qed.

Lemma same_sections_trans s1 s2 s3 :
  same_sections s1 s2 -> same_sections s2 s3 -> same_sections s1 s3.
Proof. intros H1 H2 k Hp Hc. now rewrite H2, H1. Qed.

Lemma same_sections_set_paths spec v : same_sections spec (dict_set "paths" v spec).
Proof. intros k Hp _. now rewrite dict_get_set, Hp. Qed.

Lemma same_sections_set_components spec v :
  same_sections spec (dict_set "components" v spec).
Proof. intros k _ Hc. now rewrite dict_get_set, Hc. Qed.

Lemma add_company_parameter_frame spec spec' :
  _add_company_parameter spec = Ok spec' ->
  same_sections spec spec'
  /\ forall key, String.eqb key "parameters" = false ->
                 component_of spec' key = component_of spec key.
Proof.
  unfold _add_company_parameter. intros H.
  bind_inv H as components Hc. bind_inv H as has Hh.
  bind_inv H as components1 H1. bind_inv H as parameters Hp.
  bind_inv H as parameters' Hp'. bind_inv H as components2 H2.
  apply py_getitem_Ok in Hc. destruct Hc as (top & [= <-] & Hc).
  apply py_setitem_Ok in H2. destruct H2 as (c1 & -> & ->).
  assert (C1 : forall key, String.eqb key "parameters" = false ->
                           dict_get key c1 = component_of spec key).
  { intros key Hk. unfold component_of. rewrite Hc. destruct has.
    - now injection H1 as ->.
    - apply py_setitem_Ok in H1. destruct H1 as (c0 & -> & [= ->]).
      now rewrite dict_get_set, Hk. }
  rewrite dict_get_set_other in H by reflexivity.
  assert (K : forall s, same_sections (dict_set "components"
                                         (JObj (dict_set "parameters" parameters' c1))
                                         spec) s ->
                        dict_get "components" s
                        = Some (JObj (dict_set "parameters" parameters' c1)) ->
                        same_sections spec s
                        /\ forall key, String.eqb key "parameters" = false ->
                                       component_of s key = component_of spec key).
  { intros s Hs Hcs. split.
    - eapply same_sections_trans; [apply same_sections_set_components | exact Hs].
    - intros key Hk. unfold component_of at 1. rewrite Hcs.
      rewrite dict_get_set, Hk. now apply C1. }
  destruct (dict_get "paths" spec) as [paths|].
  - bind_inv H as items Hi. bind_inv H as new_paths Hn. injection H as <-.
    apply K; [apply same_sections_set_paths|].
    rewrite dict_get_set_other by reflexivity. apply dict_get_set_same.
  - injection H as <-. apply K; [apply same_sections_refl | apply dict_get_set_same].
Qed.

Lemma remove_navigation_paths_frame spec spec' :
  _remove_navigation_paths spec = Ok spec' ->
  same_sections spec spec'
  /\ dict_get "components" spec' = dict_get "components" spec.
Proof.
  intros H. split; [|now apply remove_navigation_paths_components].
  unfold _remove_navigation_paths in H.
  destruct (dict_get "paths" spec) as [[| | | | |l|d]|];
    try discriminate; try (injection H as <-; apply same_sections_refl).
  - destruct (forallb _ l); [|discriminate].
    injection H as <-; apply same_sections_refl.
  - injection H as <-; apply same_sections_set_paths.
Qed.

(** The shape of a run of the scrubbing stage. *)
Lemma remove_system_fields_Ok spec spec' :
  _remove_system_fields_from_mutation_schemas spec = Ok spec' ->
  (spec' = spec
   /\ (dict_get "components" spec = None
       \/ exists components, dict_get "components" spec = Some components
                             /\ py_in "schemas" components = Ok false))
  \/ exists components schemas schemas',
      dict_get "components" spec = Some (JObj components)
      /\ dict_get "schemas" components = Some (JObj schemas)
      /\ map_items scrub_schema schemas = Ok schemas'
      /\ spec' = dict_set "components"
                   (JObj (dict_set "schemas" (JObj schemas') components)) spec.
Proof.
  unfold _remove_system_fields_from_mutation_schemas. intros H.
  destruct (dict_get "components" spec) as [components|] eqn:Ec;
    [|injection H as <-; left; auto].
  bind_inv H as has Hh.
  destruct has; simpl in H; [|injection H as <-; left; eauto].
  bind_inv H as schemas Hs. bind_inv H as items Hi.
  bind_inv H as items' Hi'. bind_inv H as components' Hc.
  injection H as <-.
  apply py_getitem_Ok in Hs. destruct Hs as (c & -> & Hs).
  apply py_items_Ok in Hi. subst schemas.
  simpl in Hc. injection Hc as <-.
  right. exists c, items, items'. auto.
Qed.

Lemma remove_system_fields_frame spec spec' :
  _remove_system_fields_from_mutation_schemas spec = Ok spec' ->
  same_sections spec spec'
  /\ forall key, String.eqb key "schemas" = false ->
                 component_of spec' key = component_of spec key.
Proof.
  intros H. apply remove_system_fields_Ok in H.
  destruct H as [[-> _] | (c & S & S' & Hc & HS & _ & ->)].
  - split; [apply same_sections_refl | reflexivity].
  - split; [apply same_sections_set_components|].
    intros key Hk. unfold component_of.
    now rewrite dict_get_set_same, Hc, dict_get_set, Hk.
Qed.

Lemma enforce_edmx_capabilities_frame self spec spec' :
  _enforce_edmx_capabilities self spec = Ok spec' ->
  same_sections spec spec'
  /\ dict_get "components" spec' = dict_get "components" spec.
Proof.
  intros H. split; [|now apply enforce_edmx_capabilities_components in H].
  apply enforce_edmx_capabilities_Ok in H.
  destruct H as [[-> _] | (items & items' & _ & _ & _ & ->)];
    [apply same_sections_refl | apply same_sections_set_paths].
Qed.

Lemma remove_unused_schema_variants_frame self spec spec' :
  _remove_unused_schema_variants self spec = Ok spec' ->
  same_sections spec spec'
  /\ forall key, String.eqb key "schemas" = false ->
                 component_of spec' key = component_of spec key.
Proof.
  intros H. apply remove_unused_schema_variants_Ok in H.
  destruct H as [[-> _] | (paths & components & schemas & used & _ & Hc & _ & _ & ->)].
  - split; [apply same_sections_refl | reflexivity].
  - split; [apply same_sections_set_components|].
    intros key Hk. unfold component_of.
    now rewrite dict_get_set_same, Hc, dict_get_set, Hk.
Qed.

(** What the first part stores. *)
Lemma replace_sections_stored spec title description api_name api_version
      tenant_placeholder spec' :
  replace_sections spec title description api_name api_version
                   tenant_placeholder = Ok spec' ->
  dict_get "openapi" spec' = Some (JStr "3.1.1")
  /\ dict_get "info" spec'
     = Some (_build_enhanced_info_section title description api_name)
  /\ dict_get "servers" spec'
     = Some (_build_enhanced_servers_section api_name api_version)
  /\ dict_get "security" spec' = Some _build_security_section
  /\ component_of spec' "securitySchemes"
     = Some (_build_security_schemes tenant_placeholder).
Proof.
  unfold replace_sections. intros H.
  bind_inv H as components Hc. bind_inv H as components' Hs.
  injection H as <-.
  apply py_setitem_Ok in Hs. destruct Hs as (c & -> & ->).
  unfold component_of. rewrite dict_get_set_same, dict_get_set_same.
  rewrite !(dict_get_set_other _ "components") by reflexivity.
  destruct (dict_has "components" _);
    rewrite ?(dict_get_set_other _ "components") by reflexivity;
    rewrite ?dict_get_set_same;
    rewrite ?(dict_get_set_other "servers" "security") by reflexivity;
    rewrite ?dict_get_set_same;
    rewrite ?(dict_get_set_other "info") by reflexivity;
    rewrite ?dict_get_set_same;
    rewrite ?(dict_get_set_other "openapi") by reflexivity;
    rewrite ?dict_get_set_same; auto.
Qed.

(** On a document that holds the sections already, the first part
    changes nothing. *)
Lemma replace_sections_fix spec title description api_name api_version
      tenant_placeholder components :
  dict_get "openapi" spec = Some (JStr "3.1.1") ->
  dict_get "info" spec
  = Some (_build_enhanced_info_section title description api_name) ->
  dict_get "servers" spec
  = Some (_build_enhanced_servers_section api_name api_version) ->
  dict_get "security" spec = Some _build_security_section ->
  dict_get "components" spec = Some (JObj components) ->
  dict_get "securitySchemes" components
  = Some (_build_security_schemes tenant_placeholder) ->
  replace_sections spec title description api_name api_version
                   tenant_placeholder = Ok spec.
Proof.
  intros H1 H2 H3 H4 H5 H6. unfold replace_sections.
  rewrite (dict_set_same _ _ _ H1), (dict_set_same _ _ _ H2),
    (dict_set_same _ _ _ H3), (dict_set_same _ _ _ H4).
  unfold dict_has. rewrite H5. simpl. rewrite H5. simpl.
  now rewrite (dict_set_same _ _ _ H6), (dict_set_same _ _ _ H5).
Qed.

End Frames.

(** ** The enhanced document *)

Section Enhanced.

(** The replaced sections are in the enhanced document, so that
    replacing them again changes nothing. *)
Lemma enhance_sections_fix self spec title description api_name api_version
      tenant_placeholder out :
  _enhance_openapi_spec self spec title description api_name api_version
                        tenant_placeholder = Ok out ->
  replace_sections out title description api_name api_version
                   tenant_placeholder = Ok out.
Proof.
  intros H. apply enhance_Ok in H.
  destruct H as (s1 & s2 & s3 & s4 & s5 & H1 & H2 & H3 & H4 & H5 & H6).
  apply replace_sections_stored in H1.
  destruct H1 as (K1 & K2 & K3 & K4 & K5).
  apply add_company_parameter_frame in H2. destruct H2 as [F2 C2].
  apply remove_navigation_paths_frame in H3. destruct H3 as [F3 C3].
  apply remove_system_fields_frame in H4. destruct H4 as [F4 C4].
  apply enforce_edmx_capabilities_frame in H5. destruct H5 as [F5 C5].
  apply remove_unused_schema_variants_frame in H6. destruct H6 as [F6 C6].
  assert (F : same_sections s1 out).
  { exact (same_sections_trans _ _ _ F2
             (same_sections_trans _ _ _ F3
                (same_sections_trans _ _ _ F4
                   (same_sections_trans _ _ _ F5 F6)))). }
  assert (C : component_of out "securitySchemes"
              = Some (_build_security_schemes tenant_placeholder)).
  { rewrite C6 by reflexivity. unfold component_of at 1. rewrite C5.
    fold (component_of s4 "securitySchemes"). rewrite C4 by reflexivity.
    unfold component_of at 1. rewrite C3.
    fold (component_of s2 "securitySchemes"). now rewrite C2 by reflexivity. }
  unfold component_of in C.
  destruct (dict_get "components" out) as [[| | | | | |c]|] eqn:Ec;
    try discriminate.
  apply (replace_sections_fix _ _ _ _ _ _ c); auto;
    rewrite F by reflexivity; assumption.
Qed.

Lemma dict_set_In {V : Type} (k k' : string) (v v' : V) (d : list (string * V)) :
  In (k', v') (dict_set k v d) -> (k', v') = (k, v) \/ In (k', v') d.
Proof.
  induction d as [|[a w] d IH]; simpl.
  - intros [H | []]. now left.
  - destruct (String.eqb k a).
    + intros [H | H]; [now left | right; now right].
    + intros [H | H]; [right; now left|].
      destruct (IH H); [now left | right; now right].
Qed.

Lemma dict_set_keys {V : Type} (k x : string) (v : V) (d : list (string * V)) :
  In x (dict_keys (dict_set k v d)) <-> x = k \/ In x (dict_keys d).
Proof.
  rewrite <- !dict_has_In. unfold dict_has. rewrite dict_get_set.
  destruct (String.eqb x k) eqn:E.
  - apply String.eqb_eq in E. tauto.
  - apply String.eqb_neq in E. destruct (dict_get x d); intuition discriminate.
Qed.

Lemma dict_set_NoDup {V : Type} (k : string) (v : V) (d : list (string * V)) :
  NoDup (dict_keys d) -> NoDup (dict_keys (dict_set k v d)).
Proof.
  induction d as [|[a w] d IH]; simpl; intros H.
  - constructor; [tauto | constructor].
  - inversion H as [|? ? Ha Hd]; subst.
    destruct (String.eqb k a) eqn:E; simpl.
    + apply String.eqb_eq in E. subst a. now constructor.
    + constructor; [|now apply IH].
      rewrite dict_set_keys. apply String.eqb_neq in E.
      intros [-> | F]; tauto.
Qed.

(** The injection loop gives distinct keys and items that an injection
    produced. *)
Lemma add_company_refs_inv (items acc new_paths : dict) :
  add_company_refs items acc = Ok new_paths ->
  NoDup (dict_keys acc) ->
  (forall k v, In (k, v) acc -> exists v0, add_company_ref k v0 = Ok v) ->
  NoDup (dict_keys new_paths)
  /\ forall k v, In (k, v) new_paths -> exists v0, add_company_ref k v0 = Ok v.
Proof.
  revert acc. induction items as [|[k v] items IH]; intros acc H Hnd Hacc;
    simpl in H.
  - injection H as <-. auto.
  - bind_inv H as v' Hv. apply (IH _ H).
    + now apply dict_set_NoDup.
    + intros k1 v1 Hin. apply dict_set_In in Hin.
      destruct Hin as [[= -> ->] | Hin]; eauto.
Qed.

Lemma add_company_ref_injected (path_name : string) (values values' : json) :
  add_company_ref path_name values = Ok values' -> injected path_name values'.
Proof.
  unfold add_company_ref, injected.
  destruct (no_company path_name); [now left|]. intros H. right.
  bind_inv H as has Hh. bind_inv H as values1 H1.
  bind_inv H as parameters Hp. bind_inv H as parameters' Ha.
  apply py_setitem_Ok in H. destruct H as (d1 & -> & ->).
  destruct parameters; try discriminate. injection Ha as <-.
  eexists. eexists. split; [reflexivity | apply dict_get_set_same].
Qed.

(** On such an item the injection is [reinject]. *)
Lemma add_company_ref_reinject (path_name : string) (item : json) :
  injected path_name item ->
  add_company_ref path_name item = Ok (reinject path_name item).
Proof.
  unfold add_company_ref, reinject, injected.
  destruct (no_company path_name); [reflexivity|].
  intros [H | (d & l & -> & H)]; [discriminate|].
  simpl. unfold dict_has. rewrite H. simpl. now rewrite H.
Qed.

Lemma enforce_path_injected self spec path (o o' : json) :
  enforce_path self spec path o = Ok o' -> injected path o -> injected path o'.
Proof.
  intros H [Hn | (d & l & -> & Hp)]; [now left|]. right.
  unfold enforce_path in H. bind_inv H as found Hf.
  destruct (override_capabilities self path found) as [c|].
  - rewrite apply_capabilities_dict in H. injection H as <-.
    exists (allowed_ops c d), l. split; [reflexivity|].
    now rewrite dict_get_allowed_ops_other.
  - injection H as <-. eauto.
Qed.

Lemma dict_keys_filter (g : string -> bool) (d : dict) :
  dict_keys (filter (fun kv => g (fst kv)) d) = filter g (dict_keys d).
Proof.
  induction d as [|[k v] d IH]; simpl; [reflexivity|].
  destruct (g k); simpl; now rewrite IH.
Qed.

Lemma remove_navigation_paths_none spec :
  dict_get "paths" spec = None -> _remove_navigation_paths spec = Ok spec.
Proof. intros H. unfold _remove_navigation_paths. now rewrite H. Qed.

(** The paths of the enhanced document: distinct, none a navigation
    path, each item fit for another injection and, when the enforcement
    ran, a result of it. *)
Lemma enhance_paths_shape self spec title description api_name api_version
      tenant_placeholder out :
  _enhance_openapi_spec self spec title description api_name api_version
                        tenant_placeholder = Ok out ->
  dict_get "paths" out = None
  \/ exists paths,
      dict_get "paths" out = Some (JObj paths)
      /\ NoDup (dict_keys paths)
      /\ forall k v, In (k, v) paths ->
           injected k v
           /\ is_navigation_path k = false
           /\ (edmx_capabilities self = []
               \/ exists s v0, enforce_path self s k v0 = Ok v).
Proof.
  intros H. apply enhance_Ok in H.
  destruct H as (s1 & s2 & s3 & s4 & s5 & H1 & H2 & H3 & H4 & H5 & H6).
  apply remove_unused_schema_variants_paths in H6. rewrite H6.
  apply remove_system_fields_paths in H4.
  apply add_company_parameter_Ok in H2. destruct H2 as [_ P2].
  destruct (dict_get "paths" s1) as [paths1|].
  - destruct P2 as (items & P1 & -> & Ha & P2). right.
    apply add_company_refs_inv in Ha; [|constructor|intros k v []].
    destruct Ha as [Hnd Hinj].
    rewrite (remove_navigation_paths_dict _ _ P2) in H3. injection H3 as <-.
    rewrite remove_selected_keys in H4. rewrite dict_get_set_same in H4.
    assert (Hkept : forall k v,
               In (k, v) (filter (fun kv => negb (is_navigation_path (fst kv))) P1) ->
               injected k v /\ is_navigation_path k = false).
    { intros k v Hin. apply filter_In in Hin. destruct Hin as [Hin Hnav].
      simpl in Hnav. apply negb_true_iff in Hnav. split; [|exact Hnav].
      destruct (Hinj k v Hin) as (v0 & Hv0).
      now apply add_company_ref_injected in Hv0. }
    assert (Hnd' : NoDup (dict_keys
                     (filter (fun kv => negb (is_navigation_path (fst kv))) P1))).
    { rewrite (dict_keys_filter (fun k => negb (is_navigation_path k))).
      now apply NoDup_filter. }
    apply enforce_edmx_capabilities_Ok in H5.
    destruct H5 as [[-> [E | E]] | (items' & P4 & Hne & Hi & Hmap & ->)].
    + congruence.
    + eexists. split; [exact H4|]. split; [exact Hnd'|].
      intros k v Hin. destruct (Hkept k v Hin). auto.
    + rewrite H4 in Hi. injection Hi as <-.
      exists P4. split; [apply dict_get_set_same|].
      split; [now rewrite (map_items_keys _ _ _ Hmap)|].
      intros k v Hin.
      destruct (map_items_In _ _ _ k v Hmap Hin) as (v2 & Hin2 & Hv).
      destruct (Hkept k v2 Hin2) as [Hi2 Hnav].
      split; [now apply (enforce_path_injected _ _ _ _ _ Hv)|].
      split; [exact Hnav|]. right. eauto.
  - left. rewrite (remove_navigation_paths_none _ P2) in H3. injection H3 as <-.
    rewrite P2 in H4.
    apply enforce_edmx_capabilities_Ok in H5.
    destruct H5 as [[-> _] | (items' & P4 & _ & Hi & _)]; congruence.
Qed.

End Enhanced.

(** ** Scrubbing and pruning twice *)

Section SchemasTwice.

Lemma fold_dict_del (l : list string) (d : dict) :
  fold_left (fun d f => dict_del f d) l d = remove_keys l d.
Proof.
  unfold remove_keys. revert d.
  induction l as [|a l IH]; intros d; simpl; [reflexivity|].
  rewrite IH. destruct (dict_has a d) eqn:E; [reflexivity|].
  now rewrite dict_del_absent.
Qed.

Lemma filter_none {A : Type} (f : A -> bool) (l : list A) :
  (forall x, In x l -> f x = false) -> filter f l = [].
Proof.
  induction l as [|a l IH]; intros H; simpl; [reflexivity|].
  rewrite (H a (or_introl eq_refl)). apply IH. intros x Hx. apply H. now right.
Qed.

Lemma scrub_properties_dict (props : dict) :
  scrub_properties (JObj props)
  = Ok (JObj (filter (fun kv => negb (PyStr.mem (fst kv) system_fields)) props)).
Proof.
  unfold scrub_properties. now rewrite fold_dict_del, remove_selected_keys.
Qed.

Lemma scrub_properties_again (properties properties' : json) :
  scrub_properties properties = Ok properties' ->
  scrub_properties properties' = Ok properties'.
Proof.
  destruct properties as [| | | | |l|props]; try discriminate.
  - now intros [= <-].
  - simpl. destruct (forallb _ l) eqn:E; [|discriminate].
    intros [= <-]. simpl. now rewrite E.
  - rewrite scrub_properties_dict. intros [= <-].
    rewrite scrub_properties_dict, filter_twice.
    do 2 f_equal. apply filter_ext. intros kv. apply andb_diag.
Qed.

(** A scrubbed schema is left as it is by the scrubbing. *)
Lemma scrub_schema_again (schema_name : string) (schema_def schema_def' : json) :
  scrub_schema schema_name schema_def = Ok schema_def' ->
  scrub_schema schema_name schema_def' = Ok schema_def'.
Proof.
  unfold scrub_schema.
  destruct (negb (is_mutation_schema schema_name)); [now intros [= <-]|].
  destruct schema_def as [| | | | | |d]; try (now intros [= <-]).
  destruct (dict_get "properties" d) as [properties|] eqn:Ep.
  - intros H. bind_inv H as properties' Hp. injection H as <-.
    rewrite dict_get_set_same, (scrub_properties_again _ _ Hp). simpl.
    now rewrite (dict_set_same "properties" properties')
      by apply dict_get_set_same.
  - intros [= <-]. now rewrite Ep.
Qed.

Lemma mem_app (x : string) (a b : list string) :
  PyStr.mem x (a ++ b) = PyStr.mem x a || PyStr.mem x b.
Proof. apply existsb_app. Qed.

Lemma mem_filter (f : string -> bool) (x : string) (l : list string) :
  PyStr.mem x (filter f l) = f x && PyStr.mem x l.
Proof.
  destruct (PyStr.mem x (filter f l)) eqn:E.
  - apply mem_In, filter_In in E. destruct E as [E1 E2].
    apply mem_In in E1. now rewrite E1, E2.
  - destruct (f x) eqn:Ef; [|reflexivity].
    destruct (PyStr.mem x l) eqn:Em; [|reflexivity].
    apply mem_In in Em.
    assert (H : In x (filter f l)) by now apply filter_In.
    apply mem_In in H. congruence.
Qed.

(** The names collected are the schemas found that meet the criterion. *)
Lemma mem_schemas_to_remove self used_by_post used_by_patch all_schemas name :
  PyStr.mem name (schemas_to_remove self used_by_post used_by_patch all_schemas)
  = removal_criterion self used_by_post used_by_patch name
    && PyStr.mem name all_schemas.
Proof.
  unfold schemas_to_remove, capability_based_removals, removal_criterion.
  rewrite !mem_app, !mem_filter.
  destruct (PyStr.endswith name "-create"), (PyStr.endswith name "-update"),
    (PyStr.mem name used_by_post), (PyStr.mem name used_by_patch),
    (disallowed self insertable (base_name "-create" name)),
    (disallowed self updatable (base_name "-update" name)),
    (force_remove self name), (PyStr.mem name all_schemas); reflexivity.
Qed.

Lemma refs_of_method_reinject (method path_name : string) (item : json) :
  String.eqb method "parameters" = false ->
  refs_of_method method (reinject path_name item) = refs_of_method method item.
Proof.
  intros Hm. unfold reinject. destruct (no_company path_name); [reflexivity|].
  destruct item as [| | | | | |d]; try reflexivity.
  destruct (dict_get "parameters" d) as [[| | | | |l|]|]; try reflexivity.
  unfold refs_of_method. simpl. unfold dict_has.
  now rewrite dict_get_set, Hm.
Qed.

Lemma schemas_used_reinjected (paths : dict) :
  schemas_used (map (fun kv => (fst kv, reinject (fst kv) (snd kv))) paths)
  = schemas_used paths.
Proof.
  induction paths as [|[k v] paths IH]; simpl; [reflexivity|].
  now rewrite !refs_of_method_reinject, IH by reflexivity.
Qed.

(** The schemas of the enhanced document, when it has any: each is
    scrubbed, and none meets the removal criterion for the operations
    of its paths. *)
Lemma enhance_schemas_shape self spec title description api_name api_version
      tenant_placeholder out :
  _enhance_openapi_spec self spec title description api_name api_version
                        tenant_placeholder = Ok out ->
  exists components,
    dict_get "components" out = Some (JObj components)
    /\ (dict_get "schemas" components = None
        \/ exists schemas,
            dict_get "schemas" components = Some (JObj schemas)
            /\ (forall n v, In (n, v) schemas -> scrub_schema n v = Ok v)
            /\ (forall paths, dict_get "paths" out = Some (JObj paths) ->
                  exists used,
                    schemas_used paths = Ok used
                    /\ forall n, In n (dict_keys schemas) ->
                         removal_criterion self (fst used) (snd used) n = false)).
Proof.
  intros H. pose proof (enhance_company_parameter _ _ _ _ _ _ _ _ H) as Hcp.
  unfold parameter_of in Hcp.
  destruct (dict_get "components" out) as [[| | | | | |c]|] eqn:Ec;
    try discriminate.
  clear Hcp. exists c. split; [reflexivity|].
  apply enhance_Ok in H.
  destruct H as (s1 & s2 & s3 & s4 & s5 & H1 & H2 & H3 & H4 & H5 & H6).
  apply enforce_edmx_capabilities_components in H5.
  apply remove_system_fields_Ok in H4.
  apply remove_unused_schema_variants_Ok in H6.
  destruct H4 as [[-> E4] | (c3 & S3 & S4 & Hc3 & HS3 & Hmap & ->)].
  - (* no schemas to scrub *)
    left. destruct H6 as [[-> _] | (P & c5 & S5 & used & _ & Hc5 & HS5 & _ & _)].
    + rewrite H5 in Ec. destruct E4 as [E4 | (c3 & E4 & Hin)]; [congruence|].
      rewrite Ec in E4. injection E4 as <-. simpl in Hin.
      injection Hin as Hin. unfold dict_has in Hin.
      now destruct (dict_get "schemas" c).
    + rewrite H5 in Hc5. destruct E4 as [E4 | (c3 & E4 & Hin)]; [congruence|].
      rewrite Hc5 in E4. injection E4 as <-. simpl in Hin.
      injection Hin as Hin. unfold dict_has in Hin. now rewrite HS5 in Hin.
  - rewrite dict_get_set_same in H5.
    assert (St : forall n v, In (n, v) S4 -> scrub_schema n v = Ok v).
    { intros n v Hin.
      destruct (map_items_In _ _ _ n v Hmap Hin) as (v0 & _ & Hv).
      now apply scrub_schema_again in Hv. }
    right.
    destruct H6 as [[-> E6] | (P & c5 & S5 & used & HP & Hc5 & HS5 & Hu & ->)].
    + rewrite H5 in Ec. injection Ec as <-. exists S4.
      split; [apply dict_get_set_same|]. split; [exact St|].
      intros paths Hp. destruct E6 as [E6 | [E6 | (c5 & E6 & Hin)]];
        [congruence | congruence |].
      rewrite H5 in E6. injection E6 as <-. simpl in Hin.
      unfold dict_has in Hin. now rewrite dict_get_set_same in Hin.
    + rewrite H5 in Hc5. injection Hc5 as <-.
      rewrite dict_get_set_same in HS5. injection HS5 as <-.
      rewrite dict_get_set_same in Ec. injection Ec as <-.
      rewrite remove_keys_filter.
      eexists. split; [apply dict_get_set_same|]. split.
      * intros n v Hin. apply filter_In in Hin. now apply St.
      * intros paths Hp. rewrite dict_get_set_other in Hp by reflexivity.
        rewrite HP in Hp. injection Hp as <-. exists used. split; [exact Hu|].
        intros n Hn.
        rewrite (dict_keys_filter
                   (fun k => negb (PyStr.mem k
                      (schemas_to_remove self (fst used) (snd used)
                                         (dict_keys S4))))) in Hn.
        apply filter_In in Hn. destruct Hn as [Hn Hm].
        apply negb_true_iff in Hm. rewrite mem_schemas_to_remove in Hm.
        apply mem_In in Hn. rewrite Hn, andb_true_r in Hm. exact Hm.
Qed.

End SchemasTwice.

(** ** Each stage on a document that has been through it *)

Section StagesAgain.

Lemma map_items_map (body : string -> json -> result json)
      (h : string -> json -> json) (d : dict) :
  (forall k v, In (k, v) d -> body k v = Ok (h k v)) ->
  map_items body d = Ok (map (fun kv => (fst kv, h (fst kv) (snd kv))) d).
Proof.
  induction d as [|[k v] d IH]; intros H; simpl; [reflexivity|].
  rewrite (H k v (or_introl eq_refl)). simpl.
  rewrite IH; [reflexivity|]. intros k' v' Hin. apply H. now right.
Qed.

Lemma dict_keys_map (h : string -> json -> json) (d : dict) :
  dict_keys (map (fun kv => (fst kv, h (fst kv) (snd kv))) d) = dict_keys d.
Proof. unfold dict_keys. rewrite map_map. now apply map_ext. Qed.

Lemma dict_get_map (h : string -> json -> json) (d : dict) (k : string) :
  dict_get k (map (fun kv => (fst kv, h (fst kv) (snd kv))) d)
  = option_map (h k) (dict_get k d).
Proof.
  induction d as [|[a v] d IH]; simpl; [reflexivity|].
  destruct (String.eqb k a) eqn:E; [|exact IH].
  apply String.eqb_eq in E. now subst a.
Qed.

Lemma reinjected_none spec :
  dict_get "paths" spec = None -> reinjected spec = spec.
Proof. intros H. unfold reinjected. now rewrite H. Qed.

Lemma reinjected_paths spec paths :
  dict_get "paths" spec = Some (JObj paths) ->
  reinjected spec
  = dict_set "paths"
      (JObj (map (fun kv => (fst kv, reinject (fst kv) (snd kv))) paths)) spec.
Proof. intros H. unfold reinjected. now rewrite H. Qed.

Lemma add_company_parameter_again spec :
  parameter_of spec "company" = Some company_parameter ->
  (dict_get "paths" spec = None
   \/ exists paths,
       dict_get "paths" spec = Some (JObj paths)
       /\ NoDup (dict_keys paths)
       /\ forall k v, In (k, v) paths -> injected k v) ->
  _add_company_parameter spec = Ok (reinjected spec).
Proof.
  unfold parameter_of. intros Hc Hp.
  destruct (dict_get "components" spec) as [[| | | | | |c]|] eqn:Ec;
    try discriminate.
  destruct (dict_get "parameters" c) as [[| | | | | |ps]|] eqn:Eps;
    try discriminate.
  unfold _add_company_parameter. simpl. rewrite Ec. simpl.
  unfold dict_has. rewrite Eps. simpl. rewrite Eps. simpl.
  rewrite (dict_set_same _ _ _ Hc), (dict_set_same _ _ _ Eps),
    (dict_set_same _ _ _ Ec).
  destruct Hp as [Hp | (paths & Hp & Hnd & Hinj)].
  - now rewrite Hp, reinjected_none.
  - rewrite Hp. simpl.
    rewrite add_company_refs_map_items by exact Hnd.
    rewrite (map_items_map _ reinject).
    + simpl. now rewrite (reinjected_paths _ _ Hp).
    + intros k v Hin. apply add_company_ref_reinject. now apply Hinj.
Qed.

Lemma remove_navigation_paths_again spec :
  (dict_get "paths" spec = None
   \/ exists paths,
       dict_get "paths" spec = Some (JObj paths)
       /\ forall k, In k (dict_keys paths) -> is_navigation_path k = false) ->
  _remove_navigation_paths spec = Ok spec.
Proof.
  intros [H | (paths & H & Hnav)]; [now apply remove_navigation_paths_none|].
  rewrite (remove_navigation_paths_dict _ _ H), remove_selected_keys.
  rewrite filter_all.
  - now rewrite (dict_set_same _ _ _ H).
  - intros [k v] Hin. simpl. rewrite Hnav; [reflexivity|].
    change k with (fst (k, v)). now apply in_map.
Qed.

Lemma remove_system_fields_again spec components :
  dict_get "components" spec = Some (JObj components) ->
  (dict_get "schemas" components = None
   \/ exists schemas,
       dict_get "schemas" components = Some (JObj schemas)
       /\ forall n v, In (n, v) schemas -> scrub_schema n v = Ok v) ->
  _remove_system_fields_from_mutation_schemas spec = Ok spec.
Proof.
  intros Hc Hs. unfold _remove_system_fields_from_mutation_schemas.
  rewrite Hc. simpl. unfold dict_has.
  destruct Hs as [Hs | (schemas & Hs & Hst)]; rewrite Hs; simpl; [reflexivity|].
  rewrite ?Hs. simpl. rewrite (map_items_id _ _ Hst). simpl.
  now rewrite (dict_set_same _ _ _ Hs), (dict_set_same _ _ _ Hc).
Qed.

Lemma enforce_edmx_capabilities_again self spec :
  (edmx_capabilities self = []
   \/ dict_get "paths" spec = None
   \/ exists paths,
       dict_get "paths" spec = Some (JObj paths)
       /\ forall k v, In (k, v) paths -> enforce_path self spec k v = Ok v) ->
  _enforce_edmx_capabilities self spec = Ok spec.
Proof.
  unfold _enforce_edmx_capabilities.
  intros [H | [H | (paths & H & Hst)]].
  - rewrite H. now destruct (dict_get "paths" spec).
  - now rewrite H.
  - rewrite H. destruct (edmx_capabilities self); [reflexivity|]. simpl.
    rewrite (map_items_id _ _ Hst). simpl.
    now rewrite (dict_set_same _ _ _ H).
Qed.

Lemma remove_unused_schema_variants_again self spec components :
  dict_get "components" spec = Some (JObj components) ->
  (dict_get "paths" spec = None
   \/ dict_get "schemas" components = None
   \/ exists paths schemas used,
       dict_get "paths" spec = Some (JObj paths)
       /\ dict_get "schemas" components = Some (JObj schemas)
       /\ schemas_used paths = Ok used
       /\ forall n, In n (dict_keys schemas) ->
                    removal_criterion self (fst used) (snd used) n = false) ->
  _remove_unused_schema_variants self spec = Ok spec.
Proof.
  intros Hc H. unfold _remove_unused_schema_variants.
  destruct H as [H | [H | (paths & schemas & used & Hp & Hs & Hu & Hcrit)]].
  - now rewrite H.
  - rewrite Hc. destruct (dict_get "paths" spec); [|reflexivity].
    simpl. unfold dict_has. now rewrite H.
  - rewrite Hp, Hc. simpl. unfold dict_has. rewrite Hs. simpl.
    rewrite Hu. simpl. rewrite ?Hs. simpl.
    rewrite remove_keys_filter, filter_all.
    + now rewrite (dict_set_same _ _ _ Hs), (dict_set_same _ _ _ Hc).
    + intros [n v] Hin. simpl. rewrite mem_schemas_to_remove.
      rewrite Hcrit; [reflexivity|].
      change n with (fst (n, v)). now apply in_map.
Qed.

End StagesAgain.

(** C2, as the code has it.  A second run on the output of a run
    (same converter, same arguments; the paths of the output start with
    a slash) returns, and returns that output with one more reference
    to the shared [company] parameter at the end of the [parameters] of
    every path that does not start with an excluded prefix, and
    nothing else changed: no path, no operation and no schema goes, and
    the components are what they were.  So the output is a fixed point
    only when every one of its paths is under an excluded prefix. *)
Theorem second_run_reinjects (self : converter) (spec out : dict)
  (title description api_name api_version tenant_placeholder : option string) :
  _enhance_openapi_spec self spec title description api_name api_version
                        tenant_placeholder = Ok out ->
  Forall (fun path => PyStr.startswith path "/" = true) (path_names out) ->
  _enhance_openapi_spec self out title description api_name api_version
                        tenant_placeholder = Ok (reinjected out)
  /\ path_names (reinjected out) = path_names out
  /\ dict_get "components" (reinjected out) = dict_get "components" out
  /\ (forall path,
         path_item (reinjected out) path
         = option_map (reinject path) (path_item out path))
  /\ (forall path item,
         path_item out path = Some item ->
         injected path item
         /\ company_refs (reinject path item)
            = company_refs item + (if no_company path then 0 else 1)
         /\ forall method, String.eqb method "parameters" = false ->
              py_in method (reinject path item) = py_in method item
              /\ py_getitem method (reinject path item) = py_getitem method item).
Proof.
  intros H Hslash.
  pose proof (enhance_sections_fix _ _ _ _ _ _ _ _ H) as Hsec.
  pose proof (enhance_company_parameter _ _ _ _ _ _ _ _ H) as Hcp.
  pose proof (enhance_paths_shape _ _ _ _ _ _ _ _ H) as Hpaths.
  pose proof (enhance_schemas_shape _ _ _ _ _ _ _ _ H) as (c & Hc & Hschemas).
  assert (Hcomp : dict_get "components" (reinjected out) = Some (JObj c)).
  { unfold reinjected. destruct (dict_get "paths" out) as [[| | | | | |P]|];
      try exact Hc. now rewrite dict_get_set_other by reflexivity. }
  split; [|split; [|split; [|split]]].
  - unfold _enhance_openapi_spec. rewrite Hsec. simpl.
    rewrite add_company_parameter_again; [simpl | exact Hcp |].
    2:{ destruct Hpaths as [Hp | (P & Hp & Hnd & HP)]; [now left|].
        right. exists P. split; [exact Hp|]. split; [exact Hnd|].
        intros k v Hin. now apply HP. }
    rewrite remove_navigation_paths_again; [simpl|].
    2:{ destruct Hpaths as [Hp | (P & Hp & Hnd & HP)].
        - left. now rewrite reinjected_none.
        - right. rewrite (reinjected_paths _ _ Hp). eexists.
          split; [apply dict_get_set_same|].
          intros k Hk. rewrite dict_keys_map in Hk.
          apply in_map_iff in Hk. destruct Hk as ([k' v] & <- & Hin).
          now apply (HP k' v). }
    rewrite (remove_system_fields_again _ c Hcomp); [simpl|].
    2:{ destruct Hschemas as [Hs | (S & Hs & Hst & _)]; [now left|].
        right. eauto. }
    rewrite enforce_edmx_capabilities_again; [simpl|].
    2:{ destruct Hpaths as [Hp | (P & Hp & Hnd & HP)].
        - right. left. now rewrite reinjected_none.
        - destruct (edmx_capabilities self) eqn:Ee; [now left|].
          right. right. rewrite (reinjected_paths _ _ Hp). eexists.
          split; [apply dict_get_set_same|].
          intros k v' Hin. apply in_map_iff in Hin.
          destruct Hin as ([k' v] & [= <- <-] & Hin). simpl.
          destruct (HP k' v Hin) as (_ & _ & [E | (s & v0 & Hv)]);
            [discriminate|].
          apply (enforce_path_reinjected self s _ k' v0 v); [|exact Hv].
          unfold path_names in Hslash. rewrite Hp in Hslash.
          rewrite Forall_forall in Hslash. apply Hslash.
          change k' with (fst (k', v)). now apply in_map. }
    apply (remove_unused_schema_variants_again self _ c Hcomp).
    destruct Hpaths as [Hp | (P & Hp & Hnd & HP)].
    + left. now rewrite reinjected_none.
    + destruct Hschemas as [Hs | (S & Hs & _ & Hcrit)]; [right; now left|].
      right. right. destruct (Hcrit P Hp) as (used & Hu & Hn).
      rewrite (reinjected_paths _ _ Hp). eexists. exists S, used.
      split; [apply dict_get_set_same|]. split; [exact Hs|].
      split; [now rewrite schemas_used_reinjected | exact Hn].
  - unfold path_names, reinjected.
    destruct (dict_get "paths" out) as [[| | | | | |P]|] eqn:Ep;
      rewrite ?Ep; try reflexivity.
    now rewrite dict_get_set_same, dict_keys_map.
  - now rewrite Hcomp, Hc.
  - intros path. unfold path_item, reinjected.
    destruct (dict_get "paths" out) as [[| | | | | |P]|] eqn:Ep;
      rewrite ?Ep; try reflexivity.
    now rewrite dict_get_set_same, dict_get_map.
  - intros path item Hitem. unfold path_item in Hitem.
    destruct Hpaths as [Hp | (P & Hp & Hnd & HP)]; rewrite Hp in Hitem;
      [discriminate|].
    apply dict_get_In in Hitem. destruct (HP path item Hitem) as (Hinj & _ & _).
    split; [exact Hinj|].
    split; [apply add_company_ref_refs; now apply add_company_ref_reinject|].
    intros method Hm. unfold reinject.
    destruct (no_company path); [now split|].
    destruct item as [| | | | | |d]; try (now split).
    destruct (dict_get "parameters" d) as [[| | | | |l|]|]; try (now split).
    simpl. unfold dict_has. now rewrite dict_get_set, Hm.
Qed.

Lemma second_run_reinjects_witness :
  enhance items_converter items_base = Ok items_enhanced
  /\ Forall (fun path => PyStr.startswith path "/" = true)
            (path_names items_enhanced)
  /\ enhance items_converter items_enhanced = Ok (reinjected items_enhanced)
  /\ path_item (reinjected items_enhanced) "/items"
     = Some (JObj [("get", JObj []);
                   ("parameters", JArr [company_ref; company_ref])]).
Proof.
  assert (H1 : enhance items_converter items_base = Ok items_enhanced)
    by (vm_compute; reflexivity).
  assert (H2 : Forall (fun path => PyStr.startswith path "/" = true)
                      (path_names items_enhanced))
    by (repeat constructor).
  split; [exact H1|]. split; [exact H2|].
  split; [|reflexivity].
  exact (proj1 (second_run_reinjects items_converter items_base items_enhanced
                  None None (Some "items") None None H1 H2)).
Defined.

(** C2, as the specification states it, fails: the output of a run
    is no fixed point.  [/items] leaves the first run with one reference to the
    [company] parameter and the second run with two. *)
Lemma second_run_appends_second_reference :
  enhance items_converter items_base = Ok items_enhanced
  /\ path_item items_enhanced "/items"
     = Some (JObj [("get", JObj []); ("parameters", JArr [company_ref])])
  /\ company_refs (JObj [("get", JObj []); ("parameters", JArr [company_ref])])
     = 1
  /\ exists out2,
      enhance items_converter items_enhanced = Ok out2
      /\ path_item out2 "/items"
         = Some (JObj [("get", JObj []);
                       ("parameters", JArr [company_ref; company_ref])])
      /\ company_refs (JObj [("get", JObj []);
                             ("parameters", JArr [company_ref; company_ref])])
         = 2.
Proof.
  split; [vm_compute; reflexivity|]. split; [reflexivity|].
  split; [reflexivity|].
  eexists. split; [vm_compute; reflexivity|]. split; reflexivity.
Qed.

(** ** What schema pruning removes *)

(** After a run of the stage that did not return early, a schema that
    was there is gone exactly when it meets the criterion the code
    computes; any other holds what it held. *)
Lemma schema_removed_iff_criterion self spec spec' paths components schemas
      used name :
  _remove_unused_schema_variants self spec = Ok spec' ->
  dict_get "paths" spec = Some (JObj paths) ->
  dict_get "components" spec = Some (JObj components) ->
  dict_get "schemas" components = Some (JObj schemas) ->
  schemas_used paths = Ok used ->
  schema_of spec' name
  = if removal_criterion self (fst used) (snd used) name then None
    else schema_of spec name.
Proof.
  intros H Hp Hc Hs Hu. apply remove_unused_schema_variants_Ok in H.
  destruct H as [[-> [E | [E | (c & E & Hin)]]]
                | (P & c & S & u & HP & HC & HS & HU & ->)].
  - congruence.
  - congruence.
  - rewrite Hc in E. injection E as <-. simpl in Hin. unfold dict_has in Hin.
    now rewrite Hs in Hin.
  - rewrite Hp in HP. injection HP as <-. rewrite Hc in HC. injection HC as <-.
    rewrite Hs in HS. injection HS as <-. rewrite Hu in HU. injection HU as <-.
    unfold schema_of. rewrite dict_get_set_same, dict_get_set_same, Hc, Hs.
    rewrite dict_get_remove_keys, mem_schemas_to_remove.
    destruct (removal_criterion self (fst used) (snd used) name); simpl;
      [|reflexivity].
    destruct (PyStr.mem name (dict_keys schemas)) eqn:E; [reflexivity|].
    destruct (dict_get name schemas) eqn:G; [|reflexivity].
    apply dict_get_In in G.
    assert (Hk : In name (dict_keys schemas)).
    { change name with (fst (name, j)). now apply in_map. }
    apply mem_In in Hk. congruence.
Qed.

(** ** A path without a leading slash *)

(** The second run can remove an operation when a path does not start
    with a slash: the first run finds the record of [T1] through the
    [patch] of [Bar] and removes the [patch]; the second run, with the
    [patch] gone, falls back on the last segment, finds the record of
    [Bar] and removes the [delete]. *)
Example second_run_without_slash :
  exists out out2,
    enhance bar_converter bar_base = Ok out
    /\ path_item out "Bar"
       = Some (JObj [("delete", JObj []); ("parameters", JArr [company_ref])])
    /\ enhance bar_converter out = Ok out2
    /\ path_item out2 "Bar"
       = Some (JObj [("parameters", JArr [company_ref; company_ref])]).
Proof.
  eexists. eexists. split; [vm_compute; reflexivity|].
  split; [reflexivity|]. split; [vm_compute; reflexivity | reflexivity].
Qed.

(** ** Path pruning, seen from the output of the pipeline *)

(** No later stage brings a path back and none removes one: in the
    enhanced document a company path with levels too deep is absent, and
    any other company path of a base document with distinct paths is
    present. *)
Lemma company_paths_in_output (self : converter) (spec out : dict)
  (title description api_name api_version tenant_placeholder : option string)
  (r : string) :
  _enhance_openapi_spec self spec title description api_name api_version
                        tenant_placeholder = Ok out ->
  (too_deep (levels_of r) = true ->
   path_item out ("/companies({id})/" ++ r) = None)
  /\ (forall paths0 item0,
         too_deep (levels_of r) = false ->
         dict_get "paths" spec = Some (JObj paths0) ->
         NoDup (dict_keys paths0) ->
         dict_get ("/companies({id})/" ++ r) paths0 = Some item0 ->
         exists item, path_item out ("/companies({id})/" ++ r) = Some item).
Proof.
  intros H. split.
  - intros Hdeep. unfold path_item.
    destruct (enhance_paths_shape _ _ _ _ _ _ _ _ H) as [-> | (P & -> & _ & HP)];
      [reflexivity|].
    destruct (dict_get ("/companies({id})/" ++ r) P) as [item|] eqn:E;
      [|reflexivity].
    apply dict_get_In in E. destruct (HP _ _ E) as (_ & Hnav & _).
    rewrite is_navigation_company_path in Hnav. congruence.
  - intros paths0 item0 Hkeep Hp Hnd Hitem.
    destruct (enhance_paths _ _ _ _ _ _ _ _ _ H Hp Hnd)
      as (paths1 & paths_out & Hm & Hout & Henf).
    unfold path_item. rewrite Hout.
    pose proof (map_items_get _ _ _ ("/companies({id})/" ++ r) Hm) as G.
    rewrite Hitem in G. destruct G as (item1 & _ & G).
    assert (K : dict_get ("/companies({id})/" ++ r)
                  (filter (fun kv => negb (is_navigation_path (fst kv))) paths1)
                = Some item1).
    { rewrite (dict_get_filter_keys (fun k => negb (is_navigation_path k))).
      now rewrite is_navigation_company_path, Hkeep. }
    destruct Henf as [[_ ->] | (s & Hs)]; [eauto|].
    pose proof (map_items_get _ _ _ ("/companies({id})/" ++ r) Hs) as G2.
    rewrite K in G2. destruct G2 as (item & _ & G2). eauto.
Qed.

(* ================================================================== *)
(** * Further properties of the stages *)

(** ** The replaced sections *)

Section Sections.

(** The first part stores five keys and leaves every other key of the
    document as it is. *)
Lemma replace_sections_other_keys spec title description api_name api_version
      tenant_placeholder spec' k :
  replace_sections spec title description api_name api_version
                   tenant_placeholder = Ok spec' ->
  String.eqb k "openapi" = false -> String.eqb k "info" = false ->
  String.eqb k "servers" = false -> String.eqb k "security" = false ->
  String.eqb k "components" = false ->
  dict_get k spec' = dict_get k spec.
Proof.
  unfold replace_sections. intros H K1 K2 K3 K4 K5.
  bind_inv H as components Hc. bind_inv H as components' Hs.
  injection H as <-.
  rewrite dict_get_set, K5.
  destruct (dict_has "components" _);
    now rewrite ?dict_get_set, ?K1, ?K2, ?K3, ?K4, ?K5.
Qed.

Lemma enhance_same_sections self spec title description api_name api_version
      tenant_placeholder out :
  _enhance_openapi_spec self spec title description api_name api_version
                        tenant_placeholder = Ok out ->
  exists s1,
    replace_sections spec title description api_name api_version
                     tenant_placeholder = Ok s1
    /\ same_sections s1 out
    /\ component_of out "securitySchemes" = component_of s1 "securitySchemes".
Proof.
  intros H. apply enhance_Ok in H.
  destruct H as (s1 & s2 & s3 & s4 & s5 & H1 & H2 & H3 & H4 & H5 & H6).
  exists s1. split; [exact H1|].
  apply add_company_parameter_frame in H2. destruct H2 as [F2 C2].
  apply remove_navigation_paths_frame in H3. destruct H3 as [F3 C3].
  apply remove_system_fields_frame in H4. destruct H4 as [F4 C4].
  apply enforce_edmx_capabilities_frame in H5. destruct H5 as [F5 C5].
  apply remove_unused_schema_variants_frame in H6. destruct H6 as [F6 C6].
  split.
  - exact (same_sections_trans _ _ _ F2
             (same_sections_trans _ _ _ F3
                (same_sections_trans _ _ _ F4
                   (same_sections_trans _ _ _ F5 F6)))).
  - rewrite C6 by reflexivity. unfold component_of at 1. rewrite C5.
    fold (component_of s4 "securitySchemes"). rewrite C4 by reflexivity.
    unfold component_of at 1. rewrite C3.
    fold (component_of s2 "securitySchemes"). now rewrite C2 by reflexivity.
Qed.

End Sections.

(** X1. The top level of the enhanced document.  Whatever the base
    document held under them, the output has [openapi] equal to
    ["3.1.1"], the built [info], [servers] and [security] sections, the
    built security schemes and the shared [company] parameter under
    [components]; every top-level key other than these and [paths] is
    what it was in the base document. *)
Theorem enhanced_top_level (self : converter) (spec out : dict)
  (title description api_name api_version tenant_placeholder : option string) :
  _enhance_openapi_spec self spec title description api_name api_version
                        tenant_placeholder = Ok out ->
  dict_get "openapi" out = Some (JStr "3.1.1")
  /\ dict_get "info" out
     = Some (_build_enhanced_info_section title description api_name)
  /\ dict_get "servers" out
     = Some (_build_enhanced_servers_section api_name api_version)
  /\ dict_get "security" out = Some _build_security_section
  /\ component_of out "securitySchemes"
     = Some (_build_security_schemes tenant_placeholder)
  /\ parameter_of out "company" = Some company_parameter
  /\ forall k,
       String.eqb k "openapi" = false -> String.eqb k "info" = false ->
       String.eqb k "servers" = false -> String.eqb k "security" = false ->
       String.eqb k "components" = false -> String.eqb k "paths" = false ->
       dict_get k out = dict_get k spec.
Proof.
  intros H.
  pose proof (enhance_company_parameter _ _ _ _ _ _ _ _ H) as Hcp.
  destruct (enhance_same_sections _ _ _ _ _ _ _ _ H) as (s1 & H1 & F & C).
  pose proof (replace_sections_stored _ _ _ _ _ _ _ H1)
    as (K1 & K2 & K3 & K4 & K5).
  repeat split; try (rewrite F by reflexivity; assumption).
  - now rewrite C.
  - exact Hcp.
  - intros k E1 E2 E3 E4 E5 E6. rewrite F by assumption.
    now apply (replace_sections_other_keys _ _ _ _ _ _ _ _ H1).
Qed.

Lemma enhanced_top_level_witness :
  enhance items_converter items_base = Ok items_enhanced
  /\ dict_get "openapi" items_enhanced = Some (JStr "3.1.1")
  /\ dict_get "info" items_enhanced
     = Some (_build_enhanced_info_section None None (Some "items"))
  /\ dict_get "servers" items_enhanced
     = Some (_build_enhanced_servers_section (Some "items") None)
  /\ dict_get "security" items_enhanced = Some _build_security_section
  /\ component_of items_enhanced "securitySchemes"
     = Some (_build_security_schemes None)
  /\ parameter_of items_enhanced "company" = Some company_parameter
  /\ forall k,
       String.eqb k "openapi" = false -> String.eqb k "info" = false ->
       String.eqb k "servers" = false -> String.eqb k "security" = false ->
       String.eqb k "components" = false -> String.eqb k "paths" = false ->
       dict_get k items_enhanced = dict_get k items_base.
Proof.
  assert (H : enhance items_converter items_base = Ok items_enhanced)
    by (vm_compute; reflexivity).
  split; [exact H|].
  exact (enhanced_top_level items_converter items_base items_enhanced
           None None (Some "items") None None H).
Defined.

(** ** A document without paths and components *)

Lemma dict_set_twice {V : Type} (k : string) (v w : V) (d : list (string * V)) :
  dict_set k w (dict_set k v d) = dict_set k w d.
Proof.
  induction d as [|[a x] d IH]; simpl.
  - now rewrite String.eqb_refl.
  - destruct (String.eqb k a) eqn:E; simpl.
    + now rewrite String.eqb_refl.
    + now rewrite E, IH.
Qed.

(** X2. Absent structure is nothing to do.  On a base document that
    has neither [paths] nor [components] the pipeline returns, for any
    converter: the sections are stored, [components] is created with the
    security schemes and the shared [company] parameter, and the five
    stages on paths and schemas do nothing. *)
Theorem enhance_without_paths_and_components (self : converter) (spec : dict)
  (title description api_name api_version tenant_placeholder : option string) :
  dict_get "paths" spec = None ->
  dict_get "components" spec = None ->
  _enhance_openapi_spec self spec title description api_name api_version
                        tenant_placeholder
  = Ok (dict_set "components"
          (JObj [("securitySchemes", _build_security_schemes tenant_placeholder);
                 ("parameters", JObj [("company", company_parameter)])])
          (dict_set "security" _build_security_section
             (dict_set "servers"
                (_build_enhanced_servers_section api_name api_version)
                (dict_set "info"
                   (_build_enhanced_info_section title description api_name)
                   (dict_set "openapi" (JStr "3.1.1") spec))))).
Proof.
  intros Hp Hc.
  set (s4 := dict_set "security" _build_security_section
               (dict_set "servers"
                  (_build_enhanced_servers_section api_name api_version)
                  (dict_set "info"
                     (_build_enhanced_info_section title description api_name)
                     (dict_set "openapi" (JStr "3.1.1") spec)))).
  assert (Hc4 : dict_get "components" s4 = None).
  { unfold s4. now rewrite !dict_get_set_other by reflexivity. }
  assert (Hp4 : forall v, dict_get "paths" (dict_set "components" v s4) = None).
  { intros v. unfold s4. now rewrite !dict_get_set_other by reflexivity. }
  unfold _enhance_openapi_spec, replace_sections. fold s4.
  unfold dict_has. rewrite Hc4. simpl.
  rewrite dict_get_set_same. simpl. rewrite dict_set_twice.
  unfold _add_company_parameter. simpl.
  rewrite dict_get_set_same. simpl. rewrite dict_set_twice, Hp4. simpl.
  rewrite remove_navigation_paths_none by apply Hp4. simpl.
  unfold _remove_system_fields_from_mutation_schemas.
  rewrite dict_get_set_same. simpl.
  unfold _enforce_edmx_capabilities. rewrite Hp4. simpl.
  unfold _remove_unused_schema_variants. now rewrite Hp4.
Qed.

Lemma enhance_without_paths_and_components_witness :
  dict_get "paths" [("x-note", JStr "empty")] = None
  /\ dict_get "components" [("x-note", JStr "empty")] = None
  /\ enhance init [("x-note", JStr "empty")]
     = Ok [("x-note", JStr "empty");
           ("openapi", JStr "3.1.1");
           ("info", _build_enhanced_info_section None None (Some "items"));
           ("servers", _build_enhanced_servers_section (Some "items") None);
           ("security", _build_security_section);
           ("components",
            JObj [("securitySchemes", _build_security_schemes None);
                  ("parameters", JObj [("company", company_parameter)])])].
Proof.
  split; [reflexivity|]. split; [reflexivity|].
  exact (enhance_without_paths_and_components
           init [("x-note", JStr "empty")] None None (Some "items") None None
           eq_refl eq_refl).
Defined.

(** ** Parameter injection, item by item *)

Section InjectionItems.

(** What the loop body gives when it returns. *)
Lemma add_company_ref_Ok (path_name : string) (item item' : json) :
  add_company_ref path_name item = Ok item' ->
  (no_company path_name = true /\ item' = item)
  \/ (no_company path_name = false
      /\ exists d,
          item = JObj d
          /\ ((dict_get "parameters" d = None
               /\ item' = JObj (d ++ [("parameters", JArr [company_ref])]))
              \/ exists l,
                  dict_get "parameters" d = Some (JArr l)
                  /\ item' = JObj (dict_set "parameters"
                                            (JArr (l ++ [company_ref])) d))).
Proof.
  unfold add_company_ref. destruct (no_company path_name).
  - intros [= <-]. now left.
  - intros H. right. split; [reflexivity|].
    bind_inv H as has Hh. bind_inv H as values1 H1.
    bind_inv H as parameters Hp. bind_inv H as parameters' Ha.
    apply py_setitem_Ok in H. destruct H as (d1 & -> & ->).
    destruct parameters; try discriminate. injection Ha as <-.
    simpl in Hp. destruct (dict_get "parameters" d1) eqn:E1; [|discriminate].
    injection Hp as ->. destruct has.
    + injection H1 as ->. exists d1. split; [reflexivity|]. right. eauto.
    + apply py_setitem_Ok in H1. destruct H1 as (d & -> & [= ->]).
      rewrite dict_get_set_same in E1. injection E1 as <-.
      simpl in Hh. injection Hh as Hh. unfold dict_has in Hh.
      destruct (dict_get "parameters" d) eqn:E; [discriminate|].
      exists d. split; [reflexivity|]. left. split; [exact E|].
      rewrite dict_set_twice. simpl.
      now rewrite dict_set_fresh by (apply dict_get_None; exact E).
Qed.

(** The body raises on an item that is no dict, or whose [parameters]
    is no list, unless the path is excluded. *)
Lemma add_company_ref_Raised (path_name : string) (item : json) :
  no_company path_name = false ->
  (forall d, item <> JObj d)
  \/ (exists d v, item = JObj d /\ dict_get "parameters" d = Some v
                  /\ forall l, v <> JArr l) ->
  add_company_ref path_name item = Raised.
Proof.
  intros Hn H. unfold add_company_ref. rewrite Hn.
  destruct H as [H | (d & v & -> & Hp & Hv)].
  - destruct item; try reflexivity.
    + simpl. now destruct (PyStr.contains "parameters" s).
    + simpl. now destruct (existsb (is_str "parameters") items).
    + now destruct (H members).
  - simpl. unfold dict_has. rewrite Hp. simpl. rewrite Hp. simpl.
    destruct v; try reflexivity. now destruct (Hv items).
Qed.

Lemma add_company_refs_Raised (items acc : dict) (k : string) (v : json) :
  In (k, v) items -> add_company_ref k v = Raised ->
  add_company_refs items acc = Raised.
Proof.
  revert acc. induction items as [|[a w] items IH]; intros acc Hin Hr;
    [destruct Hin|].
  simpl. destruct Hin as [[= -> ->] | Hin].
  - now rewrite Hr.
  - destruct (add_company_ref a w); simpl; [|reflexivity]. now apply IH.
Qed.

Lemma add_company_parameter_other_parameters spec spec' name :
  _add_company_parameter spec = Ok spec' ->
  String.eqb name "company" = false ->
  parameter_of spec' name = parameter_of spec name.
Proof.
  unfold _add_company_parameter. intros H Hname.
  bind_inv H as components Hc. bind_inv H as has Hh.
  bind_inv H as components1 H1. bind_inv H as parameters Hp.
  bind_inv H as parameters' Hp'. bind_inv H as components2 H2.
  apply py_getitem_Ok in Hc. destruct Hc as (top & [= <-] & Hc).
  apply py_setitem_Ok in Hp'. destruct Hp' as (ps & -> & ->).
  apply py_setitem_Ok in H2. destruct H2 as (c1 & -> & ->).
  apply py_getitem_Ok in Hp. destruct Hp as (c1' & [= <-] & Hp).
  assert (Old : parameter_of spec name = dict_get name ps).
  { unfold parameter_of. rewrite Hc. destruct has.
    - injection H1 as ->. now rewrite Hp.
    - apply py_setitem_Ok in H1. destruct H1 as (c0 & -> & [= ->]).
      rewrite dict_get_set_same in Hp. injection Hp as <-.
      simpl in Hh. injection Hh as Hh. unfold dict_has in Hh. simpl.
      now destruct (dict_get "parameters" c0). }
  assert (New : forall s,
             dict_get "components" s
             = Some (JObj (dict_set "parameters"
                             (JObj (dict_set "company" company_parameter ps)) c1)) ->
             parameter_of s name = dict_get name ps).
  { intros s Hs. unfold parameter_of.
    now rewrite Hs, dict_get_set_same, dict_get_set, Hname. }
  rewrite Old. rewrite dict_get_set_other in H by reflexivity.
  destruct (dict_get "paths" spec) as [paths|].
  - bind_inv H as items Hi. bind_inv H as new_paths Hn. injection H as <-.
    apply New. rewrite dict_get_set_other by reflexivity.
    apply dict_get_set_same.
  - injection H as <-. apply New, dict_get_set_same.
Qed.

End InjectionItems.

(** X3. Parameter injection, item by item.  When the stage returns on a
    document with distinct paths, the paths are the same in the same
    order; the item of a path under an excluded prefix is untouched; the
    item of any other path is a dict that gets a [parameters] entry with
    the single reference at its end when it had none, and the reference
    at the end of its [parameters] list when it had one, everything else
    in the item staying as it was; and the shared parameters other than
    [company] are what they were. *)
Theorem add_company_parameter_items (spec spec' paths : dict) :
  _add_company_parameter spec = Ok spec' ->
  dict_get "paths" spec = Some (JObj paths) ->
  NoDup (dict_keys paths) ->
  path_names spec' = path_names spec
  /\ (forall name, String.eqb name "company" = false ->
                   parameter_of spec' name = parameter_of spec name)
  /\ forall path item,
       dict_get path paths = Some item ->
       exists item',
         path_item spec' path = Some item'
         /\ ((no_company path = true /\ item' = item)
             \/ (no_company path = false
                 /\ exists d,
                     item = JObj d
                     /\ ((dict_get "parameters" d = None
                          /\ item' = JObj (d ++ [("parameters",
                                                  JArr [company_ref])]))
                         \/ exists l,
                             dict_get "parameters" d = Some (JArr l)
                             /\ item' = JObj (dict_set "parameters"
                                                (JArr (l ++ [company_ref]))
                                                d)))).
Proof.
  intros H Hp Hnd.
  split; [|split; [intros name Hn;
                   now apply (add_company_parameter_other_parameters _ _ _ H)|]];
    apply add_company_parameter_Ok in H; destruct H as [_ H];
    rewrite Hp in H; destruct H as (items & new_paths & [= <-] & Ha & Hnew);
    rewrite add_company_refs_map_items in Ha by exact Hnd;
    bind_inv Ha as paths1 Hm; simpl in Ha; injection Ha as <-.
  - unfold path_names. rewrite Hnew, Hp. apply (map_items_keys _ _ _ Hm).
  - intros path item Hitem.
    pose proof (map_items_get _ _ _ path Hm) as G. rewrite Hitem in G.
    destruct G as (item' & Hv & G). exists item'.
    unfold path_item. rewrite Hnew. split; [exact G|].
    now apply add_company_ref_Ok.
Qed.

Lemma add_company_parameter_items_witness :
  exists spec',
    _add_company_parameter
      [("components", JObj []);
       ("paths", JObj [("/items", JObj [("get", JObj [])]);
                       ("/companies", JObj [("get", JObj [])])])]
    = Ok spec'
    /\ path_names spec' = ["/items"; "/companies"]
    /\ path_item spec' "/items"
       = Some (JObj [("get", JObj []); ("parameters", JArr [company_ref])])
    /\ path_item spec' "/companies" = Some (JObj [("get", JObj [])]).
Proof.
  eexists. split; [reflexivity|].
  assert (Hnd : NoDup (dict_keys [("/items", JObj [("get", JObj [])]);
                                  ("/companies", JObj [("get", JObj [])])])).
  { repeat (constructor; [simpl; intuition discriminate|]). constructor. }
  destruct (add_company_parameter_items
              [("components", JObj []);
               ("paths", JObj [("/items", JObj [("get", JObj [])]);
                               ("/companies", JObj [("get", JObj [])])])]
              _ _ eq_refl eq_refl Hnd) as (H1 & _ & _).
  split; [exact H1|]. split; reflexivity.
Defined.

(** X4. Parameter injection on an item it cannot extend.  When a path
    outside the excluded prefixes has an item that is no dict, or whose
    [parameters] is not a list, the stage raises, whatever the rest of
    the document. *)
Theorem add_company_parameter_raises (spec paths : dict) (path : string)
  (item : json) :
  dict_get "paths" spec = Some (JObj paths) ->
  In (path, item) paths ->
  no_company path = false ->
  (forall d, item <> JObj d)
  \/ (exists d v, item = JObj d /\ dict_get "parameters" d = Some v
                  /\ forall l, v <> JArr l) ->
  _add_company_parameter spec = Raised.
Proof.
  intros Hp Hin Hn Hbad. unfold _add_company_parameter.
  repeat match goal with
         | |- bind ?m _ = Raised =>
             let x := fresh "x" in destruct m as [x|]; simpl; [|reflexivity]
         end.
  rewrite dict_get_set_other by reflexivity. rewrite Hp. simpl.
  now rewrite (add_company_refs_Raised paths [] path item Hin
                 (add_company_ref_Raised path item Hn Hbad)).
Qed.

Lemma add_company_parameter_raises_witness :
  _add_company_parameter
    [("components", JObj []);
     ("paths", JObj [("/items", JObj [("parameters", JObj [])])])]
  = Raised.
Proof.
  apply (add_company_parameter_raises
           [("components", JObj []);
            ("paths", JObj [("/items", JObj [("parameters", JObj [])])])]
           [("/items", JObj [("parameters", JObj [])])]
           "/items" (JObj [("parameters", JObj [])]) eq_refl).
  - now left.
  - reflexivity.
  - right. exists [("parameters", JObj [])], (JObj []).
    repeat split. discriminate.
Defined.

(** ** Path pruning outside the company paths *)

Section RootPaths.

(** [split] cuts at a separator: the segments of the two sides. *)
Lemma split_app (sep : ascii) (a b : string) :
  PyStr.split sep (a ++ String sep b) = PyStr.split sep a ++ PyStr.split sep b.
Proof.
  induction a as [|c a IH]; simpl.
  - now rewrite Ascii.eqb_refl.
  - destruct (Ascii.eqb c sep); [now rewrite IH|].
    rewrite IH. pose proof (split_not_nil sep a) as Hn.
    now destruct (PyStr.split sep a).
Qed.

Lemma rstrip_without_sep (c : ascii) (y : string) :
  PyStr.contains (String c "") y = false -> PyStr.rstrip c y = y.
Proof.
  induction y as [|b y IH]; simpl; [reflexivity|].
  rewrite andb_true_r. intros H. apply orb_false_iff in H.
  destruct H as [Hb Hy]. rewrite (IH Hy).
  destruct y; [|reflexivity]. now rewrite Ascii.eqb_sym, Hb.
Qed.

Lemma rstrip_app_without_sep (c : ascii) (a y : string) :
  PyStr.contains (String c "") y = false -> y <> "" ->
  PyStr.rstrip c (a ++ y) = (a ++ y)%string.
Proof.
  intros Hy Hne. induction a as [|b a IH]; simpl.
  - now apply rstrip_without_sep.
  - rewrite IH. destruct (a ++ y)%string eqn:E; [|reflexivity].
    destruct a; simpl in E; [congruence | discriminate].
Qed.

Lemma lstrip_without_leading (c : ascii) (s : string) :
  PyStr.startswith s (String c "") = false -> PyStr.lstrip c s = s.
Proof.
  destruct s as [|a s]; simpl; [reflexivity|].
  rewrite andb_true_r, Ascii.eqb_sym. now intros ->.
Qed.

Lemma no_leading_sep (c : ascii) (x rest : string) :
  PyStr.contains (String c "") x = false -> x <> "" ->
  PyStr.startswith (x ++ rest) (String c "") = false.
Proof.
  destruct x as [|a x]; [congruence|]. simpl.
  rewrite !andb_true_r. intros H _. now apply orb_false_iff in H.
Qed.

Lemma startswith_shorter (s p q : string) :
  PyStr.startswith s (p ++ q) = true -> PyStr.startswith s p = true.
Proof.
  revert s. induction p as [|a p IH]; intros s; simpl; [reflexivity|].
  destruct s as [|b s]; [discriminate|].
  intros H. apply andb_true_iff in H. destruct H as [-> H]. simpl.
  now apply IH.
Qed.

(** The parts of a root-level path with two segments. *)
Lemma strip_split_two (x y : string) :
  PyStr.contains "/" x = false -> x <> "" ->
  PyStr.contains "/" y = false -> y <> "" ->
  PyStr.split "/" (PyStr.strip "/" ("/" ++ x ++ "/" ++ y)) = [x; y].
Proof.
  intros Hx Hxn Hy Hyn. unfold PyStr.strip.
  change (PyStr.lstrip "/" ("/" ++ x ++ "/" ++ y))
    with (PyStr.lstrip "/" (x ++ "/" ++ y)).
  rewrite lstrip_without_leading by now apply no_leading_sep.
  change (x ++ "/" ++ y)%string with (x ++ String "/" y)%string.
  replace (x ++ String "/" y)%string with ((x ++ "/") ++ y)%string
    by (rewrite append_assoc; reflexivity).
  rewrite rstrip_app_without_sep by assumption.
  rewrite append_assoc. change ("/" ++ y)%string with (String "/" y).
  now rewrite split_app, (split_without_sep _ _ Hx), (split_without_sep _ _ Hy).
Qed.

Lemma strip_split_one (x : string) :
  PyStr.contains "/" x = false ->
  PyStr.split "/" (PyStr.strip "/" ("/" ++ x)) = [x].
Proof.
  intros Hx. unfold PyStr.strip.
  change (PyStr.lstrip "/" ("/" ++ x)) with (PyStr.lstrip "/" x).
  assert (L : PyStr.lstrip "/" x = x).
  { apply lstrip_without_leading. destruct x as [|a x]; [reflexivity|].
    simpl in *. rewrite andb_true_r in *. now apply orb_false_iff in Hx. }
  now rewrite L, (rstrip_without_sep _ _ Hx), (split_without_sep _ _ Hx).
Qed.

End RootPaths.

(** X5. Path pruning only deletes, and once is enough.  When the stage
    returns, running it again on its result changes nothing; and on a
    document whose [paths] is a dictionary the result holds exactly the
    items whose path is no navigation path, in their order and as they
    were. *)
Theorem remove_navigation_paths_idempotent (spec spec' : dict) :
  _remove_navigation_paths spec = Ok spec' ->
  _remove_navigation_paths spec' = Ok spec'
  /\ forall paths,
       dict_get "paths" spec = Some (JObj paths) ->
       dict_get "paths" spec'
       = Some (JObj (filter (fun kv => negb (is_navigation_path (fst kv)))
                            paths)).
Proof.
  intros H.
  destruct (dict_get "paths" spec) as [paths|] eqn:Ep.
  - destruct paths as [| | | | | |d];
      try (assert (E : spec' = spec)
             by (unfold _remove_navigation_paths in H; rewrite Ep in H;
                 try discriminate;
                 try (destruct (forallb _ _) in H; [|discriminate]);
                 now injection H as <-);
           subst spec'; split; [exact H | discriminate]).
    rewrite (remove_navigation_paths_dict _ _ Ep), remove_selected_keys in H.
    injection H as <-. split.
    + apply remove_navigation_paths_again. right. eexists.
      split; [apply dict_get_set_same|].
      intros k Hk.
      rewrite (dict_keys_filter (fun k => negb (is_navigation_path k))) in Hk.
      apply filter_In in Hk. now apply negb_true_iff.
    + intros paths [= <-]. apply dict_get_set_same.
  - rewrite (remove_navigation_paths_none _ Ep) in H. injection H as <-.
    split; [now apply remove_navigation_paths_none | discriminate].
Qed.

Lemma remove_navigation_paths_idempotent_witness :
  _remove_navigation_paths pruning_example
  = Ok [("openapi", JStr "3.1.0");
        ("paths", JObj [("/companies({id})/items({id})", JObj [("get", JObj [])])])]
  /\ _remove_navigation_paths
       [("openapi", JStr "3.1.0");
        ("paths", JObj [("/companies({id})/items({id})", JObj [("get", JObj [])])])]
     = Ok [("openapi", JStr "3.1.0");
           ("paths", JObj [("/companies({id})/items({id})", JObj [("get", JObj [])])])].
Proof.
  split; [reflexivity|].
  exact (proj1 (remove_navigation_paths_idempotent pruning_example _ eq_refl)).
Defined.

(** X6. Paths the pruning never removes.  A system endpoint (one of the
    seven names, alone or followed by a parenthesis, [/companies] and
    [/companies({id})]) is kept whatever follows it, and so is any path
    that starts with [/companies] but not with [/companies({id})/], at
    any depth: only the literal scope prefix is analysed. *)
Theorem paths_never_pruned (spec paths : dict) (path : string) :
  dict_get "paths" spec = Some (JObj paths) ->
  is_system_endpoint path = true
  \/ (PyStr.startswith path "/companies" = true
      /\ PyStr.startswith path "/companies({id})/" = false) ->
  exists spec',
    _remove_navigation_paths spec = Ok spec'
    /\ path_item spec' path = dict_get path paths.
Proof.
  intros Hp Hk. eexists. split; [exact (remove_navigation_paths_dict _ _ Hp)|].
  unfold path_item. rewrite dict_get_set_same, dict_get_pruned.
  unfold is_navigation_path.
  destruct Hk as [-> | [H1 H2]]; [reflexivity|].
  rewrite H1, H2. simpl. now destruct (is_system_endpoint path).
Qed.

Lemma paths_never_pruned_witness :
  exists spec',
    _remove_navigation_paths
      [("paths",
        JObj [("/companies({company_id})/items/lines/details", JObj []);
              ("/subscriptions({id})/a/b/c", JObj [])])]
    = Ok spec'
    /\ path_item spec' "/companies({company_id})/items/lines/details"
       = Some (JObj []).
Proof.
  exact (paths_never_pruned
           [("paths",
             JObj [("/companies({company_id})/items/lines/details", JObj []);
                   ("/subscriptions({id})/a/b/c", JObj [])])]
           [("/companies({company_id})/items/lines/details", JObj []);
            ("/subscriptions({id})/a/b/c", JObj [])]
           "/companies({company_id})/items/lines/details"
           eq_refl (or_intror (conj eq_refl eq_refl))).
Defined.

(** X7. Root-level paths.  For a path outside [/companies] that is no
    system endpoint: a single segment [/x] is kept, and two segments
    [/x/y] are kept when [y] is wrapped in parentheses and removed
    otherwise. *)
Theorem root_paths_pruned (spec paths : dict) (x y : string) :
  dict_get "paths" spec = Some (JObj paths) ->
  PyStr.contains "/" x = false -> x <> "" ->
  PyStr.contains "/" y = false -> y <> "" ->
  PyStr.startswith ("/" ++ x) "/companies" = false ->
  exists spec',
    _remove_navigation_paths spec = Ok spec'
    /\ path_item spec' ("/" ++ x) = dict_get ("/" ++ x) paths
    /\ (is_system_endpoint ("/" ++ x ++ "/" ++ y) = false ->
        PyStr.startswith ("/" ++ x ++ "/" ++ y) "/companies" = false ->
        path_item spec' ("/" ++ x ++ "/" ++ y)
        = if parenthesized y then dict_get ("/" ++ x ++ "/" ++ y) paths
          else None).
Proof.
  intros Hp Hx Hxn Hy Hyn Hc. eexists.
  split; [exact (remove_navigation_paths_dict _ _ Hp)|].
  unfold path_item. rewrite dict_get_set_same, !dict_get_pruned. split.
  - assert (E : is_navigation_path ("/" ++ x) = false).
    { unfold is_navigation_path.
      destruct (is_system_endpoint ("/" ++ x)); [reflexivity|].
      assert (E2 : PyStr.startswith ("/" ++ x) "/companies({id})/" = false).
      { destruct (PyStr.startswith ("/" ++ x) "/companies({id})/") eqn:E;
          [|reflexivity].
        assert (F : PyStr.startswith ("/" ++ x) "/companies" = true).
        { exact (startswith_shorter _ "/companies" "({id})/" E). }
        congruence. }
      rewrite E2, Hc. cbn [negb]. now rewrite strip_split_one. }
    now rewrite E.
  - intros Hsys Hcomp.
    assert (E : is_navigation_path ("/" ++ x ++ "/" ++ y)
                = negb (parenthesized y)).
    { unfold is_navigation_path. rewrite Hsys.
      assert (E2 : PyStr.startswith ("/" ++ x ++ "/" ++ y) "/companies({id})/"
                   = false).
      { destruct (PyStr.startswith ("/" ++ x ++ "/" ++ y) "/companies({id})/")
          eqn:E; [|reflexivity].
        assert (F : PyStr.startswith ("/" ++ x ++ "/" ++ y) "/companies" = true).
        { exact (startswith_shorter _ "/companies" "({id})/" E). }
        congruence. }
      rewrite E2, Hcomp. cbn [negb].
      now rewrite strip_split_two by assumption. }
    rewrite E. now destruct (parenthesized y).
Qed.

Lemma root_paths_pruned_witness :
  exists spec',
    _remove_navigation_paths
      [("paths", JObj [("/items", JObj []); ("/items/picture", JObj [])])]
    = Ok spec'
    /\ path_item spec' ("/" ++ "items") = Some (JObj [])
    /\ path_item spec' ("/" ++ "items" ++ "/" ++ "picture") = None.
Proof.
  destruct (root_paths_pruned
              [("paths", JObj [("/items", JObj []); ("/items/picture", JObj [])])]
              [("/items", JObj []); ("/items/picture", JObj [])]
              "items" "picture" eq_refl eq_refl
              ltac:(discriminate) eq_refl ltac:(discriminate) eq_refl)
    as (spec' & H1 & H2 & H3).
  exists spec'. split; [exact H1|]. split; [exact H2|].
  exact (H3 eq_refl eq_refl).
Defined.

(** ** The scrubbing of the mutation schemas *)

Section Scrubbing.

(** What the stage does to one schema. *)
Lemma remove_system_fields_schema spec spec' (name : string) :
  _remove_system_fields_from_mutation_schemas spec = Ok spec' ->
  match schema_of spec name with
  | Some v => exists v', scrub_schema name v = Ok v'
                         /\ schema_of spec' name = Some v'
  | None => schema_of spec' name = None
  end.
Proof.
  intros H. apply remove_system_fields_Ok in H.
  destruct H as [[-> H] | (c & S & S' & Hc & HS & Hm & ->)].
  - assert (E : schema_of spec name = None); [|now rewrite E].
    unfold schema_of. destruct H as [-> | (c & -> & H)]; [reflexivity|].
    destruct c as [| | | | | |d]; try reflexivity.
    simpl in H. injection H as H. unfold dict_has in H.
    now destruct (dict_get "schemas" d).
  - pose proof (map_items_get scrub_schema S S' name Hm) as G.
    unfold schema_of. rewrite Hc, HS, !dict_get_set_same. exact G.
Qed.

End Scrubbing.

(** X8. What scrubbing does to a create or an update schema.  When the
    stage returns, a schema named [...-create] or [...-update] that is a
    dictionary with a dictionary of [properties] is the same schema with
    the four system fields taken out of its properties: a system field
    is no longer a property, every other property is as it was, and the
    other members of the schema are unchanged. *)
Theorem system_fields_scrubbed (spec spec' d props : dict) (name : string) :
  _remove_system_fields_from_mutation_schemas spec = Ok spec' ->
  is_mutation_schema name = true ->
  schema_of spec name = Some (JObj d) ->
  dict_get "properties" d = Some (JObj props) ->
  exists props',
    schema_of spec' name = Some (JObj (dict_set "properties" (JObj props') d))
    /\ dict_keys props'
       = filter (fun f => negb (PyStr.mem f system_fields)) (dict_keys props)
    /\ forall field,
         dict_get field props'
         = if PyStr.mem field system_fields then None
           else dict_get field props.
Proof.
  intros H Hm Hs Hp.
  pose proof (remove_system_fields_schema spec spec' name H) as G.
  rewrite Hs in G. destruct G as (v' & Hv & G).
  unfold scrub_schema in Hv. rewrite Hm, Hp, scrub_properties_dict in Hv.
  simpl in Hv. injection Hv as <-.
  eexists. split; [exact G|]. split.
  - apply (dict_keys_filter (fun f => negb (PyStr.mem f system_fields))).
  - intros field.
    rewrite (dict_get_filter_keys
               (fun f => negb (PyStr.mem f system_fields))).
    now destruct (PyStr.mem field system_fields).
Qed.

Lemma system_fields_scrubbed_witness :
  exists props',
    schema_of
      [("components",
        JObj [("schemas",
               JObj [("item-update",
                      JObj [("type", JStr "object");
                            ("properties", JObj [("no", JObj [])])])])])]
      "item-update"
    = Some (JObj (dict_set "properties" (JObj props')
                    [("type", JStr "object");
                     ("properties",
                      JObj [("systemModifiedBy", JObj []); ("no", JObj [])])]))
    /\ dict_keys props'
       = filter (fun f => negb (PyStr.mem f system_fields))
                (dict_keys [("systemModifiedBy", JObj []); ("no", JObj [])])
    /\ forall field,
         dict_get field props'
         = if PyStr.mem field system_fields then None
           else dict_get field [("systemModifiedBy", JObj []); ("no", JObj [])].
Proof.
  exact (system_fields_scrubbed
           [("components",
             JObj [("schemas",
                    JObj [("item-update",
                           JObj [("type", JStr "object");
                                 ("properties",
                                  JObj [("systemModifiedBy", JObj []);
                                        ("no", JObj [])])])])])]
           [("components",
             JObj [("schemas",
                    JObj [("item-update",
                           JObj [("type", JStr "object");
                                 ("properties", JObj [("no", JObj [])])])])])]
           [("type", JStr "object");
            ("properties",
             JObj [("systemModifiedBy", JObj []); ("no", JObj [])])]
           [("systemModifiedBy", JObj []); ("no", JObj [])]
           "item-update" eq_refl eq_refl eq_refl eq_refl).
Defined.

(** X9. What scrubbing leaves alone.  When the stage returns, the paths,
    the other top-level sections and the other components are unchanged,
    the schemas keep their names and order, and every schema whose name
    ends neither in [-create] nor in [-update] (a read schema with its
    system fields among them) is exactly as it was. *)
Theorem scrubbing_keeps_the_rest spec spec' :
  _remove_system_fields_from_mutation_schemas spec = Ok spec' ->
  dict_get "paths" spec' = dict_get "paths" spec
  /\ same_sections spec spec'
  /\ (forall key, String.eqb key "schemas" = false ->
                  component_of spec' key = component_of spec key)
  /\ (forall schemas schemas',
        component_of spec "schemas" = Some (JObj schemas) ->
        component_of spec' "schemas" = Some (JObj schemas') ->
        dict_keys schemas' = dict_keys schemas)
  /\ forall name, is_mutation_schema name = false ->
                  schema_of spec' name = schema_of spec name.
Proof.
  intros H. split; [now apply remove_system_fields_paths|].
  destruct (remove_system_fields_frame spec spec' H) as [F1 F2].
  split; [exact F1|]. split; [exact F2|]. split.
  - intros S S' HS HS'.
    pose proof (remove_system_fields_Ok spec spec' H) as G.
    destruct G as [[-> _] | (c & S0 & S0' & Hc & Hs & Hm & ->)];
      [congruence|].
    unfold component_of in HS, HS'. rewrite Hc in HS.
    rewrite dict_get_set_same, dict_get_set_same in HS'.
    assert (S0 = S) by congruence. assert (S0' = S') by congruence.
    subst. exact (map_items_keys scrub_schema _ _ Hm).
  - intros name Hn.
    pose proof (remove_system_fields_schema spec spec' name H) as G.
    destruct (schema_of spec name) as [v|]; [|exact G].
    destruct G as (v' & Hv & G). unfold scrub_schema in Hv.
    rewrite Hn in Hv. simpl in Hv. congruence.
Qed.

Lemma scrubbing_keeps_the_rest_witness :
  exists spec',
    _remove_system_fields_from_mutation_schemas items_base = Ok spec'
    /\ schema_of spec' "Microsoft.NAV.Item"
       = Some (JObj [("properties", JObj [("systemCreatedAt", JObj [])])])
    /\ dict_get "paths" spec' = dict_get "paths" items_base.
Proof.
  eexists. split; [reflexivity|].
  destruct (scrubbing_keeps_the_rest items_base _ eq_refl)
    as (H1 & _ & _ & _ & H2).
  split; [exact (H2 "Microsoft.NAV.Item" eq_refl) | exact H1].
Defined.

(** X10. Scrubbing is idempotent: whenever the stage returns, running it
    on its result returns that result unchanged. *)
Theorem scrubbing_idempotent spec spec' :
  _remove_system_fields_from_mutation_schemas spec = Ok spec' ->
  _remove_system_fields_from_mutation_schemas spec' = Ok spec'.
Proof.
  intros H. pose proof (remove_system_fields_Ok spec spec' H) as G.
  destruct G as [[-> _] | (c & S & S' & Hc & Hs & Hm & ->)]; [exact H|].
  eapply remove_system_fields_again; [apply dict_get_set_same|].
  right. exists S'. split; [apply dict_get_set_same|].
  intros n v Hin.
  destruct (map_items_In scrub_schema S S' n v Hm Hin) as (v0 & _ & Hv).
  exact (scrub_schema_again n v0 v Hv).
Qed.

Lemma scrubbing_idempotent_witness :
  exists spec',
    _remove_system_fields_from_mutation_schemas items_base = Ok spec'
    /\ _remove_system_fields_from_mutation_schemas spec' = Ok spec'
    /\ schema_of spec' "Microsoft.NAV.Item-create"
       = Some (JObj [("properties", JObj [("no", JObj [])])]).
Proof.
  eexists. split; [reflexivity|].
  split; [exact (scrubbing_idempotent items_base _ eq_refl) | reflexivity].
Defined.

(** ** What enforcement can change *)

Section EnforcementFrame.

Lemma dict_get_allowed_ops_writes (c : capabilities) (k : string) (d : dict) :
  dict_get k (allowed_ops c d) = dict_get k d
  \/ (dict_get k (allowed_ops c d) = None
      /\ In k ["post"; "patch"; "delete"]).
Proof.
  unfold allowed_ops. rewrite !dict_get_drop_op.
  destruct (String.eqb "delete" k) eqn:E3;
    [apply String.eqb_eq in E3; subst k;
     destruct (deletable c); [|right; simpl; auto];
     destruct (updatable c), (insertable c); simpl; auto|].
  destruct (String.eqb "patch" k) eqn:E2;
    [apply String.eqb_eq in E2; subst k;
     destruct (deletable c), (updatable c), (insertable c); simpl; auto|].
  destruct (String.eqb "post" k) eqn:E1;
    [apply String.eqb_eq in E1; subst k;
     destruct (deletable c), (updatable c), (insertable c); simpl; auto|].
  left. now destruct (deletable c), (updatable c), (insertable c).
Qed.

(** The result of the loop body: the item itself, or what a record
    allows of it. *)
Lemma enforce_path_Ok self spec path (o o' : json) :
  enforce_path self spec path o = Ok o' ->
  o' = o
  \/ exists d found c,
       o = JObj d /\ o' = JObj (allowed_ops c d)
       /\ find_capabilities self spec path o = Ok found
       /\ override_capabilities self path found = Some c.
Proof.
  unfold enforce_path. intros H. bind_inv H as found Hf.
  destruct (override_capabilities self path found) as [c|] eqn:Eo;
    [|injection H as <-; now left].
  destruct o as [| | | | | |d];
    try (left; apply (apply_capabilities_not_dict (Some c) _ _); 
         [discriminate | exact H]).
  rewrite apply_capabilities_dict in H. injection H as <-.
  right. exists d, found, c. auto.
Qed.

(** A record the look-ups or the override give is one of the records
    of the two dictionaries. *)
Lemma find_capabilities_In self spec path o (c : capabilities) :
  find_capabilities self spec path o = Ok (Some c) ->
  (exists n, In (n, c) (edmx_capabilities self))
  \/ exists n, In (n, c) (entity_type_capabilities self).
Proof.
  unfold find_capabilities.
  destruct (_extract_entity_set_from_path path) as [n|].
  - destruct (String.eqb n "").
    + intros H. bind_inv H as t Ht.
      destruct t as [t|].
      * destruct (dict_get t (entity_type_capabilities self)) eqn:E.
        -- injection H as ->. right. exists t. now apply dict_get_In.
        -- injection H as H. unfold capabilities_of_last_segment in H.
           destruct (PyStr.split "/" (PyStr.rstrip "/" path));
             [discriminate|].
           right. eexists. apply dict_get_In. exact H.
      * injection H as H. unfold capabilities_of_last_segment in H.
        destruct (PyStr.split "/" (PyStr.rstrip "/" path));
          [discriminate|].
        right. eexists. apply dict_get_In. exact H.
    + destruct (dict_get n (edmx_capabilities self)) eqn:E.
      * intros [= ->]. left. exists n. now apply dict_get_In.
      * intros H. bind_inv H as t Ht.
        destruct t as [t|].
        -- destruct (dict_get t (entity_type_capabilities self)) eqn:E2.
           ++ injection H as ->. right. exists t. now apply dict_get_In.
           ++ injection H as H. unfold capabilities_of_last_segment in H.
              destruct (PyStr.split "/" (PyStr.rstrip "/" path));
                [discriminate|].
              right. eexists. apply dict_get_In. exact H.
        -- injection H as H. unfold capabilities_of_last_segment in H.
           destruct (PyStr.split "/" (PyStr.rstrip "/" path));
             [discriminate|].
           right. eexists. apply dict_get_In. exact H.
  - intros H. bind_inv H as t Ht.
    destruct t as [t|].
    + destruct (dict_get t (entity_type_capabilities self)) eqn:E.
      * injection H as ->. right. exists t. now apply dict_get_In.
      * injection H as H. unfold capabilities_of_last_segment in H.
        destruct (PyStr.split "/" (PyStr.rstrip "/" path));
          [discriminate|].
        right. eexists. apply dict_get_In. exact H.
    + injection H as H. unfold capabilities_of_last_segment in H.
      destruct (PyStr.split "/" (PyStr.rstrip "/" path));
        [discriminate|].
      right. eexists. apply dict_get_In. exact H.
Qed.

Lemma override_capabilities_In self path found (c : capabilities) :
  override_capabilities self path found = Some c ->
  found = Some c \/ exists n, In (n, c) (entity_type_capabilities self).
Proof.
  unfold override_capabilities.
  destruct (find _ (entity_type_capabilities self)) as [[n c']|] eqn:E.
  - intros [= ->]. right. exists n. exact (proj1 (find_some _ _ E)).
  - now left.
Qed.

(** A loop whose body changes no value leaves the dictionary as it
    is. *)
Lemma map_items_unchanged (body : string -> json -> result json) (d d' : dict) :
  map_items body d = Ok d' ->
  (forall k v v', In (k, v) d -> body k v = Ok v' -> v' = v) ->
  d' = d.
Proof.
  revert d'. induction d as [|[k v] d IH]; intros d' H Hb; simpl in H.
  - now injection H as <-.
  - bind_inv H as v' Hv. bind_inv H as rest' Hr. injection H as <-.
    rewrite (Hb k v v' (or_introl eq_refl) Hv).
    rewrite (IH rest' Hr); [reflexivity|].
    intros k0 v0 v0' Hin. apply Hb. now right.
Qed.

End EnforcementFrame.

(** X11. Enforcement only ever removes write operations.  When the stage
    returns, the other top-level sections and the components are
    unchanged, the paths keep their names and order, and each path item
    is either untouched or a dictionary from which nothing but [post],
    [patch] or [delete] has been taken: every other member ([get],
    [parameters], ...) is as it was. *)
Theorem enforcement_only_removes_writes self spec spec' :
  _enforce_edmx_capabilities self spec = Ok spec' ->
  same_sections spec spec'
  /\ dict_get "components" spec' = dict_get "components" spec
  /\ path_names spec' = path_names spec
  /\ forall path,
       match path_item spec path with
       | None => path_item spec' path = None
       | Some o =>
           exists o',
             path_item spec' path = Some o'
             /\ (o' = o
                 \/ exists d d',
                      o = JObj d /\ o' = JObj d'
                      /\ forall k,
                           dict_get k d' = dict_get k d
                           \/ (dict_get k d' = None
                               /\ In k ["post"; "patch"; "delete"]))
       end.
Proof.
  intros H. destruct (enforce_edmx_capabilities_frame self spec spec' H)
    as [F1 F2].
  split; [exact F1|]. split; [exact F2|].
  apply enforce_edmx_capabilities_Ok in H.
  destruct H as [[-> _] | (items & items' & _ & Hp & Hm & ->)].
  - split; [reflexivity|]. intros path.
    destruct (path_item spec path) as [o|]; [|reflexivity].
    exists o. auto.
  - unfold path_names, path_item. rewrite Hp, dict_get_set_same.
    split; [exact (map_items_keys _ _ _ Hm)|]. intros path.
    pose proof (map_items_get _ items items' path Hm) as G.
    destruct (dict_get path items) as [o|]; [|exact G].
    destruct G as (o' & Ho & G). exists o'. split; [exact G|].
    apply enforce_path_Ok in Ho.
    destruct Ho as [-> | (d & found & c & -> & -> & _)]; [now left|].
    right. exists d, (allowed_ops c d). split; [reflexivity|].
    split; [reflexivity|]. intros k. apply dict_get_allowed_ops_writes.
Qed.

Lemma enforcement_only_removes_writes_witness :
  exists spec',
    _enforce_edmx_capabilities items_converter items_base = Ok spec'
    /\ path_names spec' = path_names items_base
    /\ dict_get "components" spec' = dict_get "components" items_base.
Proof.
  eexists. split; [reflexivity|].
  destruct (enforcement_only_removes_writes items_converter items_base _ eq_refl)
    as (_ & H2 & H3 & _).
  split; [exact H3 | exact H2].
Defined.

(** X12. Metadata without restrictions changes nothing.  When every
    record of the two capability dictionaries allows the three
    operations, enforcement, if it returns, returns the document it was
    given. *)
Theorem unrestricted_metadata_changes_nothing self spec spec' :
  (forall n c, In (n, c) (edmx_capabilities self) -> all_allowed c = true) ->
  (forall n c, In (n, c) (entity_type_capabilities self) ->
               all_allowed c = true) ->
  _enforce_edmx_capabilities self spec = Ok spec' ->
  spec' = spec.
Proof.
  intros Hs Ht H. apply enforce_edmx_capabilities_Ok in H.
  destruct H as [[-> _] | (items & items' & _ & Hp & Hm & ->)];
    [reflexivity|].
  assert (E : items' = items).
  { apply (map_items_unchanged _ _ _ Hm). intros k v v' _ Ev.
    apply enforce_path_Ok in Ev.
    destruct Ev as [-> | (d & found & c & -> & -> & Hf & Ho)];
      [reflexivity|].
    f_equal. apply allowed_ops_all_allowed.
    apply override_capabilities_In in Ho.
    destruct Ho as [-> | [n Hn]]; [|exact (Ht _ _ Hn)].
    apply find_capabilities_In in Hf.
    destruct Hf as [[n Hn] | [n Hn]];
      [exact (Hs _ _ Hn) | exact (Ht _ _ Hn)]. }
  subst items'. now apply dict_set_same.
Qed.

Lemma unrestricted_metadata_changes_nothing_witness :
  exists spec',
    _enforce_edmx_capabilities
      (mkConverter [("Items", allow_all)] [("Item", allow_all)]) items_base
    = Ok spec'
    /\ spec' = items_base.
Proof.
  eexists. split; [reflexivity|].
  refine (unrestricted_metadata_changes_nothing
            (mkConverter [("Items", allow_all)] [("Item", allow_all)])
            items_base _ _ _ eq_refl).
  - intros n c [[= <- <-] | []]. reflexivity.
  - intros n c [[= <- <-] | []]. reflexivity.
Defined.

(** X13. Enforcement is idempotent on paths that start with a slash:
    when the stage returns and every path of the document starts with
    [/], running it on its result returns that result unchanged. *)
Theorem enforcement_idempotent self spec spec' :
  (forall path, In path (path_names spec) ->
                PyStr.startswith path "/" = true) ->
  _enforce_edmx_capabilities self spec = Ok spec' ->
  _enforce_edmx_capabilities self spec' = Ok spec'.
Proof.
  intros Hs H. pose proof (enforce_edmx_capabilities_Ok self spec spec' H) as G.
  destruct G as [[-> _] | (items & items' & _ & Hp & Hm & ->)]; [exact H|].
  apply enforce_edmx_capabilities_again. right. right.
  exists items'. split; [apply dict_get_set_same|].
  intros k v Hin.
  destruct (map_items_In _ items items' k v Hm Hin) as (v0 & Hin0 & Hv).
  assert (Hk : PyStr.startswith k "/" = true).
  { apply Hs. unfold path_names. rewrite Hp.
    change k with (fst (k, v0)). now apply in_map. }
  pose proof (enforce_path_Ok self spec k v0 v Hv) as G.
  destruct G as [-> | (d & found & c & -> & -> & _)].
  - exact Hv.
  - exact (enforce_path_again self spec _ k d _ _ Hk Hv (fun _ _ => eq_refl)).
Qed.

Lemma enforcement_idempotent_witness :
  exists spec',
    _enforce_edmx_capabilities items_converter items_base = Ok spec'
    /\ _enforce_edmx_capabilities items_converter spec' = Ok spec'
    /\ path_item spec' "/companies({id})/Items({id})"
       = Some (JObj [("get", JObj [("responses",
                                     JObj [("200", body_of "Microsoft.NAV.Item")])]);
                     ("patch", JObj [("requestBody",
                                      body_of "Microsoft.NAV.Item-update")])]).
Proof.
  eexists. split; [reflexivity|]. split; [|reflexivity].
  refine (enforcement_idempotent items_converter items_base _ _ eq_refl).
  intros path Hin. simpl in Hin.
  destruct Hin as [<- | [<- | [<- | [<- | []]]]]; reflexivity.
Defined.

(** ** What the extractor stores and prints *)

Section ExtractorOutput.

Lemma parse_entity_set_snd st es :
  snd (parse_entity_set st es)
  = snd st ++ (if declared es && negb (all_allowed (entity_set_capabilities es))
               then [restriction_message es] else []).
Proof.
  destruct st as [self out].
  unfold parse_entity_set, declared, restriction_message, declared_name,
    declared_type, get_default.
  destruct (get es "Name") as [n|]; [|simpl; now rewrite app_nil_r].
  destruct (get es "EntityType") as [ty|]; [|simpl; now rewrite app_nil_r].
  destruct (String.eqb n "" || String.eqb ty ""); simpl;
    [now rewrite app_nil_r|].
  destruct (all_allowed (entity_set_capabilities es)); simpl;
    [now rewrite app_nil_r | reflexivity].
Qed.

Lemma fold_parse_snd l st :
  snd (fold_left parse_entity_set l st)
  = snd st
    ++ map restriction_message
         (filter (fun es => declared es
                            && negb (all_allowed (entity_set_capabilities es)))
                 l).
Proof.
  revert st. induction l as [|a l IH]; intros st; simpl.
  - now rewrite app_nil_r.
  - rewrite IH, parse_entity_set_snd.
    destruct (declared a && negb (all_allowed (entity_set_capabilities a)));
      simpl; [now rewrite <- app_assoc | now rewrite app_nil_r].
Qed.

Lemma parse_entity_set_NoDup st es :
  NoDup (dict_keys (edmx_capabilities (fst st))) ->
  NoDup (dict_keys (edmx_capabilities (fst (parse_entity_set st es)))).
Proof.
  destruct st as [self out]. unfold parse_entity_set.
  destruct (get es "Name") as [n|]; [|auto].
  destruct (get es "EntityType") as [ty|]; [|auto].
  destruct (String.eqb n "" || String.eqb ty ""); simpl; [auto|].
  apply dict_set_NoDup.
Qed.

Lemma fold_parse_NoDup l st :
  NoDup (dict_keys (edmx_capabilities (fst st))) ->
  NoDup (dict_keys (edmx_capabilities (fst (fold_left parse_entity_set l st)))).
Proof.
  revert st. induction l as [|a l IH]; intros st H; simpl; [exact H|].
  apply IH. now apply parse_entity_set_NoDup.
Qed.

Lemma filter_nonempty {A : Type} (P : A -> bool) (l : list A) :
  rev (filter P l) <> [] <-> exists x, In x l /\ P x = true.
Proof.
  split.
  - intros H. destruct (filter P l) as [|x r] eqn:E; [now destruct H|].
    exists x. apply filter_In. rewrite E. now left.
  - intros (x & Hx & HP) E.
    assert (Hin : In x (rev (filter P l)))
      by (apply in_rev; rewrite rev_involutive; now apply filter_In).
    rewrite E in Hin. destruct Hin.
Qed.

End ExtractorOutput.

(** X14. What the extractor prints for a document it could parse: one
    line for every declared entity set that has a restriction, in
    document order, with the set's name, its type name and the
    operations that are not allowed, and then one line with the number
    of entries of the entity-set dictionary. *)
Theorem extractor_messages (self : converter) (root : element) :
  snd (_parse_edmx_capabilities self (Parsed root))
  = map restriction_message
        (filter (fun es => declared es
                           && negb (all_allowed (entity_set_capabilities es)))
                (findall root (edm "EntitySet")))
    ++ [ParsedCount
          (List.length
             (edmx_capabilities
                (fst (_parse_edmx_capabilities self (Parsed root)))))].
Proof.
  unfold _parse_edmx_capabilities.
  pose proof (fold_parse_snd (findall root (edm "EntitySet")) (self, [])) as H.
  destruct (fold_left parse_entity_set _ _) as [self' out].
  simpl in *. now rewrite H.
Qed.

(** X15. The entity-set dictionary of a new converter after the
    extractor has run.  Its keys are distinct and are exactly the names
    of the declared entity sets (both attributes present and not empty);
    a name holds the record of the last declared set of that name; and
    the number the extractor prints is the number of distinct names. *)
Theorem entity_set_dictionary (root : element) (n : string) :
  NoDup (dict_keys (edmx_capabilities
                      (fst (_parse_edmx_capabilities init (Parsed root)))))
  /\ (In n (dict_keys (edmx_capabilities
                         (fst (_parse_edmx_capabilities init (Parsed root)))))
      <-> In n (map declared_name
                    (filter declared (findall root (edm "EntitySet")))))
  /\ dict_get n (edmx_capabilities
                   (fst (_parse_edmx_capabilities init (Parsed root))))
     = match rev (filter (fun es => declared es
                                    && String.eqb (declared_name es) n)
                         (findall root (edm "EntitySet"))) with
       | last_set :: _ => Some (entity_set_capabilities last_set)
       | [] => None
       end
  /\ List.length (edmx_capabilities
                    (fst (_parse_edmx_capabilities init (Parsed root))))
     = List.length
         (nodup string_dec
            (map declared_name
                 (filter declared (findall root (edm "EntitySet"))))).
Proof.
  assert (V : forall k,
             dict_get k (edmx_capabilities
                           (fst (_parse_edmx_capabilities init (Parsed root))))
             = match rev (filter (fun es => declared es
                                            && String.eqb (declared_name es) k)
                                 (findall root (edm "EntitySet"))) with
               | last_set :: _ => Some (entity_set_capabilities last_set)
               | [] => None
               end).
  { intros k. rewrite parse_fst.
    exact (fold_parse_last edmx_capabilities declared_name k
             (fun st es => parse_entity_set_names st es k)
             (findall root (edm "EntitySet")) (init, [])). }
  assert (N : NoDup (dict_keys (edmx_capabilities
                      (fst (_parse_edmx_capabilities init (Parsed root)))))).
  { rewrite parse_fst. apply fold_parse_NoDup. constructor. }
  assert (K : forall k,
             In k (dict_keys (edmx_capabilities
                      (fst (_parse_edmx_capabilities init (Parsed root)))))
             <-> In k (map declared_name
                           (filter declared (findall root (edm "EntitySet"))))).
  { intros k. rewrite <- dict_has_In. unfold dict_has. rewrite V.
    rewrite in_map_iff.
    pose proof (filter_nonempty
                  (fun es => declared es && String.eqb (declared_name es) k)
                  (findall root (edm "EntitySet"))) as F.
    split.
    - intros H.
      destruct (rev (filter _ (findall root (edm "EntitySet")))) as [|x r];
        [discriminate|].
      destruct (proj1 F ltac:(discriminate)) as (es & Hin & HP).
      apply andb_true_iff in HP. destruct HP as [Hd He].
      apply String.eqb_eq in He.
      exists es. split; [exact He|]. apply filter_In. auto.
    - intros (es & He & Hin). apply filter_In in Hin. destruct Hin as [Hin Hd].
      assert (G : rev (filter (fun es => declared es
                                         && String.eqb (declared_name es) k)
                              (findall root (edm "EntitySet"))) <> []).
      { apply F. exists es. split; [exact Hin|].
        rewrite Hd, He. apply String.eqb_refl. }
      now destruct (rev (filter _ (findall root (edm "EntitySet")))). }
  split; [exact N|]. split; [apply K|]. split; [apply V|].
  rewrite <- (length_map fst). apply Permutation_length.
  apply NoDup_Permutation; [exact N | apply NoDup_nodup|].
  intros k. rewrite nodup_In. apply K.
Qed.

(** ** Names: type names, schema references and paths *)

Section Names.

(** A one-character string occurs in a concatenation when it occurs in
    a part. *)
Lemma contains_char_app (c : ascii) (a b : string) :
  PyStr.contains (String c "") (a ++ b)
  = PyStr.contains (String c "") a || PyStr.contains (String c "") b.
Proof.
  induction a as [|x a IH]; simpl.
  - destruct b; reflexivity.
  - rewrite IH, !andb_true_r. now rewrite orb_assoc.
Qed.

Lemma contains_char_cons (c x : ascii) (s : string) :
  PyStr.contains (String c "") (String x s)
  = Ascii.eqb c x || PyStr.contains (String c "") s.
Proof. simpl. now rewrite andb_true_r. Qed.

Lemma contains_cons_other (a c : ascii) (p s : string) :
  Ascii.eqb a c = false ->
  PyStr.contains (String a p) (String c s) = PyStr.contains (String a p) s.
Proof. intros H. simpl. now rewrite H. Qed.

(** The first segment when the separator is not in the head. *)
Lemma split_app_hd (sep : ascii) (x s : string) :
  PyStr.contains (String sep "") x = false ->
  PyStr.split sep (x ++ s)
  = (x ++ hd "" (PyStr.split sep s))%string :: tl (PyStr.split sep s).
Proof.
  induction x as [|c x IH]; simpl.
  - intros _. pose proof (split_not_nil sep s).
    now destruct (PyStr.split sep s).
  - rewrite andb_true_r, Ascii.eqb_sym. intros H.
    apply orb_false_iff in H. destruct H as [-> H]. now rewrite (IH H).
Qed.

Lemma concat_split (sep : ascii) (s : string) :
  String.concat (String sep "") (PyStr.split sep s) = s.
Proof.
  induction s as [|c s IH]; simpl; [reflexivity|].
  pose proof (split_not_nil sep s) as Hn.
  destruct (Ascii.eqb c sep) eqn:E.
  - apply Ascii.eqb_eq in E. subst c.
    destruct (PyStr.split sep s) as [|x xs]; [now destruct Hn|].
    simpl in *. now rewrite IH.
  - destruct (PyStr.split sep s) as [|x xs]; [now destruct Hn|].
    destruct xs as [|y ys]; simpl in *; now rewrite <- IH.
Qed.

(** What precedes the last separator. *)
Lemma rsplit1_head_app (sep : ascii) (t u : string) :
  PyStr.contains (String sep "") u = false ->
  PyStr.rsplit1_head sep (t ++ String sep u) = t.
Proof.
  intros Hu. unfold PyStr.rsplit1_head.
  rewrite split_app, (split_without_sep _ _ Hu).
  pose proof (split_not_nil sep t) as Hn.
  pose proof (concat_split sep t) as Hc.
  destruct (PyStr.split sep t) as [|x xs] eqn:E; [now destruct Hn|].
  assert (R : removelast ((x :: xs) ++ [u]) = x :: xs)
    by apply removelast_last.
  destruct xs as [|y ys]; simpl app.
  - simpl. simpl in Hc. exact Hc.
  - cbv iota. change (x :: y :: ys ++ [u]) with ((x :: y :: ys) ++ [u]).
    rewrite R. exact Hc.
Qed.

Lemma length_append (a b : string) :
  String.length (a ++ b) = String.length a + String.length b.
Proof. induction a as [|c a IH]; simpl; [reflexivity | now rewrite IH]. Qed.

Lemma endswith_app (t p : string) : PyStr.endswith (t ++ p) p = true.
Proof.
  unfold PyStr.endswith. rewrite length_append.
  replace (String.length t + String.length p - String.length p)
    with (String.length t) by lia.
  rewrite drop_app, String.eqb_refl, andb_true_r.
  apply Nat.leb_le. lia.
Qed.

(** Replacement: a string without the pattern is unchanged, and a
    leading occurrence is replaced first. *)
Lemma replace_absent (old new s : string) :
  PyStr.contains old s = false -> PyStr.replace_from old new 0 s = s.
Proof.
  induction s as [|c s IH]; simpl; [reflexivity|].
  intros H. apply orb_false_iff in H. destruct H as [H1 H2].
  change (match old with
          | "" => true
          | String a p' => Ascii.eqb a c && PyStr.startswith s p'
          end) with (PyStr.startswith (String c s) old) in *.
  now rewrite H1, (IH H2).
Qed.

Lemma replace_skip (old new p s : string) :
  PyStr.replace_from old new (String.length p) (p ++ s)
  = PyStr.replace_from old new 0 s.
Proof. induction p as [|c p IH]; simpl; [reflexivity | exact IH]. Qed.

Lemma replace_prefix (a : ascii) (p new s : string) :
  PyStr.replace (String a p) new (String a p ++ s)
  = (new ++ PyStr.replace (String a p) new s)%string.
Proof.
  unfold PyStr.replace.
  change (String a p ++ s)%string with (String a (p ++ s)).
  change (PyStr.replace_from (String a p) new 0 (String a (p ++ s)))
    with (if PyStr.startswith (String a (p ++ s)) (String a p)
          then (new ++ PyStr.replace_from (String a p) new
                         (String.length (String a p) - 1) (p ++ s))%string
          else String a (PyStr.replace_from (String a p) new 0 (p ++ s))).
  change (String a (p ++ s)) with (String a p ++ s)%string.
  rewrite startswith_app.
  replace (String.length (String a p) - 1) with (String.length p)
    by (simpl; lia).
  now rewrite replace_skip.
Qed.

(** A pattern does not reach across a character it does not contain. *)
Lemma startswith_app_sep (x : ascii) (sub a b : string) :
  PyStr.contains (String x "") sub = false ->
  PyStr.startswith (a ++ String x b) sub = PyStr.startswith a sub.
Proof.
  revert a. induction sub as [|y sub IH]; intros a H; [reflexivity|].
  rewrite contains_char_cons in H. apply orb_false_iff in H.
  destruct H as [Hy H].
  destruct a as [|c a]; simpl.
  - now rewrite Ascii.eqb_sym, Hy.
  - now rewrite (IH a H).
Qed.

Lemma contains_app_sep (x y : ascii) (sub a b : string) :
  PyStr.contains (String x "") (String y sub) = false ->
  PyStr.contains (String y sub) (a ++ String x b)
  = PyStr.contains (String y sub) a || PyStr.contains (String y sub) b.
Proof.
  intros H. induction a as [|c a IH].
  - rewrite contains_char_cons in H. apply orb_false_iff in H.
    destruct H as [Hy _]. simpl. now rewrite Ascii.eqb_sym, Hy.
  - change (String c a ++ String x b)%string
      with (String c (a ++ String x b)).
    change (PyStr.contains (String y sub) (String c (a ++ String x b)))
      with (PyStr.startswith (String c a ++ String x b) (String y sub)
            || PyStr.contains (String y sub) (a ++ String x b)).
    rewrite (startswith_app_sep x (String y sub) (String c a) b H), IH.
    change (PyStr.contains (String y sub) (String c a))
      with (PyStr.startswith (String c a) (String y sub)
            || PyStr.contains (String y sub) a).
    now rewrite orb_assoc.
Qed.

(** A pattern whose first character is not in the head starts, if at
    all, in the tail. *)
Lemma contains_after (a : ascii) (p q s : string) :
  PyStr.contains (String a "") q = false ->
  PyStr.contains (String a p) (q ++ s) = PyStr.contains (String a p) s.
Proof.
  induction q as [|c q IH]; intros H; [reflexivity|].
  rewrite contains_char_cons in H. apply orb_false_iff in H.
  destruct H as [Hc H].
  change (String c q ++ s)%string with (String c (q ++ s)).
  now rewrite (contains_cons_other a c p _ Hc), IH.
Qed.

Lemma lstrip_cons (c : ascii) (s : string) :
  PyStr.lstrip c (String c s) = PyStr.lstrip c s.
Proof. simpl. now rewrite Ascii.eqb_refl. Qed.

Lemma startswith_char (c : ascii) (h : string) :
  PyStr.startswith h (String c "") = true -> exists h', h = String c h'.
Proof.
  destruct h as [|a h]; simpl; [discriminate|].
  rewrite andb_true_r. intros H. apply Ascii.eqb_eq in H. subst a. eauto.
Qed.

(** The name before the parenthesis. *)
Lemma before_paren_cut (x h : string) :
  PyStr.contains "(" x = false ->
  h = "" \/ PyStr.startswith h "(" = true ->
  before_paren (x ++ h) = x.
Proof.
  intros Hx [-> | Hh]; unfold before_paren.
  - replace (x ++ "")%string with x
      by (clear; induction x as [|c x IH]; simpl; congruence).
    now rewrite Hx.
  - destruct (startswith_char _ _ Hh) as [h' ->]. rename h' into h.
    rewrite contains_char_app.
    assert (C : PyStr.contains "(" (String "(" h) = true)
      by (rewrite contains_char_cons; now rewrite Ascii.eqb_refl).
    rewrite C, orb_true_r, split_app, (split_without_sep _ _ Hx).
    reflexivity.
Qed.

(** The first segment of what follows an entity set's name. *)
Lemma first_segment_of_rest (sep par : ascii) (rest : string) :
  Ascii.eqb par sep = false ->
  rest = ""
  \/ PyStr.startswith rest (String par "") = true
  \/ PyStr.startswith rest (String sep "") = true ->
  hd "" (PyStr.split sep rest) = ""
  \/ PyStr.startswith (hd "" (PyStr.split sep rest)) (String par "") = true.
Proof.
  intros Hne [-> | [H | H]]; [now left | |];
    destruct (startswith_char _ _ H) as [rest' ->]; clear H;
    rename rest' into rest.
  - right. simpl. rewrite Hne.
    destruct (PyStr.split sep rest); simpl; now rewrite Ascii.eqb_refl.
  - left. simpl. now rewrite Ascii.eqb_refl.
Qed.

Lemma append_empty (s : string) : (s ++ "")%string = s.
Proof. induction s as [|c s IH]; simpl; congruence. Qed.

End Names.

(** X16. Where the extractor stores a record.  An entity set with a
    non-empty name [n] and the type [ns.t], [t] free of dots, has its
    record stored under [n] among the entity sets and under the bare
    type name [t] among the entity types: the namespace, whatever its
    own dots, is dropped. *)
Theorem record_stored_under_names (st : converter * list message)
  (es : element) (n ns t : string) :
  get es "Name" = Some n -> n <> "" ->
  get es "EntityType" = Some (ns ++ "." ++ t)%string ->
  PyStr.contains "." t = false ->
  type_name (ns ++ "." ++ t) = t
  /\ dict_get n (edmx_capabilities (fst (parse_entity_set st es)))
     = Some (entity_set_capabilities es)
  /\ dict_get t (entity_type_capabilities (fst (parse_entity_set st es)))
     = Some (entity_set_capabilities es).
Proof.
  intros Hn Hne Ht Hdot.
  assert (T : type_name (ns ++ "." ++ t) = t).
  { unfold type_name.
    change (ns ++ "." ++ t)%string with (ns ++ String "." t)%string.
    rewrite contains_char_app, (contains_char_cons "." "." t).
    rewrite Ascii.eqb_refl, orb_true_r.
    rewrite split_app, (split_without_sep _ _ Hdot). apply last_last. }
  assert (D : declared es = true).
  { unfold declared. rewrite Hn, Ht.
    apply String.eqb_neq in Hne. rewrite Hne. simpl.
    destruct ns; reflexivity. }
  split; [exact T|]. split.
  - rewrite parse_entity_set_names, D. unfold get_default. rewrite Hn.
    now rewrite String.eqb_refl.
  - rewrite parse_entity_set_types, D. unfold declared_type, get_default.
    rewrite Ht, T. now rewrite String.eqb_refl.
Qed.

Lemma record_stored_under_names_witness :
  type_name ("Microsoft.NAV" ++ "." ++ "Item") = "Item"
  /\ dict_get "Items"
       (edmx_capabilities
          (fst (parse_entity_set (init, [])
                  (Element (edm "EntitySet")
                     [("Name", "Items"); ("EntityType", "Microsoft.NAV.Item")]
                     []))))
     = Some (entity_set_capabilities
               (Element (edm "EntitySet")
                  [("Name", "Items"); ("EntityType", "Microsoft.NAV.Item")] []))
  /\ dict_get "Item"
       (entity_type_capabilities
          (fst (parse_entity_set (init, [])
                  (Element (edm "EntitySet")
                     [("Name", "Items"); ("EntityType", "Microsoft.NAV.Item")]
                     []))))
     = Some (entity_set_capabilities
               (Element (edm "EntitySet")
                  [("Name", "Items"); ("EntityType", "Microsoft.NAV.Item")] [])).
Proof.
  exact (record_stored_under_names (init, [])
           (Element (edm "EntitySet")
              [("Name", "Items"); ("EntityType", "Microsoft.NAV.Item")] [])
           "Items" "Microsoft.NAV" "Item"
           eq_refl ltac:(discriminate) eq_refl eq_refl).
Defined.



(** X18. The entity set a path is looked up under.  Below the company
    scope it is the second segment, at the root the first, cut at its
    first parenthesis: for a name [x] without slash or parenthesis,
    followed by nothing, by a key in parentheses or by further
    segments, the result is [x]. *)
Theorem entity_set_of_path (k x rest : string) :
  PyStr.contains "/" k = false ->
  PyStr.contains "/" x = false ->
  PyStr.contains "(" x = false ->
  rest = "" \/ PyStr.startswith rest "(" = true
  \/ PyStr.startswith rest "/" = true ->
  _extract_entity_set_from_path ("/companies(" ++ k ++ ")/" ++ x ++ rest)
  = Some x
  /\ (x <> "" -> PyStr.startswith (x ++ rest) "companies(" = false ->
      _extract_entity_set_from_path ("/" ++ x ++ rest) = Some x).
Proof.
  intros Hk Hx Hp Hrest.
  pose proof (first_segment_of_rest "/" "(" rest eq_refl Hrest) as Hh.
  pose proof (before_paren_cut x _ Hp Hh) as Hb.
  pose proof (split_app_hd "/" x rest Hx) as Hsplit.
  split.
  - unfold _extract_entity_set_from_path.
    change ("/companies(" ++ k ++ ")/" ++ x ++ rest)%string
      with (String "/" ("companies(" ++ k ++ ")/" ++ x ++ rest))%string.
    rewrite lstrip_cons, lstrip_without_leading by reflexivity.
    rewrite startswith_app.
    replace ("companies(" ++ k ++ ")/" ++ x ++ rest)%string
      with (("companies(" ++ k ++ ")") ++ String "/" (x ++ rest))%string
      by (now rewrite !append_assoc).
    rewrite split_app, Hsplit.
    rewrite (split_without_sep "/" ("companies(" ++ k ++ ")"))
      by (rewrite !contains_char_app, Hk; reflexivity).
    cbn [app List.length Nat.leb nth]. now rewrite Hb.
  - intros Hne Hc. unfold _extract_entity_set_from_path.
    change ("/" ++ x ++ rest)%string with (String "/" (x ++ rest)).
    rewrite lstrip_cons, lstrip_without_leading
      by (now apply no_leading_sep).
    rewrite Hc, Hsplit. now rewrite Hb.
Qed.

Lemma entity_set_of_path_witness :
  _extract_entity_set_from_path
    ("/companies(" ++ "{company_id}" ++ ")/" ++ "salesOrders"
     ++ "({salesOrder_id})/salesOrderLines")
  = Some "salesOrders"
  /\ _extract_entity_set_from_path ("/" ++ "items" ++ "({id})") = Some "items".
Proof.
  destruct (entity_set_of_path "{company_id}" "salesOrders"
              "({salesOrder_id})/salesOrderLines"
              eq_refl eq_refl eq_refl (or_intror (or_introl eq_refl)))
    as [H1 _].
  destruct (entity_set_of_path "" "items" "({id})"
              eq_refl eq_refl eq_refl (or_intror (or_introl eq_refl)))
    as [_ H2].
  split; [exact H1 | exact (H2 ltac:(discriminate) eq_refl)].
Defined.

(** ** What schema pruning removes and keeps *)

Section PruningSchemas.

Lemma take_app (t u : string) : PyStr.take (String.length t) (t ++ u) = t.
Proof. induction t as [|c t IH]; simpl; [now destruct u | now rewrite IH]. Qed.

(** The entity type between the prefix and a suffix of seven
    characters. *)
Lemma slice_entity_type (t suffix : string) :
  String.length suffix = 7 ->
  PyStr.slice 14 7 ("Microsoft.NAV." ++ t ++ suffix) = t.
Proof.
  intros H. unfold PyStr.slice.
  rewrite !length_append, H.
  change 14 with (String.length "Microsoft.NAV.") at 2.
  rewrite drop_app.
  replace (String.length "Microsoft.NAV." + (String.length t + 7) - 7 - 14)
    with (String.length t) by (simpl; lia).
  apply take_app.
Qed.

Lemma create_is_no_update (s : string) :
  PyStr.endswith s "-create" = true -> PyStr.endswith s "-update" = false.
Proof.
  unfold PyStr.endswith. intros H. apply andb_true_iff in H.
  destruct H as [_ H]. apply String.eqb_eq in H.
  change (String.length "-update") with (String.length "-create").
  rewrite H. apply andb_false_r.
Qed.

Lemma update_is_no_create (s : string) :
  PyStr.endswith s "-update" = true -> PyStr.endswith s "-create" = false.
Proof.
  unfold PyStr.endswith. intros H. apply andb_true_iff in H.
  destruct H as [_ H]. apply String.eqb_eq in H.
  change (String.length "-create") with (String.length "-update").
  rewrite H. apply andb_false_r.
Qed.

(** The variant of a type that may not be inserted, or updated, is
    always collected. *)
Lemma force_remove_restricted self (t : string) (c : capabilities) :
  dict_get t (entity_type_capabilities self) = Some c ->
  (insertable c = false ->
   force_remove self ("Microsoft.NAV." ++ t ++ "-create") = true)
  /\ (updatable c = false ->
      force_remove self ("Microsoft.NAV." ++ t ++ "-update") = true).
Proof.
  intros Hc. split; intros Hf; unfold force_remove, is_mutation_schema.
  - rewrite startswith_app.
    replace ("Microsoft.NAV." ++ t ++ "-create")%string
      with (("Microsoft.NAV." ++ t) ++ "-create")%string
      by apply append_assoc.
    rewrite endswith_app. cbn [andb orb].
    rewrite append_assoc, (slice_entity_type t "-create" eq_refl), Hc, Hf.
    reflexivity.
  - rewrite startswith_app.
    replace ("Microsoft.NAV." ++ t ++ "-update")%string
      with (("Microsoft.NAV." ++ t) ++ "-update")%string
      by apply append_assoc.
    rewrite endswith_app, orb_true_r. cbn [andb].
    rewrite (update_is_no_create _ (endswith_app _ "-update")).
    rewrite append_assoc, (slice_entity_type t "-update" eq_refl), Hc, Hf.
    reflexivity.
Qed.

(** Without a record that forbids inserting or updating, the
    capabilities ask for no removal. *)
Lemma no_capability_removal self (name : string) :
  (forall n c, In (n, c) (entity_type_capabilities self) ->
               insertable c = true /\ updatable c = true) ->
  (forall suffix, disallowed self insertable (base_name suffix name) = false)
  /\ (forall suffix, disallowed self updatable (base_name suffix name) = false)
  /\ force_remove self name = false.
Proof.
  intros H.
  assert (D : forall k, disallowed self insertable k = false
                        /\ disallowed self updatable k = false).
  { intros k. unfold disallowed.
    destruct (dict_get k (entity_type_capabilities self)) as [c|] eqn:E;
      [|auto].
    apply dict_get_In in E. destruct (H _ _ E) as [-> ->]. auto. }
  split; [intros; apply D|]. split; [intros; apply D|].
  unfold force_remove.
  destruct (PyStr.startswith name "Microsoft.NAV." && is_mutation_schema name);
    [|reflexivity].
  destruct (dict_get _ (entity_type_capabilities self)) as [c|] eqn:E;
    [|reflexivity].
  apply dict_get_In in E. destruct (H _ _ E) as [-> ->].
  now rewrite !andb_false_r.
Qed.

(** The names the loop over the paths collects for a method. *)
Lemma refs_of_method_In (method : string) (o : json) (refs : list string)
      (name : string) :
  refs_of_method method o = Ok refs ->
  (In name refs
   <-> exists item op, o = JObj item /\ dict_get method item = Some op
                       /\ In name (extract_schema_refs op)).
Proof.
  unfold refs_of_method. intros H. bind_inv H as has Hh.
  destruct has.
  - bind_inv H as op Hop. injection H as <-.
    apply py_getitem_Ok in Hop. destruct Hop as (d & -> & Hd).
    split.
    + intros Hin. exists d, op. auto.
    + intros (item & op' & [= <-] & Hd' & Hin). congruence.
  - injection H as <-. split; [intros []|].
    intros (item & op & -> & Hd & _). simpl in Hh. injection Hh as Hh.
    unfold dict_has in Hh. now rewrite Hd in Hh.
Qed.

Lemma schemas_used_In (paths : dict) (used : list string * list string)
      (name : string) :
  schemas_used paths = Ok used ->
  (In name (fst used) <-> referenced_by "post" paths name)
  /\ (In name (snd used) <-> referenced_by "patch" paths name).
Proof.
  revert used. induction paths as [|[k o] paths IH]; intros used H; simpl in H.
  - injection H as <-. simpl.
    split; (split; [intros [] | intros (? & ? & ? & [] & _)]).
  - bind_inv H as post_refs Hpost. bind_inv H as patch_refs Hpatch.
    bind_inv H as more Hmore. injection H as <-. simpl.
    destruct (IH more Hmore) as [I1 I2].
    pose proof (refs_of_method_In "post" o post_refs name Hpost) as R1.
    pose proof (refs_of_method_In "patch" o patch_refs name Hpatch) as R2.
    rewrite !in_app_iff, I1, I2, R1, R2. unfold referenced_by.
    split; split.
    + intros [(item & op & -> & Hd & Hin) | (p & item & op & Hin & Hd & Hr)].
      * exists k, item, op. simpl. auto.
      * exists p, item, op. simpl. auto.
    + intros (p & item & op & [[= <- ->] | Hin] & Hd & Hr).
      * left. eauto.
      * right. eauto 7.
    + intros [(item & op & -> & Hd & Hin) | (p & item & op & Hin & Hd & Hr)].
      * exists k, item, op. simpl. auto.
      * exists p, item, op. simpl. auto.
    + intros (p & item & op & [[= <- ->] | Hin] & Hd & Hr).
      * left. eauto.
      * right. eauto 7.
Qed.

End PruningSchemas.

(** X19. Schema pruning only deletes mutation schemas, and once is
    enough.  When the stage returns, the paths, the other top-level
    sections and the other components are unchanged; each schema is as
    it was, or is gone and has a name ending in [-create] or [-update];
    and running the stage on its result returns that result unchanged. *)
Theorem schema_pruning_idempotent self spec spec' :
  _remove_unused_schema_variants self spec = Ok spec' ->
  dict_get "paths" spec' = dict_get "paths" spec
  /\ same_sections spec spec'
  /\ (forall key, String.eqb key "schemas" = false ->
                  component_of spec' key = component_of spec key)
  /\ (forall name,
        schema_of spec' name = schema_of spec name
        \/ (schema_of spec' name = None /\ is_mutation_schema name = true))
  /\ _remove_unused_schema_variants self spec' = Ok spec'.
Proof.
  intros H.
  split; [exact (remove_unused_schema_variants_paths _ _ _ H)|].
  destruct (remove_unused_schema_variants_frame _ _ _ H) as [F1 F2].
  split; [exact F1|]. split; [exact F2|].
  pose proof (remove_unused_schema_variants_Ok _ _ _ H) as G.
  destruct G as [[-> _] | (P & c & S & u & HP & HC & HS & HU & ->)];
    [split; [now left | exact H]|].
  split.
  - intros name. unfold schema_of.
    rewrite dict_get_set_same, dict_get_set_same, HC, HS.
    rewrite dict_get_remove_keys.
    destruct (PyStr.mem name _) eqn:E; [right | now left].
    split; [reflexivity|].
    apply mem_In in E. exact (schemas_to_remove_mutation _ _ _ _ _ E).
  - eapply remove_unused_schema_variants_again; [apply dict_get_set_same|].
    right. right.
    exists P,
      (remove_keys (schemas_to_remove self (fst u) (snd u) (dict_keys S)) S), u.
    split; [now rewrite dict_get_set_other by reflexivity|].
    split; [apply dict_get_set_same|]. split; [exact HU|].
    intros n Hn. rewrite remove_keys_filter in Hn.
    rewrite (dict_keys_filter
               (fun k => negb (PyStr.mem k (schemas_to_remove self (fst u) (snd u)
                                              (dict_keys S))))) in Hn.
    apply filter_In in Hn. destruct Hn as [Hin Hm].
    rewrite mem_schemas_to_remove in Hm.
    apply mem_In in Hin. rewrite Hin, andb_true_r in Hm.
    now apply negb_true_iff in Hm.
Qed.

Lemma schema_pruning_idempotent_witness :
  exists spec',
    _remove_unused_schema_variants items_converter items_base = Ok spec'
    /\ _remove_unused_schema_variants items_converter spec' = Ok spec'
    /\ dict_get "paths" spec' = dict_get "paths" items_base.
Proof.
  eexists. split; [reflexivity|].
  destruct (schema_pruning_idempotent items_converter items_base _ eq_refl)
    as (H1 & _ & _ & _ & H5).
  split; [exact H5 | exact H1].
Defined.

(** X20. The variants of a restricted type always go.  On a document
    with [paths], when the entity type [t] is known and may not be
    inserted, the schema [Microsoft.NAV.t-create] is absent after the
    stage, referenced or not; likewise [Microsoft.NAV.t-update] when [t]
    may not be updated. *)
Theorem restricted_type_variants_removed self spec spec' (t : string)
  (c : capabilities) :
  _remove_unused_schema_variants self spec = Ok spec' ->
  dict_get "paths" spec <> None ->
  dict_get t (entity_type_capabilities self) = Some c ->
  (insertable c = false ->
   schema_of spec' ("Microsoft.NAV." ++ t ++ "-create") = None)
  /\ (updatable c = false ->
      schema_of spec' ("Microsoft.NAV." ++ t ++ "-update") = None).
Proof.
  intros H Hp Hc.
  destruct (force_remove_restricted self t c Hc) as [F1 F2].
  assert (G : forall name, force_remove self name = true ->
                           schema_of spec' name = None).
  { intros name Hf.
    pose proof (remove_unused_schema_variants_Ok _ _ _ H) as G.
    destruct G as [[-> [E | [E | (c0 & E & Hin)]]]
                  | (P & c0 & S & u & HP & HC & HS & HU & ->)].
    - congruence.
    - unfold schema_of. now rewrite E.
    - unfold schema_of. rewrite E.
      destruct c0 as [| | | | | |d]; try reflexivity.
      simpl in Hin. injection Hin as Hin. unfold dict_has in Hin.
      now destruct (dict_get "schemas" d).
    - unfold schema_of. rewrite dict_get_set_same, dict_get_set_same.
      rewrite dict_get_remove_keys, mem_schemas_to_remove.
      unfold removal_criterion. rewrite Hf, orb_true_r.
      cbn [andb].
      destruct (PyStr.mem name (dict_keys S)) eqn:E; [reflexivity|].
      destruct (dict_get name S) eqn:D; [|reflexivity].
      assert (Hin : In name (dict_keys S))
        by (apply dict_has_In; unfold dict_has; now rewrite D).
      apply mem_In in Hin. congruence. }
  split; intros Hf; apply G; auto.
Qed.

Lemma restricted_type_variants_removed_witness :
  exists spec',
    _remove_unused_schema_variants
      (mkConverter [("Items", no_insert)] [("Item", no_insert)]) items_base
    = Ok spec'
    /\ schema_of items_base ("Microsoft.NAV." ++ "Item" ++ "-create")
       = Some (JObj [("properties",
                      JObj [("systemCreatedAt", JObj []); ("no", JObj [])])])
    /\ schema_of spec' ("Microsoft.NAV." ++ "Item" ++ "-create") = None.
Proof.
  eexists. split; [reflexivity|]. split; [reflexivity|].
  exact (proj1 (restricted_type_variants_removed
                  (mkConverter [("Items", no_insert)] [("Item", no_insert)])
                  items_base _ "Item" no_insert eq_refl
                  ltac:(discriminate) eq_refl) eq_refl).
Defined.

(** X21. Unreferenced variants, when no capability interferes.  When no
    known entity type forbids inserting or updating (in particular
    without metadata), a create schema is kept as it was when some
    [post] operation of the paths refers to it, anywhere inside the
    operation, and is removed otherwise; an update schema likewise for
    the [patch] operations. *)
Theorem unreferenced_variants_removed self spec spec' (paths : dict)
  (name : string) :
  (forall n c, In (n, c) (entity_type_capabilities self) ->
               insertable c = true /\ updatable c = true) ->
  _remove_unused_schema_variants self spec = Ok spec' ->
  dict_get "paths" spec = Some (JObj paths) ->
  (PyStr.endswith name "-create" = true ->
   (referenced_by "post" paths name ->
    schema_of spec' name = schema_of spec name)
   /\ (~ referenced_by "post" paths name -> schema_of spec' name = None))
  /\ (PyStr.endswith name "-update" = true ->
      (referenced_by "patch" paths name ->
       schema_of spec' name = schema_of spec name)
      /\ (~ referenced_by "patch" paths name -> schema_of spec' name = None)).
Proof.
  intros Hcap H Hp.
  destruct (no_capability_removal self name Hcap) as (D1 & D2 & D3).
  pose proof (remove_unused_schema_variants_Ok _ _ _ H) as G.
  destruct G as [[-> [E | [E | (c0 & E & Hin)]]]
                | (P & c0 & S & u & HP & HC & HS & HU & ->)].
  - congruence.
  - assert (N : schema_of spec name = None)
      by (unfold schema_of; now rewrite E).
    rewrite N. tauto.
  - assert (N : schema_of spec name = None).
    { unfold schema_of. rewrite E.
      destruct c0 as [| | | | | |d]; try reflexivity.
      simpl in Hin. injection Hin as Hin. unfold dict_has in Hin.
      now destruct (dict_get "schemas" d). }
    rewrite N. tauto.
  - rewrite Hp in HP. injection HP as <-.
    destruct (schemas_used_In paths u name HU) as [U1 U2].
    assert (V : schema_of
                  (dict_set "components"
                     (JObj (dict_set "schemas"
                              (JObj (remove_keys
                                       (schemas_to_remove self (fst u) (snd u)
                                          (dict_keys S)) S)) c0)) spec) name
                = if removal_criterion self (fst u) (snd u) name then None
                  else schema_of spec name)
      by exact (schema_removed_iff_criterion self spec _ paths c0 S u name
                  H Hp HC HS HU).
    rewrite V. unfold removal_criterion. rewrite D1, D2, D3, !orb_false_r.
    split; intros He; rewrite He.
    + rewrite (create_is_no_update _ He). cbn [andb orb].
      rewrite orb_false_r. split; intros Hr.
      * apply U1, mem_In in Hr. now rewrite Hr.
      * destruct (PyStr.mem name (fst u)) eqn:M; [|reflexivity].
        apply mem_In, U1 in M. contradiction.
    + rewrite (update_is_no_create _ He). cbn [andb orb].
      split; intros Hr.
      * apply U2, mem_In in Hr. now rewrite Hr.
      * destruct (PyStr.mem name (snd u)) eqn:M; [|reflexivity].
        apply mem_In, U2 in M. contradiction.
Qed.

Lemma unreferenced_variants_removed_witness :
  exists spec',
    _remove_unused_schema_variants init items_base = Ok spec'
    /\ schema_of spec' "Microsoft.NAV.Item-create"
       = schema_of items_base "Microsoft.NAV.Item-create"
    /\ schema_of spec' "Microsoft.NAV.Item-update"
       = schema_of items_base "Microsoft.NAV.Item-update".
Proof.
  eexists. split; [reflexivity|].
  assert (Hcap : forall n c, In (n, c) (entity_type_capabilities init) ->
                             insertable c = true /\ updatable c = true)
    by (intros n c []).
  split.
  - refine (proj1 (proj1 (unreferenced_variants_removed init items_base _ _
                            "Microsoft.NAV.Item-create" Hcap eq_refl eq_refl)
                     eq_refl) _).
    exists "/companies({id})/Items",
      [("get", JObj []);
       ("post", JObj [("requestBody", body_of "Microsoft.NAV.Item-create")])],
      (JObj [("requestBody", body_of "Microsoft.NAV.Item-create")]).
    split; [right; left; reflexivity|]. split; [reflexivity|].
    left. reflexivity.
  - refine (proj1 (proj2 (unreferenced_variants_removed init items_base _ _
                            "Microsoft.NAV.Item-update" Hcap eq_refl eq_refl)
                     eq_refl) _).
    exists "/companies({id})/Items({id})",
      [("get", JObj [("responses", JObj [("200", body_of "Microsoft.NAV.Item")])]);
       ("patch", JObj [("requestBody", body_of "Microsoft.NAV.Item-update")]);
       ("delete", JObj [("responses", JObj [("204", JObj [])])])],
      (JObj [("requestBody", body_of "Microsoft.NAV.Item-update")]).
    split; [left; reflexivity|]. split; [reflexivity|].
    left. reflexivity.
Defined.

(** ** The paths of the enhanced document *)

Section EnhancedPaths.

(** Injection changes nothing but [parameters]. *)
Lemma add_company_ref_members (path_name : string) (d : dict) (item' : json) :
  add_company_ref path_name (JObj d) = Ok item' ->
  exists d', item' = JObj d'
             /\ forall k, String.eqb k "parameters" = false ->
                          dict_get k d' = dict_get k d.
Proof.
  intros H. apply add_company_ref_Ok in H.
  destruct H as [[_ ->] | (_ & d0 & [= <-] & [[Hn ->] | (l & Hl & ->)])].
  - exists d. auto.
  - eexists. split; [reflexivity|]. intros k Hk.
    rewrite <- (dict_set_fresh "parameters" (JArr [company_ref]) d)
      by (apply dict_get_None; exact Hn).
    now rewrite dict_get_set, Hk.
  - eexists. split; [reflexivity|]. intros k Hk.
    now rewrite dict_get_set, Hk.
Qed.

End EnhancedPaths.

(** X22. The paths of the enhanced document.  For a base document whose
    [paths] is a dictionary with distinct keys, a run of the pipeline
    that returns keeps exactly the paths that are no navigation paths,
    in their order; and in a kept path item every member other than
    [parameters] is as it was in the base document, or is one of
    [post], [patch] and [delete] and has been removed: no operation is
    rewritten and [get] is never removed. *)
Theorem enhanced_paths_of_base (self : converter) (spec out : dict)
  (title description api_name api_version tenant_placeholder : option string)
  (paths0 : dict) :
  _enhance_openapi_spec self spec title description api_name api_version
                        tenant_placeholder = Ok out ->
  dict_get "paths" spec = Some (JObj paths0) ->
  NoDup (dict_keys paths0) ->
  path_names out
  = filter (fun p => negb (is_navigation_path p)) (dict_keys paths0)
  /\ forall path d0,
       dict_get path paths0 = Some (JObj d0) ->
       is_navigation_path path = false ->
       exists d,
         path_item out path = Some (JObj d)
         /\ forall k, String.eqb k "parameters" = false ->
              dict_get k d = dict_get k d0
              \/ (dict_get k d = None /\ In k ["post"; "patch"; "delete"]).
Proof.
  intros H Hp Hnd.
  destruct (enhance_paths _ _ _ _ _ _ _ _ _ H Hp Hnd)
    as (paths1 & paths_out & Hm & Hout & Henf).
  assert (K1 : dict_keys (filter (fun kv => negb (is_navigation_path (fst kv)))
                                 paths1)
               = filter (fun p => negb (is_navigation_path p)) (dict_keys paths0)).
  { rewrite (dict_keys_filter (fun p => negb (is_navigation_path p))).
    now rewrite (map_items_keys _ _ _ Hm). }
  assert (K2 : forall path d0,
             dict_get path paths0 = Some (JObj d0) ->
             is_navigation_path path = false ->
             exists d1,
               dict_get path
                 (filter (fun kv => negb (is_navigation_path (fst kv))) paths1)
               = Some (JObj d1)
               /\ forall k, String.eqb k "parameters" = false ->
                            dict_get k d1 = dict_get k d0).
  { intros path d0 Hd Hnav.
    pose proof (map_items_get _ _ _ path Hm) as G. rewrite Hd in G.
    destruct G as (v1 & Hv & G).
    destruct (add_company_ref_members _ _ _ Hv) as (d1 & -> & Hd1).
    exists d1. split; [|exact Hd1].
    rewrite (dict_get_filter_keys (fun p => negb (is_navigation_path p))).
    now rewrite Hnav. }
  unfold path_names, path_item. rewrite Hout.
  destruct Henf as [[_ ->] | (s & Hs)].
  - split; [exact K1|]. intros path d0 Hd Hnav.
    destruct (K2 path d0 Hd Hnav) as (d1 & G & Hd1).
    exists d1. split; [exact G|]. intros k Hk. left. now apply Hd1.
  - split; [now rewrite (map_items_keys _ _ _ Hs)|].
    intros path d0 Hd Hnav.
    destruct (K2 path d0 Hd Hnav) as (d1 & G & Hd1).
    pose proof (map_items_get _ _ _ path Hs) as G2. rewrite G in G2.
    destruct G2 as (v & Hv & G2).
    apply enforce_path_Ok in Hv.
    destruct Hv as [-> | (d & found & c & [= <-] & -> & _)].
    + exists d1. split; [exact G2|]. intros k Hk. left. now apply Hd1.
    + exists (allowed_ops c d1). split; [exact G2|]. intros k Hk.
      rewrite <- (Hd1 k Hk). apply dict_get_allowed_ops_writes.
Qed.

Lemma enhanced_paths_of_base_witness :
  path_names items_enhanced
  = filter (fun p => negb (is_navigation_path p))
           ["/companies({id})/Items({id})"; "/companies({id})/Items";
            "/companies({id})/Items({id})/lines"; "/items"]
  /\ path_names items_enhanced
     = ["/companies({id})/Items({id})"; "/companies({id})/Items"; "/items"].
Proof.
  split; [|reflexivity].
  refine (proj1 (enhanced_paths_of_base items_converter items_base
                   items_enhanced None None (Some "items") None None _
                   _ eq_refl _)).
  - vm_compute. reflexivity.
  - repeat constructor; simpl; intuition discriminate.
Defined.

(** ** The entity type of a path item *)

Section EntityTypeOfItem.

Lemma schema_ref_prefixed (u : string) :
  PyStr.contains "#/components/schemas/" u = false ->
  PyStr.contains "Microsoft.NAV." u = false ->
  _schema_ref_to_entity_type
    (JStr ("#/components/schemas/Microsoft.NAV." ++ u))
  = Ok (Some (if is_mutation_schema u then PyStr.rsplit1_head "-" u else u)).
Proof.
  intros U1 U2.
  assert (R1 : PyStr.replace "#/components/schemas/" ""
                 ("#/components/schemas/" ++ ("Microsoft.NAV." ++ u))
               = ("Microsoft.NAV." ++ u)%string).
  { rewrite (replace_prefix "#" "/components/schemas/" "").
    unfold PyStr.replace. rewrite replace_absent; [reflexivity|].
    now rewrite (contains_after "#" "/components/schemas/" "Microsoft.NAV." u
                   eq_refl). }
  assert (R2 : PyStr.replace "Microsoft.NAV." "" ("Microsoft.NAV." ++ u) = u).
  { rewrite (replace_prefix "M" "icrosoft.NAV." "").
    unfold PyStr.replace. now rewrite (replace_absent _ _ _ U2). }
  unfold _schema_ref_to_entity_type.
  change ("#/components/schemas/Microsoft.NAV." ++ u)%string
    with ("#/components/schemas/" ++ ("Microsoft.NAV." ++ u))%string.
  rewrite startswith_app. cbn [negb].
  now rewrite R1, startswith_app, R2.
Qed.

(** A reference to a schema of [Microsoft.NAV] is a non-empty string. *)
Lemma entity_type_of_prefixed_ref (u t : string) :
  _schema_ref_to_entity_type
    (JStr ("#/components/schemas/Microsoft.NAV." ++ u)) = Ok (Some t) ->
  t <> "" ->
  entity_type_of_ref
    (Some (JStr ("#/components/schemas/Microsoft.NAV." ++ u))) = Ok (Some t).
Proof.
  intros H Hne. unfold entity_type_of_ref.
  change (truthy (JStr ("#/components/schemas/Microsoft.NAV." ++ u)))
    with true.
  cbv iota. rewrite H. simpl. apply String.eqb_neq in Hne. now rewrite Hne.
Qed.

Lemma member_at_cons (k : string) (rest : list string) (o v : json) :
  member_at (k :: rest) o = Some v ->
  exists d w, o = JObj d /\ dict_get k d = Some w /\ member_at rest w = Some v.
Proof.
  simpl. destruct o as [| | | | | |d]; try discriminate.
  destruct (dict_get k d) as [w|] eqn:E; [|discriminate].
  intros H. exists d, w. auto.
Qed.

Lemma responses_ref (responses v : json) :
  member_at ["200"; "content"; "application/json"; "schema"; "$ref"] responses
  = Some v ->
  _extract_schema_ref_from_responses responses = Ok (Some v).
Proof.
  intros H.
  apply member_at_cons in H. destruct H as (r & r200 & -> & E1 & H).
  apply member_at_cons in H. destruct H as (d200 & c & -> & E2 & H).
  apply member_at_cons in H. destruct H as (dc & a & -> & E3 & H).
  apply member_at_cons in H. destruct H as (da & sch & -> & E4 & H).
  apply member_at_cons in H. destruct H as (ds & w & -> & E5 & H).
  simpl in H. injection H as ->.
  unfold _extract_schema_ref_from_responses, py_and. simpl.
  unfold dict_has. rewrite E1. simpl. unfold dict_has. rewrite E2. simpl.
  rewrite ?E1. simpl. rewrite ?E2. simpl.
  unfold dict_has. rewrite E3. simpl. unfold dict_has. rewrite E4. simpl.
  rewrite ?E3. simpl. rewrite ?E4. simpl.
  unfold dict_has. rewrite E5. simpl. now rewrite ?E5.
Qed.

Lemma request_body_ref (request_body v : json) :
  member_at ["content"; "application/json"; "schema"; "$ref"] request_body
  = Some v ->
  _extract_schema_ref_from_request_body request_body = Ok (Some v).
Proof.
  intros H.
  apply member_at_cons in H. destruct H as (r & c & -> & E1 & H).
  apply member_at_cons in H. destruct H as (dc & a & -> & E2 & H).
  apply member_at_cons in H. destruct H as (da & sch & -> & E3 & H).
  apply member_at_cons in H. destruct H as (ds & w & -> & E4 & H).
  simpl in H. injection H as ->.
  unfold _extract_schema_ref_from_request_body, py_and. simpl.
  unfold dict_has. rewrite E1. simpl. unfold dict_has. rewrite E2. simpl.
  rewrite ?E1. simpl. rewrite ?E2. simpl.
  unfold dict_has. rewrite E3. simpl. unfold dict_has. rewrite E4. simpl.
  rewrite ?E3. simpl. now rewrite ?E4.
Qed.

(** One round of the loop over the two methods, when the method object
    holds the section and the section a reference. *)
Lemma entity_type_of_method_found (method section : string)
      (extract : json -> result (option json)) (d m : dict) (s ref : json)
      (t : string) :
  dict_get method d = Some (JObj m) ->
  dict_get section m = Some s ->
  extract s = Ok (Some ref) ->
  entity_type_of_ref (Some ref) = Ok (Some t) ->
  entity_type_of_method method section extract (JObj d) = Ok (Some t).
Proof.
  intros Hm Hs He Ht. rewrite entity_type_of_method_dict, Hm.
  unfold py_in, py_getitem, dict_has. rewrite Hs. cbn [bind].
  rewrite He. cbn [bind]. exact Ht.
Qed.

End EntityTypeOfItem.

(** X23. The entity type read off a path item.  For a type name [t]
    that is not empty, has no create or update suffix and contains
    neither prefix: when the [get] operation's [200] response refers, as
    the schema of its [application/json] content, to [Microsoft.NAV.t],
    the entity type of the item is [t], whatever its [patch] says; and
    when the item has no [get] and the request body of its [patch]
    refers to [Microsoft.NAV.t-update], the entity type is [t] as
    well. *)
Theorem entity_type_of_path_item (item spec : dict) (t : string) :
  PyStr.contains "#/components/schemas/" t = false ->
  PyStr.contains "Microsoft.NAV." t = false ->
  t <> "" ->
  (is_mutation_schema t = false ->
   member_at ["get"; "responses"; "200"; "content"; "application/json";
              "schema"; "$ref"] (JObj item)
   = Some (JStr ("#/components/schemas/Microsoft.NAV." ++ t)) ->
   _extract_entity_type_from_path_methods (JObj item) spec = Ok (Some t))
  /\ (dict_get "get" item = None ->
      member_at ["patch"; "requestBody"; "content"; "application/json";
                 "schema"; "$ref"] (JObj item)
      = Some (JStr ("#/components/schemas/Microsoft.NAV." ++ t ++ "-update")) ->
      _extract_entity_type_from_path_methods (JObj item) spec = Ok (Some t)).
Proof.
  intros H1 H2 Hne. split.
  - intros Hm H.
    apply member_at_cons in H. destruct H as (d & g & [= <-] & Eg & H).
    apply member_at_cons in H. destruct H as (dg & r & -> & Er & H).
    apply responses_ref in H.
    unfold _extract_entity_type_from_path_methods.
    rewrite (entity_type_of_method_found "get" "responses" _ item dg r _ t
               Eg Er H); [reflexivity|].
    apply entity_type_of_prefixed_ref; [|exact Hne].
    now rewrite (schema_ref_prefixed t H1 H2), Hm.
  - intros Hg H.
    apply member_at_cons in H. destruct H as (d & p & [= <-] & Ep & H).
    apply member_at_cons in H. destruct H as (dp & b & -> & Eb & H).
    apply request_body_ref in H.
    unfold _extract_entity_type_from_path_methods.
    rewrite (entity_type_of_method_dict "get"), Hg. cbn [bind].
    apply (entity_type_of_method_found "patch" "requestBody" _ item dp b _ t
             Ep Eb H).
    apply entity_type_of_prefixed_ref; [|exact Hne].
    change (t ++ "-update")%string with (t ++ String "-" "update")%string.
    rewrite schema_ref_prefixed.
    + rewrite (rsplit1_head_app "-" t "update" eq_refl).
      unfold is_mutation_schema.
      change (String "-" "update") with "-update".
      now rewrite endswith_app, orb_true_r.
    + rewrite (contains_app_sep "-" "#" "/components/schemas/" t "update" eq_refl).
      now rewrite H1.
    + rewrite (contains_app_sep "-" "M" "icrosoft.NAV." t "update" eq_refl).
      now rewrite H2.
Qed.

Lemma entity_type_of_path_item_witness :
  _extract_entity_type_from_path_methods items_member_item [] = Ok (Some "Item")
  /\ _extract_entity_type_from_path_methods
       (JObj [("patch",
               JObj [("requestBody",
                      body_of ("Microsoft.NAV." ++ "Item" ++ "-update"))])]) []
     = Ok (Some "Item").
Proof.
  destruct (entity_type_of_path_item
              [("get", JObj [("responses",
                              JObj [("200", body_of "Microsoft.NAV.Item")])]);
               ("patch", JObj [("requestBody",
                                body_of "Microsoft.NAV.Item-update")]);
               ("delete", JObj [("responses", JObj [("204", JObj [])])])]
              [] "Item" eq_refl eq_refl ltac:(discriminate)) as [W1 _].
  destruct (entity_type_of_path_item
              [("patch",
                JObj [("requestBody",
                       body_of ("Microsoft.NAV." ++ "Item" ++ "-update"))])]
              [] "Item" eq_refl eq_refl ltac:(discriminate)) as [_ W2].
  split; [exact (W1 eq_refl eq_refl) | exact (W2 eq_refl eq_refl)].
Defined.

(** ** Documents on which the pipeline returns *)

Section Returns.

Lemma map_items_returns (body : string -> json -> result json) (d : dict) :
  (forall k v, In (k, v) d -> exists v', body k v = Ok v') ->
  exists d', map_items body d = Ok d'.
Proof.
  induction d as [|[k v] d IH]; intros H; simpl; [eauto|].
  destruct (H k v (or_introl eq_refl)) as [v' ->].
  destruct IH as [d' ->]; [intros k0 v0 Hin; apply H; now right|].
  simpl. eauto.
Qed.

Lemma refs_of_method_returns (method : string) (d : dict) :
  exists refs, refs_of_method method (JObj d) = Ok refs.
Proof.
  unfold refs_of_method. simpl. unfold dict_has.
  destruct (dict_get method d); simpl; eauto.
Qed.

Lemma schemas_used_returns (paths : dict) :
  (forall k v, In (k, v) paths -> exists d, v = JObj d) ->
  exists used, schemas_used paths = Ok used.
Proof.
  induction paths as [|[k v] paths IH]; intros H; [simpl; eauto|].
  destruct (H k v (or_introl eq_refl)) as [d ->].
  destruct IH as [more Hmore]; [intros k0 v0 Hin; apply (H k0); now right|].
  destruct (refs_of_method_returns "post" d) as [r1 E1].
  destruct (refs_of_method_returns "patch" d) as [r2 E2].
  cbn [schemas_used]. rewrite E1, E2, Hmore. simpl. eauto.
Qed.

(** The entity type of an item depends on its [get] and [patch] only. *)
Lemma extract_entity_type_members (d d' spec spec' : dict) :
  dict_get "get" d' = dict_get "get" d ->
  dict_get "patch" d' = dict_get "patch" d ->
  _extract_entity_type_from_path_methods (JObj d') spec'
  = _extract_entity_type_from_path_methods (JObj d) spec.
Proof.
  intros Hg Hp. unfold _extract_entity_type_from_path_methods.
  now rewrite !entity_type_of_method_dict, Hg, Hp.
Qed.

Lemma replace_sections_returns spec title description api_name api_version
      tenant_placeholder :
  match dict_get "components" spec with
  | None | Some (JObj _) => True
  | Some _ => False
  end ->
  exists spec', replace_sections spec title description api_name api_version
                                 tenant_placeholder = Ok spec'.
Proof.
  intros H. unfold replace_sections, dict_has.
  rewrite !dict_get_set_other by reflexivity.
  destruct (dict_get "components" spec) as [[| | | | | |c]|] eqn:E;
    try contradiction.
  - simpl. rewrite !dict_get_set_other by reflexivity. rewrite E.
    simpl. eauto.
  - simpl. rewrite dict_get_set_same. simpl. eauto.
Qed.

(** What the first part leaves in [components] besides the security
    schemes. *)
Lemma replace_sections_components spec title description api_name api_version
      tenant_placeholder spec' (key : string) :
  replace_sections spec title description api_name api_version
                   tenant_placeholder = Ok spec' ->
  String.eqb key "securitySchemes" = false ->
  component_of spec' key = component_of spec key.
Proof.
  unfold replace_sections, dict_has. intros H Hk.
  rewrite !dict_get_set_other in H by reflexivity.
  unfold component_of.
  destruct (dict_get "components" spec) as [c0|] eqn:E.
  - bind_inv H as c Hc. bind_inv H as c' Hc'. injection H as <-.
    simpl in Hc. rewrite !dict_get_set_other in Hc by reflexivity.
    rewrite E in Hc. injection Hc as <-.
    apply py_setitem_Ok in Hc'. destruct Hc' as (d & -> & ->).
    now rewrite dict_get_set_same, dict_get_set, Hk.
  - bind_inv H as c Hc. bind_inv H as c' Hc'. injection H as <-.
    simpl in Hc. rewrite dict_get_set_same in Hc. injection Hc as <-.
    simpl in Hc'. injection Hc' as <-.
    rewrite dict_get_set_same. simpl. now rewrite Hk.
Qed.

Lemma add_company_ref_returns (path_name : string) (item : json) :
  item_ok item = true ->
  exists item', add_company_ref path_name item = Ok item'.
Proof.
  unfold item_ok, parameters_ok.
  destruct item as [| | | | | |d]; try discriminate.
  intros H. apply andb_true_iff in H. destruct H as [H _].
  unfold add_company_ref. destruct (no_company path_name); [eauto|].
  simpl. unfold dict_has.
  destruct (dict_get "parameters" d) as [[| | | | |l|]|] eqn:E;
    try discriminate; simpl.
  - rewrite E. simpl. eauto.
  - rewrite dict_get_set_same. simpl. eauto.
Qed.

Lemma add_company_parameter_returns (spec c : dict) :
  dict_get "components" spec = Some (JObj c) ->
  match dict_get "parameters" c with
  | None | Some (JObj _) => True
  | Some _ => False
  end ->
  (dict_get "paths" spec = None
   \/ exists paths,
       dict_get "paths" spec = Some (JObj paths)
       /\ NoDup (dict_keys paths)
       /\ forall k v, In (k, v) paths -> item_ok v = true) ->
  exists spec', _add_company_parameter spec = Ok spec'.
Proof.
  intros Hc Hps Hp. unfold _add_company_parameter. simpl. rewrite Hc. simpl.
  unfold dict_has.
  assert (G : forall spec1 : dict,
             dict_get "paths" spec1 = dict_get "paths" spec ->
             exists spec',
               match dict_get "paths" spec1 with
               | Some paths =>
                   items <- py_items paths ;;
                   new_paths <- add_company_refs items [] ;;
                   Ok (dict_set "paths" (JObj new_paths) spec1)
               | None => Ok spec1
               end = Ok spec').
  { intros spec1 ->.
    destruct Hp as [-> | (P & -> & Hnd & Hok)]; [eauto|].
    simpl. rewrite add_company_refs_map_items by exact Hnd.
    destruct (map_items_returns add_company_ref P) as [P' ->].
    - intros k v Hin. apply add_company_ref_returns. now apply (Hok k).
    - simpl. eauto. }
  destruct (dict_get "parameters" c) as [[| | | | | |ps]|] eqn:E;
    try contradiction; simpl.
  - rewrite E. simpl. apply G. now rewrite dict_get_set_other by reflexivity.
  - rewrite dict_get_set_same. simpl. apply G.
    now rewrite dict_get_set_other by reflexivity.
Qed.

Lemma scrub_schema_returns (name : string) (schema : json) :
  schema_ok schema = true -> exists schema', scrub_schema name schema = Ok schema'.
Proof.
  unfold schema_ok, scrub_schema.
  destruct (negb (is_mutation_schema name)); [eauto|].
  destruct schema as [| | | | | |d]; eauto.
  destruct (dict_get "properties" d) as [[| | | | | |props]|];
    try discriminate; [|eauto].
  intros _. rewrite scrub_properties_dict. simpl. eauto.
Qed.

Lemma remove_system_fields_returns (spec c : dict) :
  dict_get "components" spec = Some (JObj c) ->
  (dict_get "schemas" c = None
   \/ exists schemas,
       dict_get "schemas" c = Some (JObj schemas)
       /\ forall n v, In (n, v) schemas -> schema_ok v = true) ->
  exists spec', _remove_system_fields_from_mutation_schemas spec = Ok spec'.
Proof.
  intros Hc Hs. unfold _remove_system_fields_from_mutation_schemas.
  rewrite Hc. simpl. unfold dict_has.
  destruct Hs as [-> | (S & -> & Hok)]; simpl; [eauto|].
  destruct (map_items_returns scrub_schema S) as [S' ->].
  - intros k v Hin. apply scrub_schema_returns. now apply (Hok k).
  - simpl. eauto.
Qed.

Lemma enforce_path_returns self (spec : dict) (path : string) (d : dict) :
  type_lookup_ok (JObj d) = true ->
  exists d', enforce_path self spec path (JObj d) = Ok (JObj d').
Proof.
  unfold type_lookup_ok. intros H.
  destruct (_extract_entity_type_from_path_methods (JObj d) []) as [t|] eqn:E;
    [|discriminate].
  assert (F : exists found, find_capabilities self spec path (JObj d) = Ok found).
  { unfold find_capabilities.
    destruct (match _extract_entity_set_from_path path with
              | Some entity_set_name => _ | None => _ end) as [c|]; [eauto|].
    rewrite (extract_entity_type_members d d [] spec eq_refl eq_refl), E.
    simpl.
    destruct (match t with Some t0 => _ | None => _ end); eauto. }
  destruct F as [found F]. unfold enforce_path. rewrite F. simpl.
  destruct (override_capabilities self path found) as [c|].
  - rewrite apply_capabilities_dict. eauto.
  - simpl. eauto.
Qed.

Lemma enforce_edmx_capabilities_returns self (spec : dict) :
  (dict_get "paths" spec = None
   \/ exists paths,
       dict_get "paths" spec = Some (JObj paths)
       /\ forall k v, In (k, v) paths ->
            exists d, v = JObj d /\ type_lookup_ok v = true) ->
  exists spec',
    _enforce_edmx_capabilities self spec = Ok spec'
    /\ (dict_get "paths" spec' = None
        \/ exists paths',
            dict_get "paths" spec' = Some (JObj paths')
            /\ forall k v, In (k, v) paths' -> exists d, v = JObj d).
Proof.
  intros Hp. unfold _enforce_edmx_capabilities.
  destruct Hp as [Hp | (P & Hp & Hok)]; rewrite Hp.
  - exists spec. split; [reflexivity | now left].
  - destruct (edmx_capabilities self) as [|e es].
    + exists spec. split; [reflexivity|]. right. exists P.
      split; [exact Hp|]. intros k v Hin.
      destruct (Hok k v Hin) as (d & -> & _). eauto.
    + simpl.
      destruct (map_items_returns (enforce_path self spec) P) as [P' HP'].
      * intros k v Hin. destruct (Hok k v Hin) as (d & -> & Ht).
        destruct (enforce_path_returns self spec k d Ht) as [d' ->]. eauto.
      * rewrite HP'. simpl. eexists. split; [reflexivity|]. right.
        exists P'. split; [apply dict_get_set_same|].
        intros k v Hin.
        destruct (map_items_In _ _ _ k v HP' Hin) as (v0 & Hin0 & Hv).
        destruct (Hok k v0 Hin0) as (d & -> & _).
        apply enforce_path_Ok in Hv.
        destruct Hv as [-> | (d0 & found & c & _ & -> & _)]; eauto.
Qed.

Lemma remove_unused_schema_variants_returns self (spec c : dict) :
  dict_get "components" spec = Some (JObj c) ->
  (dict_get "schemas" c = None
   \/ exists schemas, dict_get "schemas" c = Some (JObj schemas)) ->
  (dict_get "paths" spec = None
   \/ exists paths,
       dict_get "paths" spec = Some (JObj paths)
       /\ forall k v, In (k, v) paths -> exists d, v = JObj d) ->
  exists spec', _remove_unused_schema_variants self spec = Ok spec'.
Proof.
  intros Hc Hs Hp. unfold _remove_unused_schema_variants.
  destruct Hp as [-> | (P & -> & Hok)]; [eauto|].
  rewrite Hc. simpl. unfold dict_has.
  destruct Hs as [-> | (S & ->)]; simpl; [eauto|].
  destruct (schemas_used_returns P Hok) as [u ->]. simpl. eauto.
Qed.

End Returns.

(** X24. The pipeline returns on well-formed documents.  When
    [components], if present, is a dictionary whose [parameters] and
    [schemas], if present, are dictionaries, every schema that is a
    dictionary has a dictionary as [properties] or none, and [paths], if
    present, is a dictionary with distinct keys whose items are
    dictionaries with a list as [parameters] or none and with [get] and
    [patch] operations from which the entity type can be read without
    an exception, then the enhancement raises nothing, whatever the
    metadata and the other arguments. *)
Theorem well_formed_document_is_enhanced (self : converter) (spec : dict)
  (title description api_name api_version tenant_placeholder : option string) :
  well_formed spec = true ->
  NoDup (path_names spec) ->
  exists out,
    _enhance_openapi_spec self spec title description api_name api_version
                          tenant_placeholder = Ok out.
Proof.
  intros Hwf Hnd. unfold well_formed in Hwf.
  apply andb_true_iff in Hwf. destruct Hwf as [Hcomp Hpaths].
  (* the base document *)
  assert (B1 : match dict_get "components" spec with
               | None | Some (JObj _) => True
               | Some _ => False
               end)
    by (destruct (dict_get "components" spec) as [[| | | | | |c0]|];
        try discriminate; exact I).
  assert (B2 : match component_of spec "parameters" with
               | None | Some (JObj _) => True
               | Some _ => False
               end).
  { unfold component_of.
    destruct (dict_get "components" spec) as [[| | | | | |c0]|];
      try exact I.
    unfold components_ok in Hcomp. apply andb_true_iff in Hcomp.
    destruct Hcomp as [Hcomp _].
    destruct (dict_get "parameters" c0) as [[| | | | | |ps]|];
      try discriminate; exact I. }
  assert (B3 : component_of spec "schemas" = None
               \/ exists schemas,
                   component_of spec "schemas" = Some (JObj schemas)
                   /\ forall n v, In (n, v) schemas -> schema_ok v = true).
  { unfold component_of.
    destruct (dict_get "components" spec) as [[| | | | | |c0]|];
      try (now left).
    unfold components_ok in Hcomp. apply andb_true_iff in Hcomp.
    destruct Hcomp as [_ Hcomp].
    destruct (dict_get "schemas" c0) as [[| | | | | |S]|];
      try discriminate; [|now left].
    right. exists S. split; [reflexivity|]. intros n v Hin.
    rewrite forallb_forall in Hcomp. exact (Hcomp (n, v) Hin). }
  assert (B4 : dict_get "paths" spec = None
               \/ exists paths,
                   dict_get "paths" spec = Some (JObj paths)
                   /\ NoDup (dict_keys paths)
                   /\ forall k v, In (k, v) paths -> item_ok v = true).
  { unfold path_names in Hnd.
    destruct (dict_get "paths" spec) as [[| | | | | |P]|];
      try discriminate; [|now left].
    right. exists P. split; [reflexivity|]. split; [exact Hnd|].
    intros k v Hin. rewrite forallb_forall in Hpaths.
    exact (Hpaths (k, v) Hin). }
  clear Hcomp Hpaths Hnd.
  (* the replaced sections *)
  destruct (replace_sections_returns spec title description api_name
              api_version tenant_placeholder B1) as [s1 H1].
  destruct (replace_sections_Ok _ _ _ _ _ _ _ H1) as [P1 [c1 C1]].
  pose proof (replace_sections_components _ _ _ _ _ _ _ "parameters" H1 eq_refl)
    as K1.
  pose proof (replace_sections_components _ _ _ _ _ _ _ "schemas" H1 eq_refl)
    as K2.
  rewrite <- K1 in B2. rewrite <- K2 in B3. rewrite <- P1 in B4.
  clear K1 K2 P1 B1.
  (* the company parameter *)
  destruct (add_company_parameter_returns s1 c1 C1) as [s2 H2].
  { unfold component_of in B2. now rewrite C1 in B2. }
  { exact B4. }
  destruct (add_company_parameter_Ok _ _ H2) as [Q2 P2].
  destruct (add_company_parameter_frame _ _ H2) as [_ F2].
  assert (C2 : exists c2, dict_get "components" s2 = Some (JObj c2)).
  { unfold parameter_of in Q2.
    destruct (dict_get "components" s2) as [[| | | | | |c2]|];
      try discriminate. eauto. }
  destruct C2 as [c2 C2].
  rewrite <- (F2 "schemas" eq_refl) in B3.
  assert (I2 : dict_get "paths" s2 = None
               \/ exists paths,
                   dict_get "paths" s2 = Some (JObj paths)
                   /\ forall k v, In (k, v) paths ->
                        exists d, v = JObj d /\ type_lookup_ok v = true).
  { destruct B4 as [E | (P & E & Hnd & Hok)]; rewrite E in P2; [now left|].
    destruct P2 as (items & new_paths & [= <-] & Ha & P2).
    rewrite add_company_refs_map_items in Ha by exact Hnd.
    bind_inv Ha as P' Hm. simpl in Ha. injection Ha as <-.
    right. exists P'. split; [exact P2|]. intros k v Hin.
    destruct (map_items_In _ _ _ k v Hm Hin) as (v0 & Hin0 & Hv).
    pose proof (Hok k v0 Hin0) as Hitem. unfold item_ok in Hitem.
    destruct v0 as [| | | | | |d0]; try discriminate.
    apply andb_true_iff in Hitem. destruct Hitem as [_ Ht].
    destruct (add_company_ref_members _ _ _ Hv) as (d' & -> & Hd').
    exists d'. split; [reflexivity|].
    unfold type_lookup_ok in *.
    now rewrite (extract_entity_type_members d0 d' [] []
                   (Hd' "get" eq_refl) (Hd' "patch" eq_refl)). }
  clear B2 B4 P2 Q2 F2.
  (* the navigation paths *)
  assert (H3 : exists s3,
             _remove_navigation_paths s2 = Ok s3
             /\ dict_get "components" s3 = Some (JObj c2)
             /\ (dict_get "paths" s3 = None
                 \/ exists paths,
                     dict_get "paths" s3 = Some (JObj paths)
                     /\ forall k v, In (k, v) paths ->
                          exists d, v = JObj d /\ type_lookup_ok v = true)).
  { destruct I2 as [E | (P & E & Hok)].
    - exists s2. split; [now apply remove_navigation_paths_none|]. auto.
    - eexists. split; [exact (remove_navigation_paths_dict _ _ E)|].
      split; [now rewrite dict_get_set_other by reflexivity|].
      right. eexists. split; [apply dict_get_set_same|].
      intros k v Hin. rewrite remove_selected_keys in Hin.
      apply filter_In in Hin. destruct Hin as [Hin _]. now apply (Hok k). }
  destruct H3 as (s3 & H3 & C3 & I3).
  (* the system fields *)
  destruct (remove_system_fields_returns s3 c2 C3) as [s4 H4].
  { unfold component_of in B3. now rewrite C2 in B3. }
  pose proof (remove_system_fields_paths _ _ H4) as P4.
  rewrite <- P4 in I3.
  assert (C4 : exists c4,
             dict_get "components" s4 = Some (JObj c4)
             /\ (dict_get "schemas" c4 = None
                 \/ exists schemas, dict_get "schemas" c4 = Some (JObj schemas))).
  { pose proof (remove_system_fields_Ok _ _ H4) as G.
    destruct G as [[-> _] | (c & S & S' & Ec & _ & _ & ->)].
    - exists c2. split; [exact C3|]. unfold component_of in B3.
      rewrite C2 in B3. destruct B3 as [B3 | (S & B3 & _)]; eauto.
    - eexists. split; [apply dict_get_set_same|].
      right. exists S'. apply dict_get_set_same. }
  destruct C4 as (c4 & C4 & S4).
  (* the capabilities *)
  destruct (enforce_edmx_capabilities_returns self s4 I3) as (s5 & H5 & I5).
  pose proof (enforce_edmx_capabilities_components _ _ _ H5) as C5.
  rewrite C4 in C5.
  (* the schema variants *)
  destruct (remove_unused_schema_variants_returns self s5 c4 C5 S4 I5)
    as [out H6].
  exists out. unfold _enhance_openapi_spec.
  rewrite H1. simpl. rewrite H2. simpl. rewrite H3. simpl.
  rewrite H4. simpl. rewrite H5. simpl. exact H6.
Qed.

Lemma well_formed_document_is_enhanced_witness :
  exists out,
    _enhance_openapi_spec items_converter items_base None None (Some "items")
                          None None = Ok out.
Proof.
  refine (well_formed_document_is_enhanced items_converter items_base
            None None (Some "items") None None eq_refl _).
  repeat constructor; simpl; intuition discriminate.
Defined.

(** X25. Sections of the wrong kind.  A base document whose
    [components] is present and no dictionary makes the enhancement
    raise, and so does one whose [paths] is present and no dictionary,
    whatever the rest of the document. *)
Theorem malformed_sections_raise (self : converter) (spec : dict)
  (title description api_name api_version tenant_placeholder : option string)
  (v : json) :
  (forall d, v <> JObj d) ->
  dict_get "components" spec = Some v \/ dict_get "paths" spec = Some v ->
  _enhance_openapi_spec self spec title description api_name api_version
                        tenant_placeholder = Raised.
Proof.
  intros Hv H. unfold _enhance_openapi_spec.
  destruct (replace_sections spec title description api_name api_version
              tenant_placeholder) as [s1|] eqn:H1; [|reflexivity].
  destruct H as [H | H].
  - exfalso. unfold replace_sections, dict_has in H1.
    rewrite !dict_get_set_other in H1 by reflexivity. rewrite H in H1.
    bind_inv H1 as c Hc. bind_inv H1 as c' Hc'.
    simpl in Hc. rewrite !dict_get_set_other in Hc by reflexivity.
    rewrite H in Hc. injection Hc as <-.
    apply py_setitem_Ok in Hc'. destruct Hc' as (d & -> & _).
    now destruct (Hv d).
  - simpl. destruct (_add_company_parameter s1) as [s2|] eqn:H2;
      [|reflexivity].
    exfalso. destruct (replace_sections_Ok _ _ _ _ _ _ _ H1) as [P1 _].
    destruct (add_company_parameter_Ok _ _ H2) as [_ P2].
    rewrite P1, H in P2. destruct P2 as (items & _ & -> & _).
    now destruct (Hv items).
Qed.

Lemma malformed_sections_raise_witness :
  _enhance_openapi_spec init [("paths", JArr [])] None None None None None
  = Raised
  /\ _enhance_openapi_spec init [("components", JNull)] None None None None None
     = Raised.
Proof.
  split.
  - exact (malformed_sections_raise init [("paths", JArr [])]
             None None None None None (JArr [])
             ltac:(discriminate) (or_intror eq_refl)).
  - exact (malformed_sections_raise init [("components", JNull)]
             None None None None None JNull
             ltac:(discriminate) (or_introl eq_refl)).
Defined.

(** ** The restrictions of an entity set *)

Section EntitySetRestrictions.

Lemma dict_get_allowed_ops_flags (c : capabilities) (k : string) (d : dict) :
  dict_get k (allowed_ops c d)
  = if String.eqb k "post" && negb (insertable c)
       || String.eqb k "patch" && negb (updatable c)
       || String.eqb k "delete" && negb (deletable c)
    then None else dict_get k d.
Proof.
  unfold allowed_ops. rewrite !dict_get_drop_op.
  rewrite (String.eqb_sym k "post"), (String.eqb_sym k "patch"),
    (String.eqb_sym k "delete").
  destruct (String.eqb "post" k) eqn:E1, (String.eqb "patch" k) eqn:E2,
    (String.eqb "delete" k) eqn:E3;
    destruct (deletable c), (updatable c), (insertable c);
    try reflexivity; exfalso;
    repeat match goal with
           | H : String.eqb _ k = true |- _ => apply String.eqb_eq in H
           end;
    congruence.
Qed.

End EntitySetRestrictions.

(** X26. The restrictions of an entity set reach its paths.  When the
    entity set extracted from a path is known with the record [c], and
    every restricted entity type whose name occurs in the path after a
    slash carries that same record, then enforcement leaves a path item
    that is a dictionary without [post] when [c] forbids inserting,
    without [patch] when it forbids updating and without [delete] when
    it forbids deleting, and with every other member as it was. *)
Theorem entity_set_restrictions_applied self (spec spec' : dict)
  (path x : string) (d : dict) (c : capabilities) :
  _enforce_edmx_capabilities self spec = Ok spec' ->
  path_item spec path = Some (JObj d) ->
  _extract_entity_set_from_path path = Some x ->
  x <> "" ->
  dict_get x (edmx_capabilities self) = Some c ->
  (forall n c', In (n, c') (entity_type_capabilities self) ->
                PyStr.contains ("/" ++ n) path = true ->
                all_allowed c' = true \/ c' = c) ->
  exists d',
    path_item spec' path = Some (JObj d')
    /\ forall k,
         dict_get k d'
         = if String.eqb k "post" && negb (insertable c)
              || String.eqb k "patch" && negb (updatable c)
              || String.eqb k "delete" && negb (deletable c)
           then None else dict_get k d.
Proof.
  intros H Hitem Hx Hne Hc Hover.
  exists (allowed_ops c d). split; [|intros k; apply dict_get_allowed_ops_flags].
  assert (E : enforce_path self spec path (JObj d)
              = Ok (JObj (allowed_ops c d))).
  { unfold enforce_path, find_capabilities. rewrite Hx.
    apply String.eqb_neq in Hne. rewrite Hne, Hc. simpl.
    assert (O : override_capabilities self path (Some c) = Some c).
    { unfold override_capabilities.
      destruct (find _ (entity_type_capabilities self)) as [[n c']|] eqn:F;
        [|reflexivity].
      apply find_some in F. destruct F as [Hin F]. simpl in F.
      apply andb_true_iff in F. destruct F as [F1 F2].
      destruct (Hover n c' Hin F1) as [A | ->]; [|reflexivity].
      rewrite A in F2. discriminate. }
    rewrite O. apply apply_capabilities_dict. }
  unfold path_item in *.
  apply enforce_edmx_capabilities_Ok in H.
  destruct H as [[-> [Hn | Hn]] | (items & items' & _ & Hp & Hm & ->)].
  - now rewrite Hn in Hitem.
  - rewrite Hn in Hc. discriminate.
  - rewrite Hp in Hitem. rewrite dict_get_set_same.
    pose proof (map_items_get _ _ _ path Hm) as G. rewrite Hitem in G.
    destruct G as (v' & Hv & G). rewrite E in Hv. injection Hv as <-.
    exact G.
Qed.

Lemma entity_set_restrictions_applied_witness :
  exists d',
    path_item
      [("paths",
        JObj [("/companies({id})/Items",
               JObj [("get", JObj []); ("post", JObj []); ("patch", JObj [])])])]
      "/companies({id})/Items"
    = Some (JObj d')
    /\ forall k,
         dict_get k d'
         = if String.eqb k "post" && negb (insertable no_delete)
              || String.eqb k "patch" && negb (updatable no_delete)
              || String.eqb k "delete" && negb (deletable no_delete)
           then None
           else dict_get k
                  [("get", JObj []); ("post", JObj []); ("patch", JObj [])].
Proof.
  refine (entity_set_restrictions_applied items_converter
            [("paths",
              JObj [("/companies({id})/Items",
                     JObj [("get", JObj []); ("post", JObj []);
                           ("patch", JObj [])])])]
            _ "/companies({id})/Items" "Items"
            [("get", JObj []); ("post", JObj []); ("patch", JObj [])]
            no_delete eq_refl eq_refl eq_refl ltac:(discriminate) eq_refl _).
  intros n c' [[= <- <-] | []] _. now right.
Defined.

(** ** System endpoints *)

Section SystemEndpoints.

Lemma startswith_refl (s : string) : PyStr.startswith s s = true.
Proof. induction s as [|c s IH]; simpl; [reflexivity|]. now rewrite Ascii.eqb_refl. Qed.

(** A system endpoint is under one of the prefixes that get no company
    parameter. *)
Lemma system_endpoint_no_company (path : string) :
  is_system_endpoint path = true -> no_company path = true.
Proof.
  unfold is_system_endpoint, no_company. intros H.
  apply orb_true_iff in H. destruct H as [H | H].
  - apply orb_true_iff in H. destruct H as [H | H].
    + apply existsb_exists in H. destruct H as (prefix & Hin & H).
      apply existsb_exists. exists prefix. split.
      * unfold system_prefixes in Hin. unfold no_company_prefixes.
        simpl in *. intuition.
      * apply orb_true_iff in H. destruct H as [H | H].
        -- apply String.eqb_eq in H. subst. apply startswith_refl.
        -- exact (startswith_shorter _ _ _ H).
    + apply String.eqb_eq in H. subst. reflexivity.
  - apply String.eqb_eq in H. subst. reflexivity.
Qed.

End SystemEndpoints.

(** X27. System endpoints pass through.  A system endpoint is under an
    excluded prefix and is no navigation path; so, in a run without
    capability records on a base document whose [paths] is a dictionary
    with distinct keys, the item of a system endpoint comes out exactly
    as it was: no parameter is added and nothing is removed. *)
Theorem system_endpoints_pass_through (self : converter) (spec out : dict)
  (title description api_name api_version tenant_placeholder : option string)
  (paths0 : dict) (path : string) :
  edmx_capabilities self = [] ->
  _enhance_openapi_spec self spec title description api_name api_version
                        tenant_placeholder = Ok out ->
  dict_get "paths" spec = Some (JObj paths0) ->
  NoDup (dict_keys paths0) ->
  is_system_endpoint path = true ->
  no_company path = true
  /\ is_navigation_path path = false
  /\ path_item out path = dict_get path paths0.
Proof.
  intros Hcap H Hp Hnd Hsys.
  pose proof (system_endpoint_no_company path Hsys) as Hno.
  assert (Hnav : is_navigation_path path = false)
    by (unfold is_navigation_path; now rewrite Hsys).
  split; [exact Hno|]. split; [exact Hnav|].
  apply enhance_Ok in H.
  destruct H as (s1 & s2 & s3 & s4 & s5 & H1 & H2 & H3 & H4 & H5 & H6).
  apply replace_sections_Ok in H1. destruct H1 as [P1 _].
  apply add_company_parameter_Ok in H2. destruct H2 as [_ P2].
  rewrite P1, Hp in P2. destruct P2 as (items & new_paths & [= <-] & Ha & P2).
  rewrite add_company_refs_map_items in Ha by exact Hnd.
  bind_inv Ha as paths1 Hm. simpl in Ha. injection Ha as <-.
  rewrite (remove_navigation_paths_dict _ _ P2) in H3. injection H3 as <-.
  rewrite remove_selected_keys in *.
  apply remove_system_fields_paths in H4. rewrite dict_get_set_same in H4.
  apply remove_unused_schema_variants_paths in H6.
  assert (E5 : s5 = s4).
  { unfold _enforce_edmx_capabilities in H5. rewrite Hcap in H5.
    destruct (dict_get "paths" s4); now injection H5 as <-. }
  subst s5. unfold path_item. rewrite H6, H4.
  rewrite (dict_get_filter_keys (fun p => negb (is_navigation_path p))), Hnav.
  simpl.
  pose proof (map_items_get _ _ _ path Hm) as G.
  destruct (dict_get path paths0) as [v|]; [|exact G].
  destruct G as (v' & Hv & G). unfold add_company_ref in Hv.
  rewrite Hno in Hv. injection Hv as <-. exact G.
Qed.

Lemma system_endpoints_pass_through_witness :
  exists out,
    _enhance_openapi_spec init
      [("paths",
        JObj [("/subscriptions({id})", JObj [("delete", JObj [])]);
              ("/items", JObj [("get", JObj [])])])]
      None None None None None = Ok out
    /\ path_item out "/subscriptions({id})" = Some (JObj [("delete", JObj [])]).
Proof.
  eexists. split; [vm_compute; reflexivity|].
  exact (proj2 (proj2 (system_endpoints_pass_through init
                         [("paths",
                           JObj [("/subscriptions({id})",
                                  JObj [("delete", JObj [])]);
                                 ("/items", JObj [("get", JObj [])])])]
                         _ None None None None None
                         [("/subscriptions({id})", JObj [("delete", JObj [])]);
                          ("/items", JObj [("get", JObj [])])]
                         "/subscriptions({id})" eq_refl eq_refl eq_refl
                         ltac:(repeat constructor; simpl; intuition discriminate)
                         eq_refl))).
Defined.
